(** * EKF sensor intake: a shallow embedding of [EKF/estimator_interface.cpp]

    The intake routines of [EstimatorInterface] are embedded as total
    functions on an explicit record of the object's fields.

    - Unsigned integers are [Z] with the wrap-around written out
      ([u8], [u16], [u32], [u64]).
    - [float] is IEEE-754 binary32, computed with the Standard Library's
      [SpecFloat] at precision 24 and maximal exponent 128.
    - What the routines obtain from outside the translation unit (the result
      of an allocation, of the virtual [collect_imu] and [collect_gps], of the
      map projection, the contents of an uninitialised local) is an explicit
      argument of the embedded routine.
    - The headers are not part of the translation unit.  Field widths are the
      ones the arithmetic of the file presupposes: time stamps are
      [uint64_t] (the parameters' declared type), the buffer lengths and the
      drag sample count fit the [uint8_t] down-sample ratio they are compared
      with, [_min_obs_interval_us] and [_imu_ticks] are [unsigned].  The
      theorems below ask for the values to be in range wherever a width
      matters, so that they also hold for wider fields. *)

From Stdlib Require Import ZArith List Bool Lia Sorted SpecFloat.
Import ListNotations.
Local Open Scope Z_scope.

(** ** Machine integers *)

Definition wrap (bits x : Z) : Z := x mod 2 ^ bits.
Definition u8 (x : Z) : Z := wrap 8 x.
Definition u16 (x : Z) : Z := wrap 16 x.
Definition u32 (x : Z) : Z := wrap 32 x.
Definition u64 (x : Z) : Z := wrap 64 x.

(** ** Single-precision floats *)

Module F32.

Definition prec : Z := 24.
Definition emax : Z := 128.

Definition float : Type := spec_float.

Definition zero : float := S754_zero false.
Definition nan : float := S754_nan.

Definition add : float -> float -> float := SFadd prec emax.
Definition sub : float -> float -> float := SFsub prec emax.
Definition mul : float -> float -> float := SFmul prec emax.
Definition div : float -> float -> float := SFdiv prec emax.
Definition sqrt : float -> float := SFsqrt prec emax.
Definition opp : float -> float := SFopp.

Definition ltb : float -> float -> bool := SFltb.
Definition leb : float -> float -> bool := SFleb.
Definition gtb (a b : float) : bool := SFltb b a.
Definition geb (a b : float) : bool := SFleb b a.

(** Conversion of an integer to [float], round to nearest even. *)
Definition of_Z (n : Z) : float := binary_normalize prec emax n 0 false.

(** The decimal literal [num / den] for integers that are exact in binary32:
    the correctly rounded quotient, which is what the compiler stores. *)
Definition lit (num den : Z) : float := div (of_Z num) (of_Z den).

(** [PX4_ISFINITE] *)
Definition is_finite (x : float) : bool :=
  match x with
  | S754_zero _ | S754_finite _ _ _ => true
  | S754_infinity _ | S754_nan => false
  end.

(** [ceilf] *)
Definition ceilf (x : float) : float :=
  match x with
  | S754_finite s m e =>
      if 0 <=? e then x
      else
        let n := cond_Zopp s (Zpos m) in
        let c := - ((- n) / 2 ^ (- e)) in
        if c =? 0 then S754_zero s else of_Z c
  | _ => x
  end.

(** Conversion to an integer type truncates toward zero; [None] where the
    conversion is undefined for every integer type (infinities and NaN). *)
Definition trunc (x : float) : option Z :=
  match x with
  | S754_zero _ => Some 0
  | S754_finite s m e =>
      let n := cond_Zopp s (Zpos m) in
      Some (if 0 <=? e then n * 2 ^ e else Z.quot n (2 ^ (- e)))
  | _ => None
  end.

(** The cast [(uint8_t) x].  Out of range the C++ conversion is undefined;
    the embedding wraps a finite value and yields 0 for infinities and NaN. *)
Definition to_u8 (x : float) : Z :=
  match trunc x with Some z => u8 z | None => 0 end.

(** The cast [(int) x], same convention. *)
Definition to_int (x : float) : Z :=
  match trunc x with Some z => z | None => 0 end.

End F32.

Definition float : Type := F32.float.

(** ** The [math::] helpers used by the file

    [mathlib] is outside the translation unit; these are its usual one-line
    templates. *)

Module math.

(** Modelled from the spec: [math::constrain] is absent from the sources; the
    spec calls it [clamp(val, lo, hi)]. *)
Definition constrain (val lo hi : float) : float :=
  if F32.ltb val lo then lo else if F32.gtb val hi then hi else val.

(** Modelled from the spec: [math::max] is absent from the sources; the spec
    reads it as the maximum of its two arguments. *)
Definition max (a b : Z) : Z := if a >? b then a else b.

(** Modelled from the spec: [math::min] is absent from the sources; the spec
    reads it as the minimum of its two arguments. *)
Definition min (a b : Z) : Z := if a <? b then a else b.

End math.

(** ** Vectors *)

Record Vector3f : Type := mkVector3f { v3_0 : float; v3_1 : float; v3_2 : float }.
Record Vector2f : Type := mkVector2f { v2_0 : float; v2_1 : float }.

Definition Vector3f_zero : Vector3f := mkVector3f F32.zero F32.zero F32.zero.
Definition Vector2f_zero : Vector2f := mkVector2f F32.zero F32.zero.

Definition Vector3f_sub (a b : Vector3f) : Vector3f :=
  mkVector3f (F32.sub (v3_0 a) (v3_0 b)) (F32.sub (v3_1 a) (v3_1 b))
             (F32.sub (v3_2 a) (v3_2 b)).

Definition Vector3f_neg (a : Vector3f) : Vector3f :=
  mkVector3f (F32.opp (v3_0 a)) (F32.opp (v3_1 a)) (F32.opp (v3_2 a)).

Definition Vector2f_neg (a : Vector2f) : Vector2f :=
  mkVector2f (F32.opp (v2_0 a)) (F32.opp (v2_1 a)).

(** Modelled from the spec: the vector library is absent from the sources;
    the spec writes the quotient of a vector by a scalar component by
    component ([delta_ang / delta_ang_dt], [flowdata / delta_time]). *)
Definition Vector3f_div (a : Vector3f) (k : float) : Vector3f :=
  mkVector3f (F32.div (v3_0 a) k) (F32.div (v3_1 a) k) (F32.div (v3_2 a) k).

Definition Vector2f_div (a : Vector2f) (k : float) : Vector2f :=
  mkVector2f (F32.div (v2_0 a) k) (F32.div (v2_1 a) k).

(** Modelled from the spec: [norm] of the absent vector library, the
    Euclidean length written [‖·‖] by the spec. *)
Definition Vector3f_norm (a : Vector3f) : float :=
  F32.sqrt (F32.add (F32.add (F32.mul (v3_0 a) (v3_0 a)) (F32.mul (v3_1 a) (v3_1 a)))
                    (F32.mul (v3_2 a) (v3_2 a))).

Definition Vector2f_norm (a : Vector2f) : float :=
  F32.sqrt (F32.add (F32.mul (v2_0 a) (v2_0 a)) (F32.mul (v2_1 a) (v2_1 a))).

(** Modelled from the spec: [cross_product] is declared outside the sources;
    the spec's coning metric is the length of [delta_ang × delta_ang_prev]. *)
Definition cross_product (a b : Vector3f) : Vector3f :=
  mkVector3f (F32.sub (F32.mul (v3_1 a) (v3_2 b)) (F32.mul (v3_2 a) (v3_1 b)))
             (F32.sub (F32.mul (v3_2 a) (v3_0 b)) (F32.mul (v3_0 a) (v3_2 b)))
             (F32.sub (F32.mul (v3_0 a) (v3_1 b)) (F32.mul (v3_1 a) (v3_0 b))).

(** ** Samples and driver messages (the spec's data model) *)

Record imuSample : Type := mkImuSample {
  imu_delta_ang : Vector3f;
  imu_delta_vel : Vector3f;
  imu_delta_ang_dt : float;
  imu_delta_vel_dt : float;
  imu_time_us : Z
}.

Record magSample : Type := mkMagSample { mag_mag : Vector3f; mag_time_us : Z }.

Record gpsSample : Type := mkGpsSample {
  gps_pos : Vector2f;
  gps_hgt : float;
  gps_vel : Vector3f;
  gps_hacc : float;
  gps_vacc : float;
  gps_sacc : float;
  gps_time_us : Z
}.

Record baroSample : Type := mkBaroSample { baro_hgt : float; baro_time_us : Z }.

Record airspeedSample : Type := mkAirspeedSample {
  airspeed_true_airspeed : float;
  airspeed_eas2tas : float;
  airspeed_time_us : Z
}.

Record rangeSample : Type := mkRangeSample { range_rng : float; range_time_us : Z }.

Record flowSample : Type := mkFlowSample {
  flow_quality : Z;
  flow_flowRadXY : Vector2f;
  flow_gyroXYZ : Vector3f;
  flow_flowRadXYcomp : Vector2f;
  flow_dt : float;
  flow_time_us : Z
}.

Record extVisionSample : Type := mkExtVisionSample {
  ev_posNED : Vector3f;
  ev_quat : float * float * float * float;
  ev_posErr : float;
  ev_angErr : float;
  ev_time_us : Z
}.

Record auxVelSample : Type := mkAuxVelSample {
  auxvel_velNE : Vector2f;
  auxvel_velVarNE : Vector2f;
  auxvel_time_us : Z
}.

Record dragSample : Type := mkDragSample { drag_accelXY : Vector2f; drag_time_us : Z }.

(** The output predictor's samples are only allocated here. *)
Record outputSample : Type := mkOutputSample { output_time_us : Z }.
Record outputVert : Type := mkOutputVert { outputvert_time_us : Z }.

Record gps_message : Type := mkGpsMessage {
  gpsm_time_usec : Z;
  gpsm_lat : Z;
  gpsm_lon : Z;
  gpsm_alt : Z;
  gpsm_fix_type : Z;
  gpsm_eph : float;
  gpsm_epv : float;
  gpsm_sacc : float;
  gpsm_vel_ned : Vector3f;
  gpsm_vel_ned_valid : bool
}.

Record flow_message : Type := mkFlowMessage {
  flowm_quality : Z;
  flowm_flowdata : Vector2f;
  flowm_gyrodata : Vector3f;
  flowm_dt : Z
}.

Record ext_vision_message : Type := mkExtVisionMessage {
  evm_posNED : Vector3f;
  evm_quat : float * float * float * float;
  evm_posErr : float;
  evm_angErr : float
}.

(** ** Ring buffer *)

Module RingBuffer.

(** Modelled from the spec: the [RingBuffer] template is absent from the
    sources.  Following the spec it is a bounded FIFO: [length] is the
    capacity, [pushed] records, oldest first, every sample pushed since the
    storage was reserved, and the buffer retains the last [length] of them
    (a push on a full buffer overwrites the oldest element). *)
Record t (T : Type) : Type := mk { length : Z; pushed : list T }.
Arguments mk {T} _ _.
Arguments length {T} _.
Arguments pushed {T} _.

Definition empty {T : Type} : t T := mk 0 [].

Definition get_length {T : Type} (b : t T) : Z := length b.

(** [allocate] reserves the capacity and reports success; it is idempotent
    for the same length, and a failed allocation leaves the buffer without
    storage. *)
Definition allocate {T : Type} (len : Z) (ok : bool) (b : t T) : bool * t T :=
  if ok then (true, if length b =? len then b else mk len [])
  else (false, empty).

Definition unallocate {T : Type} (b : t T) : t T := empty.

Definition push {T : Type} (x : T) (b : t T) : t T :=
  mk (length b) (pushed b ++ [x]).

(** The retained window: the last [length] pushed samples, oldest first. *)
Definition retained {T : Type} (b : t T) : list T :=
  skipn (List.length (pushed b) - Z.to_nat (length b)) (pushed b).

(** [get_oldest]; on an empty buffer the result is undefined and [dflt]
    stands for it. *)
Definition get_oldest {T : Type} (dflt : T) (b : t T) : T :=
  hd dflt (retained b).

(** [read_first_older_than]: the retained sample with the greatest
    [time_us] not above [t]; [None] when there is none. *)
Definition read_first_older_than {T : Type} (time_us : T -> Z) (t0 : Z) (b : t T)
  : option T :=
  fold_left
    (fun best x =>
       if time_us x <=? t0 then
         match best with
         | Some y => if time_us y <=? time_us x then Some x else best
         | None => Some x
         end
       else best)
    (retained b) None.

End RingBuffer.

(** ** Parameters and the object's fields *)

(** Modelled from the spec: the [parameters] structure is declared outside the
    sources; the spec lists its options, the delays being whole
    milliseconds. *)
Record parameters : Type := mkParameters {
  fusion_mode : Z;
  vdist_sensor_type : Z;
  sensor_interval_min_ms : Z;
  min_delay_ms : Z;
  mag_delay_ms : Z;
  baro_delay_ms : Z;
  gps_delay_ms : Z;
  airspeed_delay_ms : Z;
  flow_delay_ms : Z;
  range_delay_ms : Z;
  ev_delay_ms : Z;
  auxvel_delay_ms : Z;
  flow_qual_min : Z;
  flow_rate_max : float
}.

(** The members of [EstimatorInterface] that the file reads or writes.
    [_control_status_in_air] is [_control_status.flags.in_air] and
    [_fault_status_value] is [_fault_status.value]. *)
Record EstimatorInterface : Type := mkEstimatorInterface {
  _params : parameters;
  _control_status_in_air : bool;
  _initialised : bool;
  _obs_buffer_length : Z;
  _imu_buffer_length : Z;
  _min_obs_interval_us : Z;
  _dt_imu_avg : float;
  _imu_ticks : Z;
  _imu_updated : bool;
  _imu_sample_new : imuSample;
  _imu_sample_delayed : imuSample;
  _delta_ang_prev : Vector3f;
  _delta_vel_prev : Vector3f;
  _vibe_metrics : Vector3f;
  _drag_down_sampled : dragSample;
  _drag_sample_count : Z;
  _drag_sample_time_dt : float;
  _gps_speed_valid : bool;
  _deadreckon_time_exceeded : bool;
  _fault_status_value : Z;
  _imu_buffer : RingBuffer.t imuSample;
  _gps_buffer : RingBuffer.t gpsSample;
  _mag_buffer : RingBuffer.t magSample;
  _baro_buffer : RingBuffer.t baroSample;
  _range_buffer : RingBuffer.t rangeSample;
  _airspeed_buffer : RingBuffer.t airspeedSample;
  _flow_buffer : RingBuffer.t flowSample;
  _ext_vision_buffer : RingBuffer.t extVisionSample;
  _output_buffer : RingBuffer.t outputSample;
  _output_vert_buffer : RingBuffer.t outputVert;
  _drag_buffer : RingBuffer.t dragSample;
  _auxvel_buffer : RingBuffer.t auxVelSample;
  _gps_buffer_fail : bool;
  _mag_buffer_fail : bool;
  _baro_buffer_fail : bool;
  _range_buffer_fail : bool;
  _airspeed_buffer_fail : bool;
  _flow_buffer_fail : bool;
  _ev_buffer_fail : bool;
  _drag_buffer_fail : bool;
  _auxvel_buffer_fail : bool;
  _time_last_imu : Z;
  _time_last_gps : Z;
  _time_last_mag : Z;
  _time_last_baro : Z;
  _time_last_range : Z;
  _time_last_airspeed : Z;
  _time_last_ext_vision : Z;
  _time_last_optflow : Z;
  _time_last_auxvel : Z
}.

(** Field updates, one per member. *)

Definition set_params (v : parameters) (s : EstimatorInterface) : EstimatorInterface :=
  mkEstimatorInterface v (_control_status_in_air s) (_initialised s)
    (_obs_buffer_length s) (_imu_buffer_length s) (_min_obs_interval_us s)
    (_dt_imu_avg s) (_imu_ticks s) (_imu_updated s) (_imu_sample_new s)
    (_imu_sample_delayed s) (_delta_ang_prev s) (_delta_vel_prev s) (_vibe_metrics s)
    (_drag_down_sampled s) (_drag_sample_count s) (_drag_sample_time_dt s)
    (_gps_speed_valid s) (_deadreckon_time_exceeded s) (_fault_status_value s)
    (_imu_buffer s) (_gps_buffer s) (_mag_buffer s) (_baro_buffer s) (_range_buffer s)
    (_airspeed_buffer s) (_flow_buffer s) (_ext_vision_buffer s) (_output_buffer s)
    (_output_vert_buffer s) (_drag_buffer s) (_auxvel_buffer s) (_gps_buffer_fail s)
    (_mag_buffer_fail s) (_baro_buffer_fail s) (_range_buffer_fail s)
    (_airspeed_buffer_fail s) (_flow_buffer_fail s) (_ev_buffer_fail s)
    (_drag_buffer_fail s) (_auxvel_buffer_fail s) (_time_last_imu s) (_time_last_gps s)
    (_time_last_mag s) (_time_last_baro s) (_time_last_range s) (_time_last_airspeed s)
    (_time_last_ext_vision s) (_time_last_optflow s) (_time_last_auxvel s).

Definition set_control_status_in_air (v : bool) (s : EstimatorInterface) : EstimatorInterface :=
  mkEstimatorInterface (_params s) v (_initialised s) (_obs_buffer_length s)
    (_imu_buffer_length s) (_min_obs_interval_us s) (_dt_imu_avg s) (_imu_ticks s)
    (_imu_updated s) (_imu_sample_new s) (_imu_sample_delayed s) (_delta_ang_prev s)
    (_delta_vel_prev s) (_vibe_metrics s) (_drag_down_sampled s) (_drag_sample_count s)
    (_drag_sample_time_dt s) (_gps_speed_valid s) (_deadreckon_time_exceeded s)
    (_fault_status_value s) (_imu_buffer s) (_gps_buffer s) (_mag_buffer s)
    (_baro_buffer s) (_range_buffer s) (_airspeed_buffer s) (_flow_buffer s)
    (_ext_vision_buffer s) (_output_buffer s) (_output_vert_buffer s) (_drag_buffer s)
    (_auxvel_buffer s) (_gps_buffer_fail s) (_mag_buffer_fail s) (_baro_buffer_fail s)
    (_range_buffer_fail s) (_airspeed_buffer_fail s) (_flow_buffer_fail s)
    (_ev_buffer_fail s) (_drag_buffer_fail s) (_auxvel_buffer_fail s) (_time_last_imu s)
    (_time_last_gps s) (_time_last_mag s) (_time_last_baro s) (_time_last_range s)
    (_time_last_airspeed s) (_time_last_ext_vision s) (_time_last_optflow s)
    (_time_last_auxvel s).

Definition set_initialised (v : bool) (s : EstimatorInterface) : EstimatorInterface :=
  mkEstimatorInterface (_params s) (_control_status_in_air s) v (_obs_buffer_length s)
    (_imu_buffer_length s) (_min_obs_interval_us s) (_dt_imu_avg s) (_imu_ticks s)
    (_imu_updated s) (_imu_sample_new s) (_imu_sample_delayed s) (_delta_ang_prev s)
    (_delta_vel_prev s) (_vibe_metrics s) (_drag_down_sampled s) (_drag_sample_count s)
    (_drag_sample_time_dt s) (_gps_speed_valid s) (_deadreckon_time_exceeded s)
    (_fault_status_value s) (_imu_buffer s) (_gps_buffer s) (_mag_buffer s)
    (_baro_buffer s) (_range_buffer s) (_airspeed_buffer s) (_flow_buffer s)
    (_ext_vision_buffer s) (_output_buffer s) (_output_vert_buffer s) (_drag_buffer s)
    (_auxvel_buffer s) (_gps_buffer_fail s) (_mag_buffer_fail s) (_baro_buffer_fail s)
    (_range_buffer_fail s) (_airspeed_buffer_fail s) (_flow_buffer_fail s)
    (_ev_buffer_fail s) (_drag_buffer_fail s) (_auxvel_buffer_fail s) (_time_last_imu s)
    (_time_last_gps s) (_time_last_mag s) (_time_last_baro s) (_time_last_range s)
    (_time_last_airspeed s) (_time_last_ext_vision s) (_time_last_optflow s)
    (_time_last_auxvel s).

Definition set_obs_buffer_length (v : Z) (s : EstimatorInterface) : EstimatorInterface :=
  mkEstimatorInterface (_params s) (_control_status_in_air s) (_initialised s) v
    (_imu_buffer_length s) (_min_obs_interval_us s) (_dt_imu_avg s) (_imu_ticks s)
    (_imu_updated s) (_imu_sample_new s) (_imu_sample_delayed s) (_delta_ang_prev s)
    (_delta_vel_prev s) (_vibe_metrics s) (_drag_down_sampled s) (_drag_sample_count s)
    (_drag_sample_time_dt s) (_gps_speed_valid s) (_deadreckon_time_exceeded s)
    (_fault_status_value s) (_imu_buffer s) (_gps_buffer s) (_mag_buffer s)
    (_baro_buffer s) (_range_buffer s) (_airspeed_buffer s) (_flow_buffer s)
    (_ext_vision_buffer s) (_output_buffer s) (_output_vert_buffer s) (_drag_buffer s)
    (_auxvel_buffer s) (_gps_buffer_fail s) (_mag_buffer_fail s) (_baro_buffer_fail s)
    (_range_buffer_fail s) (_airspeed_buffer_fail s) (_flow_buffer_fail s)
    (_ev_buffer_fail s) (_drag_buffer_fail s) (_auxvel_buffer_fail s) (_time_last_imu s)
    (_time_last_gps s) (_time_last_mag s) (_time_last_baro s) (_time_last_range s)
    (_time_last_airspeed s) (_time_last_ext_vision s) (_time_last_optflow s)
    (_time_last_auxvel s).

Definition set_imu_buffer_length (v : Z) (s : EstimatorInterface) : EstimatorInterface :=
  mkEstimatorInterface (_params s) (_control_status_in_air s) (_initialised s)
    (_obs_buffer_length s) v (_min_obs_interval_us s) (_dt_imu_avg s) (_imu_ticks s)
    (_imu_updated s) (_imu_sample_new s) (_imu_sample_delayed s) (_delta_ang_prev s)
    (_delta_vel_prev s) (_vibe_metrics s) (_drag_down_sampled s) (_drag_sample_count s)
    (_drag_sample_time_dt s) (_gps_speed_valid s) (_deadreckon_time_exceeded s)
    (_fault_status_value s) (_imu_buffer s) (_gps_buffer s) (_mag_buffer s)
    (_baro_buffer s) (_range_buffer s) (_airspeed_buffer s) (_flow_buffer s)
    (_ext_vision_buffer s) (_output_buffer s) (_output_vert_buffer s) (_drag_buffer s)
    (_auxvel_buffer s) (_gps_buffer_fail s) (_mag_buffer_fail s) (_baro_buffer_fail s)
    (_range_buffer_fail s) (_airspeed_buffer_fail s) (_flow_buffer_fail s)
    (_ev_buffer_fail s) (_drag_buffer_fail s) (_auxvel_buffer_fail s) (_time_last_imu s)
    (_time_last_gps s) (_time_last_mag s) (_time_last_baro s) (_time_last_range s)
    (_time_last_airspeed s) (_time_last_ext_vision s) (_time_last_optflow s)
    (_time_last_auxvel s).

Definition set_min_obs_interval_us (v : Z) (s : EstimatorInterface) : EstimatorInterface :=
  mkEstimatorInterface (_params s) (_control_status_in_air s) (_initialised s)
    (_obs_buffer_length s) (_imu_buffer_length s) v (_dt_imu_avg s) (_imu_ticks s)
    (_imu_updated s) (_imu_sample_new s) (_imu_sample_delayed s) (_delta_ang_prev s)
    (_delta_vel_prev s) (_vibe_metrics s) (_drag_down_sampled s) (_drag_sample_count s)
    (_drag_sample_time_dt s) (_gps_speed_valid s) (_deadreckon_time_exceeded s)
    (_fault_status_value s) (_imu_buffer s) (_gps_buffer s) (_mag_buffer s)
    (_baro_buffer s) (_range_buffer s) (_airspeed_buffer s) (_flow_buffer s)
    (_ext_vision_buffer s) (_output_buffer s) (_output_vert_buffer s) (_drag_buffer s)
    (_auxvel_buffer s) (_gps_buffer_fail s) (_mag_buffer_fail s) (_baro_buffer_fail s)
    (_range_buffer_fail s) (_airspeed_buffer_fail s) (_flow_buffer_fail s)
    (_ev_buffer_fail s) (_drag_buffer_fail s) (_auxvel_buffer_fail s) (_time_last_imu s)
    (_time_last_gps s) (_time_last_mag s) (_time_last_baro s) (_time_last_range s)
    (_time_last_airspeed s) (_time_last_ext_vision s) (_time_last_optflow s)
    (_time_last_auxvel s).

Definition set_dt_imu_avg (v : float) (s : EstimatorInterface) : EstimatorInterface :=
  mkEstimatorInterface (_params s) (_control_status_in_air s) (_initialised s)
    (_obs_buffer_length s) (_imu_buffer_length s) (_min_obs_interval_us s) v
    (_imu_ticks s) (_imu_updated s) (_imu_sample_new s) (_imu_sample_delayed s)
    (_delta_ang_prev s) (_delta_vel_prev s) (_vibe_metrics s) (_drag_down_sampled s)
    (_drag_sample_count s) (_drag_sample_time_dt s) (_gps_speed_valid s)
    (_deadreckon_time_exceeded s) (_fault_status_value s) (_imu_buffer s)
    (_gps_buffer s) (_mag_buffer s) (_baro_buffer s) (_range_buffer s)
    (_airspeed_buffer s) (_flow_buffer s) (_ext_vision_buffer s) (_output_buffer s)
    (_output_vert_buffer s) (_drag_buffer s) (_auxvel_buffer s) (_gps_buffer_fail s)
    (_mag_buffer_fail s) (_baro_buffer_fail s) (_range_buffer_fail s)
    (_airspeed_buffer_fail s) (_flow_buffer_fail s) (_ev_buffer_fail s)
    (_drag_buffer_fail s) (_auxvel_buffer_fail s) (_time_last_imu s) (_time_last_gps s)
    (_time_last_mag s) (_time_last_baro s) (_time_last_range s) (_time_last_airspeed s)
    (_time_last_ext_vision s) (_time_last_optflow s) (_time_last_auxvel s).

Definition set_imu_ticks (v : Z) (s : EstimatorInterface) : EstimatorInterface :=
  mkEstimatorInterface (_params s) (_control_status_in_air s) (_initialised s)
    (_obs_buffer_length s) (_imu_buffer_length s) (_min_obs_interval_us s)
    (_dt_imu_avg s) v (_imu_updated s) (_imu_sample_new s) (_imu_sample_delayed s)
    (_delta_ang_prev s) (_delta_vel_prev s) (_vibe_metrics s) (_drag_down_sampled s)
    (_drag_sample_count s) (_drag_sample_time_dt s) (_gps_speed_valid s)
    (_deadreckon_time_exceeded s) (_fault_status_value s) (_imu_buffer s)
    (_gps_buffer s) (_mag_buffer s) (_baro_buffer s) (_range_buffer s)
    (_airspeed_buffer s) (_flow_buffer s) (_ext_vision_buffer s) (_output_buffer s)
    (_output_vert_buffer s) (_drag_buffer s) (_auxvel_buffer s) (_gps_buffer_fail s)
    (_mag_buffer_fail s) (_baro_buffer_fail s) (_range_buffer_fail s)
    (_airspeed_buffer_fail s) (_flow_buffer_fail s) (_ev_buffer_fail s)
    (_drag_buffer_fail s) (_auxvel_buffer_fail s) (_time_last_imu s) (_time_last_gps s)
    (_time_last_mag s) (_time_last_baro s) (_time_last_range s) (_time_last_airspeed s)
    (_time_last_ext_vision s) (_time_last_optflow s) (_time_last_auxvel s).

Definition set_imu_updated (v : bool) (s : EstimatorInterface) : EstimatorInterface :=
  mkEstimatorInterface (_params s) (_control_status_in_air s) (_initialised s)
    (_obs_buffer_length s) (_imu_buffer_length s) (_min_obs_interval_us s)
    (_dt_imu_avg s) (_imu_ticks s) v (_imu_sample_new s) (_imu_sample_delayed s)
    (_delta_ang_prev s) (_delta_vel_prev s) (_vibe_metrics s) (_drag_down_sampled s)
    (_drag_sample_count s) (_drag_sample_time_dt s) (_gps_speed_valid s)
    (_deadreckon_time_exceeded s) (_fault_status_value s) (_imu_buffer s)
    (_gps_buffer s) (_mag_buffer s) (_baro_buffer s) (_range_buffer s)
    (_airspeed_buffer s) (_flow_buffer s) (_ext_vision_buffer s) (_output_buffer s)
    (_output_vert_buffer s) (_drag_buffer s) (_auxvel_buffer s) (_gps_buffer_fail s)
    (_mag_buffer_fail s) (_baro_buffer_fail s) (_range_buffer_fail s)
    (_airspeed_buffer_fail s) (_flow_buffer_fail s) (_ev_buffer_fail s)
    (_drag_buffer_fail s) (_auxvel_buffer_fail s) (_time_last_imu s) (_time_last_gps s)
    (_time_last_mag s) (_time_last_baro s) (_time_last_range s) (_time_last_airspeed s)
    (_time_last_ext_vision s) (_time_last_optflow s) (_time_last_auxvel s).

Definition set_imu_sample_new (v : imuSample) (s : EstimatorInterface) : EstimatorInterface :=
  mkEstimatorInterface (_params s) (_control_status_in_air s) (_initialised s)
    (_obs_buffer_length s) (_imu_buffer_length s) (_min_obs_interval_us s)
    (_dt_imu_avg s) (_imu_ticks s) (_imu_updated s) v (_imu_sample_delayed s)
    (_delta_ang_prev s) (_delta_vel_prev s) (_vibe_metrics s) (_drag_down_sampled s)
    (_drag_sample_count s) (_drag_sample_time_dt s) (_gps_speed_valid s)
    (_deadreckon_time_exceeded s) (_fault_status_value s) (_imu_buffer s)
    (_gps_buffer s) (_mag_buffer s) (_baro_buffer s) (_range_buffer s)
    (_airspeed_buffer s) (_flow_buffer s) (_ext_vision_buffer s) (_output_buffer s)
    (_output_vert_buffer s) (_drag_buffer s) (_auxvel_buffer s) (_gps_buffer_fail s)
    (_mag_buffer_fail s) (_baro_buffer_fail s) (_range_buffer_fail s)
    (_airspeed_buffer_fail s) (_flow_buffer_fail s) (_ev_buffer_fail s)
    (_drag_buffer_fail s) (_auxvel_buffer_fail s) (_time_last_imu s) (_time_last_gps s)
    (_time_last_mag s) (_time_last_baro s) (_time_last_range s) (_time_last_airspeed s)
    (_time_last_ext_vision s) (_time_last_optflow s) (_time_last_auxvel s).

Definition set_imu_sample_delayed (v : imuSample) (s : EstimatorInterface) : EstimatorInterface :=
  mkEstimatorInterface (_params s) (_control_status_in_air s) (_initialised s)
    (_obs_buffer_length s) (_imu_buffer_length s) (_min_obs_interval_us s)
    (_dt_imu_avg s) (_imu_ticks s) (_imu_updated s) (_imu_sample_new s) v
    (_delta_ang_prev s) (_delta_vel_prev s) (_vibe_metrics s) (_drag_down_sampled s)
    (_drag_sample_count s) (_drag_sample_time_dt s) (_gps_speed_valid s)
    (_deadreckon_time_exceeded s) (_fault_status_value s) (_imu_buffer s)
    (_gps_buffer s) (_mag_buffer s) (_baro_buffer s) (_range_buffer s)
    (_airspeed_buffer s) (_flow_buffer s) (_ext_vision_buffer s) (_output_buffer s)
    (_output_vert_buffer s) (_drag_buffer s) (_auxvel_buffer s) (_gps_buffer_fail s)
    (_mag_buffer_fail s) (_baro_buffer_fail s) (_range_buffer_fail s)
    (_airspeed_buffer_fail s) (_flow_buffer_fail s) (_ev_buffer_fail s)
    (_drag_buffer_fail s) (_auxvel_buffer_fail s) (_time_last_imu s) (_time_last_gps s)
    (_time_last_mag s) (_time_last_baro s) (_time_last_range s) (_time_last_airspeed s)
    (_time_last_ext_vision s) (_time_last_optflow s) (_time_last_auxvel s).

Definition set_delta_ang_prev (v : Vector3f) (s : EstimatorInterface) : EstimatorInterface :=
  mkEstimatorInterface (_params s) (_control_status_in_air s) (_initialised s)
    (_obs_buffer_length s) (_imu_buffer_length s) (_min_obs_interval_us s)
    (_dt_imu_avg s) (_imu_ticks s) (_imu_updated s) (_imu_sample_new s)
    (_imu_sample_delayed s) v (_delta_vel_prev s) (_vibe_metrics s)
    (_drag_down_sampled s) (_drag_sample_count s) (_drag_sample_time_dt s)
    (_gps_speed_valid s) (_deadreckon_time_exceeded s) (_fault_status_value s)
    (_imu_buffer s) (_gps_buffer s) (_mag_buffer s) (_baro_buffer s) (_range_buffer s)
    (_airspeed_buffer s) (_flow_buffer s) (_ext_vision_buffer s) (_output_buffer s)
    (_output_vert_buffer s) (_drag_buffer s) (_auxvel_buffer s) (_gps_buffer_fail s)
    (_mag_buffer_fail s) (_baro_buffer_fail s) (_range_buffer_fail s)
    (_airspeed_buffer_fail s) (_flow_buffer_fail s) (_ev_buffer_fail s)
    (_drag_buffer_fail s) (_auxvel_buffer_fail s) (_time_last_imu s) (_time_last_gps s)
    (_time_last_mag s) (_time_last_baro s) (_time_last_range s) (_time_last_airspeed s)
    (_time_last_ext_vision s) (_time_last_optflow s) (_time_last_auxvel s).

Definition set_delta_vel_prev (v : Vector3f) (s : EstimatorInterface) : EstimatorInterface :=
  mkEstimatorInterface (_params s) (_control_status_in_air s) (_initialised s)
    (_obs_buffer_length s) (_imu_buffer_length s) (_min_obs_interval_us s)
    (_dt_imu_avg s) (_imu_ticks s) (_imu_updated s) (_imu_sample_new s)
    (_imu_sample_delayed s) (_delta_ang_prev s) v (_vibe_metrics s)
    (_drag_down_sampled s) (_drag_sample_count s) (_drag_sample_time_dt s)
    (_gps_speed_valid s) (_deadreckon_time_exceeded s) (_fault_status_value s)
    (_imu_buffer s) (_gps_buffer s) (_mag_buffer s) (_baro_buffer s) (_range_buffer s)
    (_airspeed_buffer s) (_flow_buffer s) (_ext_vision_buffer s) (_output_buffer s)
    (_output_vert_buffer s) (_drag_buffer s) (_auxvel_buffer s) (_gps_buffer_fail s)
    (_mag_buffer_fail s) (_baro_buffer_fail s) (_range_buffer_fail s)
    (_airspeed_buffer_fail s) (_flow_buffer_fail s) (_ev_buffer_fail s)
    (_drag_buffer_fail s) (_auxvel_buffer_fail s) (_time_last_imu s) (_time_last_gps s)
    (_time_last_mag s) (_time_last_baro s) (_time_last_range s) (_time_last_airspeed s)
    (_time_last_ext_vision s) (_time_last_optflow s) (_time_last_auxvel s).

Definition set_vibe_metrics (v : Vector3f) (s : EstimatorInterface) : EstimatorInterface :=
  mkEstimatorInterface (_params s) (_control_status_in_air s) (_initialised s)
    (_obs_buffer_length s) (_imu_buffer_length s) (_min_obs_interval_us s)
    (_dt_imu_avg s) (_imu_ticks s) (_imu_updated s) (_imu_sample_new s)
    (_imu_sample_delayed s) (_delta_ang_prev s) (_delta_vel_prev s) v
    (_drag_down_sampled s) (_drag_sample_count s) (_drag_sample_time_dt s)
    (_gps_speed_valid s) (_deadreckon_time_exceeded s) (_fault_status_value s)
    (_imu_buffer s) (_gps_buffer s) (_mag_buffer s) (_baro_buffer s) (_range_buffer s)
    (_airspeed_buffer s) (_flow_buffer s) (_ext_vision_buffer s) (_output_buffer s)
    (_output_vert_buffer s) (_drag_buffer s) (_auxvel_buffer s) (_gps_buffer_fail s)
    (_mag_buffer_fail s) (_baro_buffer_fail s) (_range_buffer_fail s)
    (_airspeed_buffer_fail s) (_flow_buffer_fail s) (_ev_buffer_fail s)
    (_drag_buffer_fail s) (_auxvel_buffer_fail s) (_time_last_imu s) (_time_last_gps s)
    (_time_last_mag s) (_time_last_baro s) (_time_last_range s) (_time_last_airspeed s)
    (_time_last_ext_vision s) (_time_last_optflow s) (_time_last_auxvel s).

Definition set_drag_down_sampled (v : dragSample) (s : EstimatorInterface) : EstimatorInterface :=
  mkEstimatorInterface (_params s) (_control_status_in_air s) (_initialised s)
    (_obs_buffer_length s) (_imu_buffer_length s) (_min_obs_interval_us s)
    (_dt_imu_avg s) (_imu_ticks s) (_imu_updated s) (_imu_sample_new s)
    (_imu_sample_delayed s) (_delta_ang_prev s) (_delta_vel_prev s) (_vibe_metrics s) v
    (_drag_sample_count s) (_drag_sample_time_dt s) (_gps_speed_valid s)
    (_deadreckon_time_exceeded s) (_fault_status_value s) (_imu_buffer s)
    (_gps_buffer s) (_mag_buffer s) (_baro_buffer s) (_range_buffer s)
    (_airspeed_buffer s) (_flow_buffer s) (_ext_vision_buffer s) (_output_buffer s)
    (_output_vert_buffer s) (_drag_buffer s) (_auxvel_buffer s) (_gps_buffer_fail s)
    (_mag_buffer_fail s) (_baro_buffer_fail s) (_range_buffer_fail s)
    (_airspeed_buffer_fail s) (_flow_buffer_fail s) (_ev_buffer_fail s)
    (_drag_buffer_fail s) (_auxvel_buffer_fail s) (_time_last_imu s) (_time_last_gps s)
    (_time_last_mag s) (_time_last_baro s) (_time_last_range s) (_time_last_airspeed s)
    (_time_last_ext_vision s) (_time_last_optflow s) (_time_last_auxvel s).

Definition set_drag_sample_count (v : Z) (s : EstimatorInterface) : EstimatorInterface :=
  mkEstimatorInterface (_params s) (_control_status_in_air s) (_initialised s)
    (_obs_buffer_length s) (_imu_buffer_length s) (_min_obs_interval_us s)
    (_dt_imu_avg s) (_imu_ticks s) (_imu_updated s) (_imu_sample_new s)
    (_imu_sample_delayed s) (_delta_ang_prev s) (_delta_vel_prev s) (_vibe_metrics s)
    (_drag_down_sampled s) v (_drag_sample_time_dt s) (_gps_speed_valid s)
    (_deadreckon_time_exceeded s) (_fault_status_value s) (_imu_buffer s)
    (_gps_buffer s) (_mag_buffer s) (_baro_buffer s) (_range_buffer s)
    (_airspeed_buffer s) (_flow_buffer s) (_ext_vision_buffer s) (_output_buffer s)
    (_output_vert_buffer s) (_drag_buffer s) (_auxvel_buffer s) (_gps_buffer_fail s)
    (_mag_buffer_fail s) (_baro_buffer_fail s) (_range_buffer_fail s)
    (_airspeed_buffer_fail s) (_flow_buffer_fail s) (_ev_buffer_fail s)
    (_drag_buffer_fail s) (_auxvel_buffer_fail s) (_time_last_imu s) (_time_last_gps s)
    (_time_last_mag s) (_time_last_baro s) (_time_last_range s) (_time_last_airspeed s)
    (_time_last_ext_vision s) (_time_last_optflow s) (_time_last_auxvel s).

Definition set_drag_sample_time_dt (v : float) (s : EstimatorInterface) : EstimatorInterface :=
  mkEstimatorInterface (_params s) (_control_status_in_air s) (_initialised s)
    (_obs_buffer_length s) (_imu_buffer_length s) (_min_obs_interval_us s)
    (_dt_imu_avg s) (_imu_ticks s) (_imu_updated s) (_imu_sample_new s)
    (_imu_sample_delayed s) (_delta_ang_prev s) (_delta_vel_prev s) (_vibe_metrics s)
    (_drag_down_sampled s) (_drag_sample_count s) v (_gps_speed_valid s)
    (_deadreckon_time_exceeded s) (_fault_status_value s) (_imu_buffer s)
    (_gps_buffer s) (_mag_buffer s) (_baro_buffer s) (_range_buffer s)
    (_airspeed_buffer s) (_flow_buffer s) (_ext_vision_buffer s) (_output_buffer s)
    (_output_vert_buffer s) (_drag_buffer s) (_auxvel_buffer s) (_gps_buffer_fail s)
    (_mag_buffer_fail s) (_baro_buffer_fail s) (_range_buffer_fail s)
    (_airspeed_buffer_fail s) (_flow_buffer_fail s) (_ev_buffer_fail s)
    (_drag_buffer_fail s) (_auxvel_buffer_fail s) (_time_last_imu s) (_time_last_gps s)
    (_time_last_mag s) (_time_last_baro s) (_time_last_range s) (_time_last_airspeed s)
    (_time_last_ext_vision s) (_time_last_optflow s) (_time_last_auxvel s).

Definition set_gps_speed_valid (v : bool) (s : EstimatorInterface) : EstimatorInterface :=
  mkEstimatorInterface (_params s) (_control_status_in_air s) (_initialised s)
    (_obs_buffer_length s) (_imu_buffer_length s) (_min_obs_interval_us s)
    (_dt_imu_avg s) (_imu_ticks s) (_imu_updated s) (_imu_sample_new s)
    (_imu_sample_delayed s) (_delta_ang_prev s) (_delta_vel_prev s) (_vibe_metrics s)
    (_drag_down_sampled s) (_drag_sample_count s) (_drag_sample_time_dt s) v
    (_deadreckon_time_exceeded s) (_fault_status_value s) (_imu_buffer s)
    (_gps_buffer s) (_mag_buffer s) (_baro_buffer s) (_range_buffer s)
    (_airspeed_buffer s) (_flow_buffer s) (_ext_vision_buffer s) (_output_buffer s)
    (_output_vert_buffer s) (_drag_buffer s) (_auxvel_buffer s) (_gps_buffer_fail s)
    (_mag_buffer_fail s) (_baro_buffer_fail s) (_range_buffer_fail s)
    (_airspeed_buffer_fail s) (_flow_buffer_fail s) (_ev_buffer_fail s)
    (_drag_buffer_fail s) (_auxvel_buffer_fail s) (_time_last_imu s) (_time_last_gps s)
    (_time_last_mag s) (_time_last_baro s) (_time_last_range s) (_time_last_airspeed s)
    (_time_last_ext_vision s) (_time_last_optflow s) (_time_last_auxvel s).

Definition set_deadreckon_time_exceeded (v : bool) (s : EstimatorInterface) : EstimatorInterface :=
  mkEstimatorInterface (_params s) (_control_status_in_air s) (_initialised s)
    (_obs_buffer_length s) (_imu_buffer_length s) (_min_obs_interval_us s)
    (_dt_imu_avg s) (_imu_ticks s) (_imu_updated s) (_imu_sample_new s)
    (_imu_sample_delayed s) (_delta_ang_prev s) (_delta_vel_prev s) (_vibe_metrics s)
    (_drag_down_sampled s) (_drag_sample_count s) (_drag_sample_time_dt s)
    (_gps_speed_valid s) v (_fault_status_value s) (_imu_buffer s) (_gps_buffer s)
    (_mag_buffer s) (_baro_buffer s) (_range_buffer s) (_airspeed_buffer s)
    (_flow_buffer s) (_ext_vision_buffer s) (_output_buffer s) (_output_vert_buffer s)
    (_drag_buffer s) (_auxvel_buffer s) (_gps_buffer_fail s) (_mag_buffer_fail s)
    (_baro_buffer_fail s) (_range_buffer_fail s) (_airspeed_buffer_fail s)
    (_flow_buffer_fail s) (_ev_buffer_fail s) (_drag_buffer_fail s)
    (_auxvel_buffer_fail s) (_time_last_imu s) (_time_last_gps s) (_time_last_mag s)
    (_time_last_baro s) (_time_last_range s) (_time_last_airspeed s)
    (_time_last_ext_vision s) (_time_last_optflow s) (_time_last_auxvel s).

Definition set_fault_status_value (v : Z) (s : EstimatorInterface) : EstimatorInterface :=
  mkEstimatorInterface (_params s) (_control_status_in_air s) (_initialised s)
    (_obs_buffer_length s) (_imu_buffer_length s) (_min_obs_interval_us s)
    (_dt_imu_avg s) (_imu_ticks s) (_imu_updated s) (_imu_sample_new s)
    (_imu_sample_delayed s) (_delta_ang_prev s) (_delta_vel_prev s) (_vibe_metrics s)
    (_drag_down_sampled s) (_drag_sample_count s) (_drag_sample_time_dt s)
    (_gps_speed_valid s) (_deadreckon_time_exceeded s) v (_imu_buffer s) (_gps_buffer s)
    (_mag_buffer s) (_baro_buffer s) (_range_buffer s) (_airspeed_buffer s)
    (_flow_buffer s) (_ext_vision_buffer s) (_output_buffer s) (_output_vert_buffer s)
    (_drag_buffer s) (_auxvel_buffer s) (_gps_buffer_fail s) (_mag_buffer_fail s)
    (_baro_buffer_fail s) (_range_buffer_fail s) (_airspeed_buffer_fail s)
    (_flow_buffer_fail s) (_ev_buffer_fail s) (_drag_buffer_fail s)
    (_auxvel_buffer_fail s) (_time_last_imu s) (_time_last_gps s) (_time_last_mag s)
    (_time_last_baro s) (_time_last_range s) (_time_last_airspeed s)
    (_time_last_ext_vision s) (_time_last_optflow s) (_time_last_auxvel s).

Definition set_imu_buffer (v : RingBuffer.t imuSample) (s : EstimatorInterface) : EstimatorInterface :=
  mkEstimatorInterface (_params s) (_control_status_in_air s) (_initialised s)
    (_obs_buffer_length s) (_imu_buffer_length s) (_min_obs_interval_us s)
    (_dt_imu_avg s) (_imu_ticks s) (_imu_updated s) (_imu_sample_new s)
    (_imu_sample_delayed s) (_delta_ang_prev s) (_delta_vel_prev s) (_vibe_metrics s)
    (_drag_down_sampled s) (_drag_sample_count s) (_drag_sample_time_dt s)
    (_gps_speed_valid s) (_deadreckon_time_exceeded s) (_fault_status_value s) v
    (_gps_buffer s) (_mag_buffer s) (_baro_buffer s) (_range_buffer s)
    (_airspeed_buffer s) (_flow_buffer s) (_ext_vision_buffer s) (_output_buffer s)
    (_output_vert_buffer s) (_drag_buffer s) (_auxvel_buffer s) (_gps_buffer_fail s)
    (_mag_buffer_fail s) (_baro_buffer_fail s) (_range_buffer_fail s)
    (_airspeed_buffer_fail s) (_flow_buffer_fail s) (_ev_buffer_fail s)
    (_drag_buffer_fail s) (_auxvel_buffer_fail s) (_time_last_imu s) (_time_last_gps s)
    (_time_last_mag s) (_time_last_baro s) (_time_last_range s) (_time_last_airspeed s)
    (_time_last_ext_vision s) (_time_last_optflow s) (_time_last_auxvel s).

Definition set_gps_buffer (v : RingBuffer.t gpsSample) (s : EstimatorInterface) : EstimatorInterface :=
  mkEstimatorInterface (_params s) (_control_status_in_air s) (_initialised s)
    (_obs_buffer_length s) (_imu_buffer_length s) (_min_obs_interval_us s)
    (_dt_imu_avg s) (_imu_ticks s) (_imu_updated s) (_imu_sample_new s)
    (_imu_sample_delayed s) (_delta_ang_prev s) (_delta_vel_prev s) (_vibe_metrics s)
    (_drag_down_sampled s) (_drag_sample_count s) (_drag_sample_time_dt s)
    (_gps_speed_valid s) (_deadreckon_time_exceeded s) (_fault_status_value s)
    (_imu_buffer s) v (_mag_buffer s) (_baro_buffer s) (_range_buffer s)
    (_airspeed_buffer s) (_flow_buffer s) (_ext_vision_buffer s) (_output_buffer s)
    (_output_vert_buffer s) (_drag_buffer s) (_auxvel_buffer s) (_gps_buffer_fail s)
    (_mag_buffer_fail s) (_baro_buffer_fail s) (_range_buffer_fail s)
    (_airspeed_buffer_fail s) (_flow_buffer_fail s) (_ev_buffer_fail s)
    (_drag_buffer_fail s) (_auxvel_buffer_fail s) (_time_last_imu s) (_time_last_gps s)
    (_time_last_mag s) (_time_last_baro s) (_time_last_range s) (_time_last_airspeed s)
    (_time_last_ext_vision s) (_time_last_optflow s) (_time_last_auxvel s).

Definition set_mag_buffer (v : RingBuffer.t magSample) (s : EstimatorInterface) : EstimatorInterface :=
  mkEstimatorInterface (_params s) (_control_status_in_air s) (_initialised s)
    (_obs_buffer_length s) (_imu_buffer_length s) (_min_obs_interval_us s)
    (_dt_imu_avg s) (_imu_ticks s) (_imu_updated s) (_imu_sample_new s)
    (_imu_sample_delayed s) (_delta_ang_prev s) (_delta_vel_prev s) (_vibe_metrics s)
    (_drag_down_sampled s) (_drag_sample_count s) (_drag_sample_time_dt s)
    (_gps_speed_valid s) (_deadreckon_time_exceeded s) (_fault_status_value s)
    (_imu_buffer s) (_gps_buffer s) v (_baro_buffer s) (_range_buffer s)
    (_airspeed_buffer s) (_flow_buffer s) (_ext_vision_buffer s) (_output_buffer s)
    (_output_vert_buffer s) (_drag_buffer s) (_auxvel_buffer s) (_gps_buffer_fail s)
    (_mag_buffer_fail s) (_baro_buffer_fail s) (_range_buffer_fail s)
    (_airspeed_buffer_fail s) (_flow_buffer_fail s) (_ev_buffer_fail s)
    (_drag_buffer_fail s) (_auxvel_buffer_fail s) (_time_last_imu s) (_time_last_gps s)
    (_time_last_mag s) (_time_last_baro s) (_time_last_range s) (_time_last_airspeed s)
    (_time_last_ext_vision s) (_time_last_optflow s) (_time_last_auxvel s).

Definition set_baro_buffer (v : RingBuffer.t baroSample) (s : EstimatorInterface) : EstimatorInterface :=
  mkEstimatorInterface (_params s) (_control_status_in_air s) (_initialised s)
    (_obs_buffer_length s) (_imu_buffer_length s) (_min_obs_interval_us s)
    (_dt_imu_avg s) (_imu_ticks s) (_imu_updated s) (_imu_sample_new s)
    (_imu_sample_delayed s) (_delta_ang_prev s) (_delta_vel_prev s) (_vibe_metrics s)
    (_drag_down_sampled s) (_drag_sample_count s) (_drag_sample_time_dt s)
    (_gps_speed_valid s) (_deadreckon_time_exceeded s) (_fault_status_value s)
    (_imu_buffer s) (_gps_buffer s) (_mag_buffer s) v (_range_buffer s)
    (_airspeed_buffer s) (_flow_buffer s) (_ext_vision_buffer s) (_output_buffer s)
    (_output_vert_buffer s) (_drag_buffer s) (_auxvel_buffer s) (_gps_buffer_fail s)
    (_mag_buffer_fail s) (_baro_buffer_fail s) (_range_buffer_fail s)
    (_airspeed_buffer_fail s) (_flow_buffer_fail s) (_ev_buffer_fail s)
    (_drag_buffer_fail s) (_auxvel_buffer_fail s) (_time_last_imu s) (_time_last_gps s)
    (_time_last_mag s) (_time_last_baro s) (_time_last_range s) (_time_last_airspeed s)
    (_time_last_ext_vision s) (_time_last_optflow s) (_time_last_auxvel s).

Definition set_range_buffer (v : RingBuffer.t rangeSample) (s : EstimatorInterface) : EstimatorInterface :=
  mkEstimatorInterface (_params s) (_control_status_in_air s) (_initialised s)
    (_obs_buffer_length s) (_imu_buffer_length s) (_min_obs_interval_us s)
    (_dt_imu_avg s) (_imu_ticks s) (_imu_updated s) (_imu_sample_new s)
    (_imu_sample_delayed s) (_delta_ang_prev s) (_delta_vel_prev s) (_vibe_metrics s)
    (_drag_down_sampled s) (_drag_sample_count s) (_drag_sample_time_dt s)
    (_gps_speed_valid s) (_deadreckon_time_exceeded s) (_fault_status_value s)
    (_imu_buffer s) (_gps_buffer s) (_mag_buffer s) (_baro_buffer s) v
    (_airspeed_buffer s) (_flow_buffer s) (_ext_vision_buffer s) (_output_buffer s)
    (_output_vert_buffer s) (_drag_buffer s) (_auxvel_buffer s) (_gps_buffer_fail s)
    (_mag_buffer_fail s) (_baro_buffer_fail s) (_range_buffer_fail s)
    (_airspeed_buffer_fail s) (_flow_buffer_fail s) (_ev_buffer_fail s)
    (_drag_buffer_fail s) (_auxvel_buffer_fail s) (_time_last_imu s) (_time_last_gps s)
    (_time_last_mag s) (_time_last_baro s) (_time_last_range s) (_time_last_airspeed s)
    (_time_last_ext_vision s) (_time_last_optflow s) (_time_last_auxvel s).

Definition set_airspeed_buffer (v : RingBuffer.t airspeedSample) (s : EstimatorInterface) : EstimatorInterface :=
  mkEstimatorInterface (_params s) (_control_status_in_air s) (_initialised s)
    (_obs_buffer_length s) (_imu_buffer_length s) (_min_obs_interval_us s)
    (_dt_imu_avg s) (_imu_ticks s) (_imu_updated s) (_imu_sample_new s)
    (_imu_sample_delayed s) (_delta_ang_prev s) (_delta_vel_prev s) (_vibe_metrics s)
    (_drag_down_sampled s) (_drag_sample_count s) (_drag_sample_time_dt s)
    (_gps_speed_valid s) (_deadreckon_time_exceeded s) (_fault_status_value s)
    (_imu_buffer s) (_gps_buffer s) (_mag_buffer s) (_baro_buffer s) (_range_buffer s) v
    (_flow_buffer s) (_ext_vision_buffer s) (_output_buffer s) (_output_vert_buffer s)
    (_drag_buffer s) (_auxvel_buffer s) (_gps_buffer_fail s) (_mag_buffer_fail s)
    (_baro_buffer_fail s) (_range_buffer_fail s) (_airspeed_buffer_fail s)
    (_flow_buffer_fail s) (_ev_buffer_fail s) (_drag_buffer_fail s)
    (_auxvel_buffer_fail s) (_time_last_imu s) (_time_last_gps s) (_time_last_mag s)
    (_time_last_baro s) (_time_last_range s) (_time_last_airspeed s)
    (_time_last_ext_vision s) (_time_last_optflow s) (_time_last_auxvel s).

Definition set_flow_buffer (v : RingBuffer.t flowSample) (s : EstimatorInterface) : EstimatorInterface :=
  mkEstimatorInterface (_params s) (_control_status_in_air s) (_initialised s)
    (_obs_buffer_length s) (_imu_buffer_length s) (_min_obs_interval_us s)
    (_dt_imu_avg s) (_imu_ticks s) (_imu_updated s) (_imu_sample_new s)
    (_imu_sample_delayed s) (_delta_ang_prev s) (_delta_vel_prev s) (_vibe_metrics s)
    (_drag_down_sampled s) (_drag_sample_count s) (_drag_sample_time_dt s)
    (_gps_speed_valid s) (_deadreckon_time_exceeded s) (_fault_status_value s)
    (_imu_buffer s) (_gps_buffer s) (_mag_buffer s) (_baro_buffer s) (_range_buffer s)
    (_airspeed_buffer s) v (_ext_vision_buffer s) (_output_buffer s)
    (_output_vert_buffer s) (_drag_buffer s) (_auxvel_buffer s) (_gps_buffer_fail s)
    (_mag_buffer_fail s) (_baro_buffer_fail s) (_range_buffer_fail s)
    (_airspeed_buffer_fail s) (_flow_buffer_fail s) (_ev_buffer_fail s)
    (_drag_buffer_fail s) (_auxvel_buffer_fail s) (_time_last_imu s) (_time_last_gps s)
    (_time_last_mag s) (_time_last_baro s) (_time_last_range s) (_time_last_airspeed s)
    (_time_last_ext_vision s) (_time_last_optflow s) (_time_last_auxvel s).

Definition set_ext_vision_buffer (v : RingBuffer.t extVisionSample) (s : EstimatorInterface) : EstimatorInterface :=
  mkEstimatorInterface (_params s) (_control_status_in_air s) (_initialised s)
    (_obs_buffer_length s) (_imu_buffer_length s) (_min_obs_interval_us s)
    (_dt_imu_avg s) (_imu_ticks s) (_imu_updated s) (_imu_sample_new s)
    (_imu_sample_delayed s) (_delta_ang_prev s) (_delta_vel_prev s) (_vibe_metrics s)
    (_drag_down_sampled s) (_drag_sample_count s) (_drag_sample_time_dt s)
    (_gps_speed_valid s) (_deadreckon_time_exceeded s) (_fault_status_value s)
    (_imu_buffer s) (_gps_buffer s) (_mag_buffer s) (_baro_buffer s) (_range_buffer s)
    (_airspeed_buffer s) (_flow_buffer s) v (_output_buffer s) (_output_vert_buffer s)
    (_drag_buffer s) (_auxvel_buffer s) (_gps_buffer_fail s) (_mag_buffer_fail s)
    (_baro_buffer_fail s) (_range_buffer_fail s) (_airspeed_buffer_fail s)
    (_flow_buffer_fail s) (_ev_buffer_fail s) (_drag_buffer_fail s)
    (_auxvel_buffer_fail s) (_time_last_imu s) (_time_last_gps s) (_time_last_mag s)
    (_time_last_baro s) (_time_last_range s) (_time_last_airspeed s)
    (_time_last_ext_vision s) (_time_last_optflow s) (_time_last_auxvel s).

Definition set_output_buffer (v : RingBuffer.t outputSample) (s : EstimatorInterface) : EstimatorInterface :=
  mkEstimatorInterface (_params s) (_control_status_in_air s) (_initialised s)
    (_obs_buffer_length s) (_imu_buffer_length s) (_min_obs_interval_us s)
    (_dt_imu_avg s) (_imu_ticks s) (_imu_updated s) (_imu_sample_new s)
    (_imu_sample_delayed s) (_delta_ang_prev s) (_delta_vel_prev s) (_vibe_metrics s)
    (_drag_down_sampled s) (_drag_sample_count s) (_drag_sample_time_dt s)
    (_gps_speed_valid s) (_deadreckon_time_exceeded s) (_fault_status_value s)
    (_imu_buffer s) (_gps_buffer s) (_mag_buffer s) (_baro_buffer s) (_range_buffer s)
    (_airspeed_buffer s) (_flow_buffer s) (_ext_vision_buffer s) v
    (_output_vert_buffer s) (_drag_buffer s) (_auxvel_buffer s) (_gps_buffer_fail s)
    (_mag_buffer_fail s) (_baro_buffer_fail s) (_range_buffer_fail s)
    (_airspeed_buffer_fail s) (_flow_buffer_fail s) (_ev_buffer_fail s)
    (_drag_buffer_fail s) (_auxvel_buffer_fail s) (_time_last_imu s) (_time_last_gps s)
    (_time_last_mag s) (_time_last_baro s) (_time_last_range s) (_time_last_airspeed s)
    (_time_last_ext_vision s) (_time_last_optflow s) (_time_last_auxvel s).

Definition set_output_vert_buffer (v : RingBuffer.t outputVert) (s : EstimatorInterface) : EstimatorInterface :=
  mkEstimatorInterface (_params s) (_control_status_in_air s) (_initialised s)
    (_obs_buffer_length s) (_imu_buffer_length s) (_min_obs_interval_us s)
    (_dt_imu_avg s) (_imu_ticks s) (_imu_updated s) (_imu_sample_new s)
    (_imu_sample_delayed s) (_delta_ang_prev s) (_delta_vel_prev s) (_vibe_metrics s)
    (_drag_down_sampled s) (_drag_sample_count s) (_drag_sample_time_dt s)
    (_gps_speed_valid s) (_deadreckon_time_exceeded s) (_fault_status_value s)
    (_imu_buffer s) (_gps_buffer s) (_mag_buffer s) (_baro_buffer s) (_range_buffer s)
    (_airspeed_buffer s) (_flow_buffer s) (_ext_vision_buffer s) (_output_buffer s) v
    (_drag_buffer s) (_auxvel_buffer s) (_gps_buffer_fail s) (_mag_buffer_fail s)
    (_baro_buffer_fail s) (_range_buffer_fail s) (_airspeed_buffer_fail s)
    (_flow_buffer_fail s) (_ev_buffer_fail s) (_drag_buffer_fail s)
    (_auxvel_buffer_fail s) (_time_last_imu s) (_time_last_gps s) (_time_last_mag s)
    (_time_last_baro s) (_time_last_range s) (_time_last_airspeed s)
    (_time_last_ext_vision s) (_time_last_optflow s) (_time_last_auxvel s).

Definition set_drag_buffer (v : RingBuffer.t dragSample) (s : EstimatorInterface) : EstimatorInterface :=
  mkEstimatorInterface (_params s) (_control_status_in_air s) (_initialised s)
    (_obs_buffer_length s) (_imu_buffer_length s) (_min_obs_interval_us s)
    (_dt_imu_avg s) (_imu_ticks s) (_imu_updated s) (_imu_sample_new s)
    (_imu_sample_delayed s) (_delta_ang_prev s) (_delta_vel_prev s) (_vibe_metrics s)
    (_drag_down_sampled s) (_drag_sample_count s) (_drag_sample_time_dt s)
    (_gps_speed_valid s) (_deadreckon_time_exceeded s) (_fault_status_value s)
    (_imu_buffer s) (_gps_buffer s) (_mag_buffer s) (_baro_buffer s) (_range_buffer s)
    (_airspeed_buffer s) (_flow_buffer s) (_ext_vision_buffer s) (_output_buffer s)
    (_output_vert_buffer s) v (_auxvel_buffer s) (_gps_buffer_fail s)
    (_mag_buffer_fail s) (_baro_buffer_fail s) (_range_buffer_fail s)
    (_airspeed_buffer_fail s) (_flow_buffer_fail s) (_ev_buffer_fail s)
    (_drag_buffer_fail s) (_auxvel_buffer_fail s) (_time_last_imu s) (_time_last_gps s)
    (_time_last_mag s) (_time_last_baro s) (_time_last_range s) (_time_last_airspeed s)
    (_time_last_ext_vision s) (_time_last_optflow s) (_time_last_auxvel s).

Definition set_auxvel_buffer (v : RingBuffer.t auxVelSample) (s : EstimatorInterface) : EstimatorInterface :=
  mkEstimatorInterface (_params s) (_control_status_in_air s) (_initialised s)
    (_obs_buffer_length s) (_imu_buffer_length s) (_min_obs_interval_us s)
    (_dt_imu_avg s) (_imu_ticks s) (_imu_updated s) (_imu_sample_new s)
    (_imu_sample_delayed s) (_delta_ang_prev s) (_delta_vel_prev s) (_vibe_metrics s)
    (_drag_down_sampled s) (_drag_sample_count s) (_drag_sample_time_dt s)
    (_gps_speed_valid s) (_deadreckon_time_exceeded s) (_fault_status_value s)
    (_imu_buffer s) (_gps_buffer s) (_mag_buffer s) (_baro_buffer s) (_range_buffer s)
    (_airspeed_buffer s) (_flow_buffer s) (_ext_vision_buffer s) (_output_buffer s)
    (_output_vert_buffer s) (_drag_buffer s) v (_gps_buffer_fail s) (_mag_buffer_fail s)
    (_baro_buffer_fail s) (_range_buffer_fail s) (_airspeed_buffer_fail s)
    (_flow_buffer_fail s) (_ev_buffer_fail s) (_drag_buffer_fail s)
    (_auxvel_buffer_fail s) (_time_last_imu s) (_time_last_gps s) (_time_last_mag s)
    (_time_last_baro s) (_time_last_range s) (_time_last_airspeed s)
    (_time_last_ext_vision s) (_time_last_optflow s) (_time_last_auxvel s).

Definition set_gps_buffer_fail (v : bool) (s : EstimatorInterface) : EstimatorInterface :=
  mkEstimatorInterface (_params s) (_control_status_in_air s) (_initialised s)
    (_obs_buffer_length s) (_imu_buffer_length s) (_min_obs_interval_us s)
    (_dt_imu_avg s) (_imu_ticks s) (_imu_updated s) (_imu_sample_new s)
    (_imu_sample_delayed s) (_delta_ang_prev s) (_delta_vel_prev s) (_vibe_metrics s)
    (_drag_down_sampled s) (_drag_sample_count s) (_drag_sample_time_dt s)
    (_gps_speed_valid s) (_deadreckon_time_exceeded s) (_fault_status_value s)
    (_imu_buffer s) (_gps_buffer s) (_mag_buffer s) (_baro_buffer s) (_range_buffer s)
    (_airspeed_buffer s) (_flow_buffer s) (_ext_vision_buffer s) (_output_buffer s)
    (_output_vert_buffer s) (_drag_buffer s) (_auxvel_buffer s) v (_mag_buffer_fail s)
    (_baro_buffer_fail s) (_range_buffer_fail s) (_airspeed_buffer_fail s)
    (_flow_buffer_fail s) (_ev_buffer_fail s) (_drag_buffer_fail s)
    (_auxvel_buffer_fail s) (_time_last_imu s) (_time_last_gps s) (_time_last_mag s)
    (_time_last_baro s) (_time_last_range s) (_time_last_airspeed s)
    (_time_last_ext_vision s) (_time_last_optflow s) (_time_last_auxvel s).

Definition set_mag_buffer_fail (v : bool) (s : EstimatorInterface) : EstimatorInterface :=
  mkEstimatorInterface (_params s) (_control_status_in_air s) (_initialised s)
    (_obs_buffer_length s) (_imu_buffer_length s) (_min_obs_interval_us s)
    (_dt_imu_avg s) (_imu_ticks s) (_imu_updated s) (_imu_sample_new s)
    (_imu_sample_delayed s) (_delta_ang_prev s) (_delta_vel_prev s) (_vibe_metrics s)
    (_drag_down_sampled s) (_drag_sample_count s) (_drag_sample_time_dt s)
    (_gps_speed_valid s) (_deadreckon_time_exceeded s) (_fault_status_value s)
    (_imu_buffer s) (_gps_buffer s) (_mag_buffer s) (_baro_buffer s) (_range_buffer s)
    (_airspeed_buffer s) (_flow_buffer s) (_ext_vision_buffer s) (_output_buffer s)
    (_output_vert_buffer s) (_drag_buffer s) (_auxvel_buffer s) (_gps_buffer_fail s) v
    (_baro_buffer_fail s) (_range_buffer_fail s) (_airspeed_buffer_fail s)
    (_flow_buffer_fail s) (_ev_buffer_fail s) (_drag_buffer_fail s)
    (_auxvel_buffer_fail s) (_time_last_imu s) (_time_last_gps s) (_time_last_mag s)
    (_time_last_baro s) (_time_last_range s) (_time_last_airspeed s)
    (_time_last_ext_vision s) (_time_last_optflow s) (_time_last_auxvel s).

Definition set_baro_buffer_fail (v : bool) (s : EstimatorInterface) : EstimatorInterface :=
  mkEstimatorInterface (_params s) (_control_status_in_air s) (_initialised s)
    (_obs_buffer_length s) (_imu_buffer_length s) (_min_obs_interval_us s)
    (_dt_imu_avg s) (_imu_ticks s) (_imu_updated s) (_imu_sample_new s)
    (_imu_sample_delayed s) (_delta_ang_prev s) (_delta_vel_prev s) (_vibe_metrics s)
    (_drag_down_sampled s) (_drag_sample_count s) (_drag_sample_time_dt s)
    (_gps_speed_valid s) (_deadreckon_time_exceeded s) (_fault_status_value s)
    (_imu_buffer s) (_gps_buffer s) (_mag_buffer s) (_baro_buffer s) (_range_buffer s)
    (_airspeed_buffer s) (_flow_buffer s) (_ext_vision_buffer s) (_output_buffer s)
    (_output_vert_buffer s) (_drag_buffer s) (_auxvel_buffer s) (_gps_buffer_fail s)
    (_mag_buffer_fail s) v (_range_buffer_fail s) (_airspeed_buffer_fail s)
    (_flow_buffer_fail s) (_ev_buffer_fail s) (_drag_buffer_fail s)
    (_auxvel_buffer_fail s) (_time_last_imu s) (_time_last_gps s) (_time_last_mag s)
    (_time_last_baro s) (_time_last_range s) (_time_last_airspeed s)
    (_time_last_ext_vision s) (_time_last_optflow s) (_time_last_auxvel s).

Definition set_range_buffer_fail (v : bool) (s : EstimatorInterface) : EstimatorInterface :=
  mkEstimatorInterface (_params s) (_control_status_in_air s) (_initialised s)
    (_obs_buffer_length s) (_imu_buffer_length s) (_min_obs_interval_us s)
    (_dt_imu_avg s) (_imu_ticks s) (_imu_updated s) (_imu_sample_new s)
    (_imu_sample_delayed s) (_delta_ang_prev s) (_delta_vel_prev s) (_vibe_metrics s)
    (_drag_down_sampled s) (_drag_sample_count s) (_drag_sample_time_dt s)
    (_gps_speed_valid s) (_deadreckon_time_exceeded s) (_fault_status_value s)
    (_imu_buffer s) (_gps_buffer s) (_mag_buffer s) (_baro_buffer s) (_range_buffer s)
    (_airspeed_buffer s) (_flow_buffer s) (_ext_vision_buffer s) (_output_buffer s)
    (_output_vert_buffer s) (_drag_buffer s) (_auxvel_buffer s) (_gps_buffer_fail s)
    (_mag_buffer_fail s) (_baro_buffer_fail s) v (_airspeed_buffer_fail s)
    (_flow_buffer_fail s) (_ev_buffer_fail s) (_drag_buffer_fail s)
    (_auxvel_buffer_fail s) (_time_last_imu s) (_time_last_gps s) (_time_last_mag s)
    (_time_last_baro s) (_time_last_range s) (_time_last_airspeed s)
    (_time_last_ext_vision s) (_time_last_optflow s) (_time_last_auxvel s).

Definition set_airspeed_buffer_fail (v : bool) (s : EstimatorInterface) : EstimatorInterface :=
  mkEstimatorInterface (_params s) (_control_status_in_air s) (_initialised s)
    (_obs_buffer_length s) (_imu_buffer_length s) (_min_obs_interval_us s)
    (_dt_imu_avg s) (_imu_ticks s) (_imu_updated s) (_imu_sample_new s)
    (_imu_sample_delayed s) (_delta_ang_prev s) (_delta_vel_prev s) (_vibe_metrics s)
    (_drag_down_sampled s) (_drag_sample_count s) (_drag_sample_time_dt s)
    (_gps_speed_valid s) (_deadreckon_time_exceeded s) (_fault_status_value s)
    (_imu_buffer s) (_gps_buffer s) (_mag_buffer s) (_baro_buffer s) (_range_buffer s)
    (_airspeed_buffer s) (_flow_buffer s) (_ext_vision_buffer s) (_output_buffer s)
    (_output_vert_buffer s) (_drag_buffer s) (_auxvel_buffer s) (_gps_buffer_fail s)
    (_mag_buffer_fail s) (_baro_buffer_fail s) (_range_buffer_fail s) v
    (_flow_buffer_fail s) (_ev_buffer_fail s) (_drag_buffer_fail s)
    (_auxvel_buffer_fail s) (_time_last_imu s) (_time_last_gps s) (_time_last_mag s)
    (_time_last_baro s) (_time_last_range s) (_time_last_airspeed s)
    (_time_last_ext_vision s) (_time_last_optflow s) (_time_last_auxvel s).

Definition set_flow_buffer_fail (v : bool) (s : EstimatorInterface) : EstimatorInterface :=
  mkEstimatorInterface (_params s) (_control_status_in_air s) (_initialised s)
    (_obs_buffer_length s) (_imu_buffer_length s) (_min_obs_interval_us s)
    (_dt_imu_avg s) (_imu_ticks s) (_imu_updated s) (_imu_sample_new s)
    (_imu_sample_delayed s) (_delta_ang_prev s) (_delta_vel_prev s) (_vibe_metrics s)
    (_drag_down_sampled s) (_drag_sample_count s) (_drag_sample_time_dt s)
    (_gps_speed_valid s) (_deadreckon_time_exceeded s) (_fault_status_value s)
    (_imu_buffer s) (_gps_buffer s) (_mag_buffer s) (_baro_buffer s) (_range_buffer s)
    (_airspeed_buffer s) (_flow_buffer s) (_ext_vision_buffer s) (_output_buffer s)
    (_output_vert_buffer s) (_drag_buffer s) (_auxvel_buffer s) (_gps_buffer_fail s)
    (_mag_buffer_fail s) (_baro_buffer_fail s) (_range_buffer_fail s)
    (_airspeed_buffer_fail s) v (_ev_buffer_fail s) (_drag_buffer_fail s)
    (_auxvel_buffer_fail s) (_time_last_imu s) (_time_last_gps s) (_time_last_mag s)
    (_time_last_baro s) (_time_last_range s) (_time_last_airspeed s)
    (_time_last_ext_vision s) (_time_last_optflow s) (_time_last_auxvel s).

Definition set_ev_buffer_fail (v : bool) (s : EstimatorInterface) : EstimatorInterface :=
  mkEstimatorInterface (_params s) (_control_status_in_air s) (_initialised s)
    (_obs_buffer_length s) (_imu_buffer_length s) (_min_obs_interval_us s)
    (_dt_imu_avg s) (_imu_ticks s) (_imu_updated s) (_imu_sample_new s)
    (_imu_sample_delayed s) (_delta_ang_prev s) (_delta_vel_prev s) (_vibe_metrics s)
    (_drag_down_sampled s) (_drag_sample_count s) (_drag_sample_time_dt s)
    (_gps_speed_valid s) (_deadreckon_time_exceeded s) (_fault_status_value s)
    (_imu_buffer s) (_gps_buffer s) (_mag_buffer s) (_baro_buffer s) (_range_buffer s)
    (_airspeed_buffer s) (_flow_buffer s) (_ext_vision_buffer s) (_output_buffer s)
    (_output_vert_buffer s) (_drag_buffer s) (_auxvel_buffer s) (_gps_buffer_fail s)
    (_mag_buffer_fail s) (_baro_buffer_fail s) (_range_buffer_fail s)
    (_airspeed_buffer_fail s) (_flow_buffer_fail s) v (_drag_buffer_fail s)
    (_auxvel_buffer_fail s) (_time_last_imu s) (_time_last_gps s) (_time_last_mag s)
    (_time_last_baro s) (_time_last_range s) (_time_last_airspeed s)
    (_time_last_ext_vision s) (_time_last_optflow s) (_time_last_auxvel s).

Definition set_drag_buffer_fail (v : bool) (s : EstimatorInterface) : EstimatorInterface :=
  mkEstimatorInterface (_params s) (_control_status_in_air s) (_initialised s)
    (_obs_buffer_length s) (_imu_buffer_length s) (_min_obs_interval_us s)
    (_dt_imu_avg s) (_imu_ticks s) (_imu_updated s) (_imu_sample_new s)
    (_imu_sample_delayed s) (_delta_ang_prev s) (_delta_vel_prev s) (_vibe_metrics s)
    (_drag_down_sampled s) (_drag_sample_count s) (_drag_sample_time_dt s)
    (_gps_speed_valid s) (_deadreckon_time_exceeded s) (_fault_status_value s)
    (_imu_buffer s) (_gps_buffer s) (_mag_buffer s) (_baro_buffer s) (_range_buffer s)
    (_airspeed_buffer s) (_flow_buffer s) (_ext_vision_buffer s) (_output_buffer s)
    (_output_vert_buffer s) (_drag_buffer s) (_auxvel_buffer s) (_gps_buffer_fail s)
    (_mag_buffer_fail s) (_baro_buffer_fail s) (_range_buffer_fail s)
    (_airspeed_buffer_fail s) (_flow_buffer_fail s) (_ev_buffer_fail s) v
    (_auxvel_buffer_fail s) (_time_last_imu s) (_time_last_gps s) (_time_last_mag s)
    (_time_last_baro s) (_time_last_range s) (_time_last_airspeed s)
    (_time_last_ext_vision s) (_time_last_optflow s) (_time_last_auxvel s).

Definition set_auxvel_buffer_fail (v : bool) (s : EstimatorInterface) : EstimatorInterface :=
  mkEstimatorInterface (_params s) (_control_status_in_air s) (_initialised s)
    (_obs_buffer_length s) (_imu_buffer_length s) (_min_obs_interval_us s)
    (_dt_imu_avg s) (_imu_ticks s) (_imu_updated s) (_imu_sample_new s)
    (_imu_sample_delayed s) (_delta_ang_prev s) (_delta_vel_prev s) (_vibe_metrics s)
    (_drag_down_sampled s) (_drag_sample_count s) (_drag_sample_time_dt s)
    (_gps_speed_valid s) (_deadreckon_time_exceeded s) (_fault_status_value s)
    (_imu_buffer s) (_gps_buffer s) (_mag_buffer s) (_baro_buffer s) (_range_buffer s)
    (_airspeed_buffer s) (_flow_buffer s) (_ext_vision_buffer s) (_output_buffer s)
    (_output_vert_buffer s) (_drag_buffer s) (_auxvel_buffer s) (_gps_buffer_fail s)
    (_mag_buffer_fail s) (_baro_buffer_fail s) (_range_buffer_fail s)
    (_airspeed_buffer_fail s) (_flow_buffer_fail s) (_ev_buffer_fail s)
    (_drag_buffer_fail s) v (_time_last_imu s) (_time_last_gps s) (_time_last_mag s)
    (_time_last_baro s) (_time_last_range s) (_time_last_airspeed s)
    (_time_last_ext_vision s) (_time_last_optflow s) (_time_last_auxvel s).

Definition set_time_last_imu (v : Z) (s : EstimatorInterface) : EstimatorInterface :=
  mkEstimatorInterface (_params s) (_control_status_in_air s) (_initialised s)
    (_obs_buffer_length s) (_imu_buffer_length s) (_min_obs_interval_us s)
    (_dt_imu_avg s) (_imu_ticks s) (_imu_updated s) (_imu_sample_new s)
    (_imu_sample_delayed s) (_delta_ang_prev s) (_delta_vel_prev s) (_vibe_metrics s)
    (_drag_down_sampled s) (_drag_sample_count s) (_drag_sample_time_dt s)
    (_gps_speed_valid s) (_deadreckon_time_exceeded s) (_fault_status_value s)
    (_imu_buffer s) (_gps_buffer s) (_mag_buffer s) (_baro_buffer s) (_range_buffer s)
    (_airspeed_buffer s) (_flow_buffer s) (_ext_vision_buffer s) (_output_buffer s)
    (_output_vert_buffer s) (_drag_buffer s) (_auxvel_buffer s) (_gps_buffer_fail s)
    (_mag_buffer_fail s) (_baro_buffer_fail s) (_range_buffer_fail s)
    (_airspeed_buffer_fail s) (_flow_buffer_fail s) (_ev_buffer_fail s)
    (_drag_buffer_fail s) (_auxvel_buffer_fail s) v (_time_last_gps s)
    (_time_last_mag s) (_time_last_baro s) (_time_last_range s) (_time_last_airspeed s)
    (_time_last_ext_vision s) (_time_last_optflow s) (_time_last_auxvel s).

Definition set_time_last_gps (v : Z) (s : EstimatorInterface) : EstimatorInterface :=
  mkEstimatorInterface (_params s) (_control_status_in_air s) (_initialised s)
    (_obs_buffer_length s) (_imu_buffer_length s) (_min_obs_interval_us s)
    (_dt_imu_avg s) (_imu_ticks s) (_imu_updated s) (_imu_sample_new s)
    (_imu_sample_delayed s) (_delta_ang_prev s) (_delta_vel_prev s) (_vibe_metrics s)
    (_drag_down_sampled s) (_drag_sample_count s) (_drag_sample_time_dt s)
    (_gps_speed_valid s) (_deadreckon_time_exceeded s) (_fault_status_value s)
    (_imu_buffer s) (_gps_buffer s) (_mag_buffer s) (_baro_buffer s) (_range_buffer s)
    (_airspeed_buffer s) (_flow_buffer s) (_ext_vision_buffer s) (_output_buffer s)
    (_output_vert_buffer s) (_drag_buffer s) (_auxvel_buffer s) (_gps_buffer_fail s)
    (_mag_buffer_fail s) (_baro_buffer_fail s) (_range_buffer_fail s)
    (_airspeed_buffer_fail s) (_flow_buffer_fail s) (_ev_buffer_fail s)
    (_drag_buffer_fail s) (_auxvel_buffer_fail s) (_time_last_imu s) v
    (_time_last_mag s) (_time_last_baro s) (_time_last_range s) (_time_last_airspeed s)
    (_time_last_ext_vision s) (_time_last_optflow s) (_time_last_auxvel s).

Definition set_time_last_mag (v : Z) (s : EstimatorInterface) : EstimatorInterface :=
  mkEstimatorInterface (_params s) (_control_status_in_air s) (_initialised s)
    (_obs_buffer_length s) (_imu_buffer_length s) (_min_obs_interval_us s)
    (_dt_imu_avg s) (_imu_ticks s) (_imu_updated s) (_imu_sample_new s)
    (_imu_sample_delayed s) (_delta_ang_prev s) (_delta_vel_prev s) (_vibe_metrics s)
    (_drag_down_sampled s) (_drag_sample_count s) (_drag_sample_time_dt s)
    (_gps_speed_valid s) (_deadreckon_time_exceeded s) (_fault_status_value s)
    (_imu_buffer s) (_gps_buffer s) (_mag_buffer s) (_baro_buffer s) (_range_buffer s)
    (_airspeed_buffer s) (_flow_buffer s) (_ext_vision_buffer s) (_output_buffer s)
    (_output_vert_buffer s) (_drag_buffer s) (_auxvel_buffer s) (_gps_buffer_fail s)
    (_mag_buffer_fail s) (_baro_buffer_fail s) (_range_buffer_fail s)
    (_airspeed_buffer_fail s) (_flow_buffer_fail s) (_ev_buffer_fail s)
    (_drag_buffer_fail s) (_auxvel_buffer_fail s) (_time_last_imu s) (_time_last_gps s)
    v (_time_last_baro s) (_time_last_range s) (_time_last_airspeed s)
    (_time_last_ext_vision s) (_time_last_optflow s) (_time_last_auxvel s).

Definition set_time_last_baro (v : Z) (s : EstimatorInterface) : EstimatorInterface :=
  mkEstimatorInterface (_params s) (_control_status_in_air s) (_initialised s)
    (_obs_buffer_length s) (_imu_buffer_length s) (_min_obs_interval_us s)
    (_dt_imu_avg s) (_imu_ticks s) (_imu_updated s) (_imu_sample_new s)
    (_imu_sample_delayed s) (_delta_ang_prev s) (_delta_vel_prev s) (_vibe_metrics s)
    (_drag_down_sampled s) (_drag_sample_count s) (_drag_sample_time_dt s)
    (_gps_speed_valid s) (_deadreckon_time_exceeded s) (_fault_status_value s)
    (_imu_buffer s) (_gps_buffer s) (_mag_buffer s) (_baro_buffer s) (_range_buffer s)
    (_airspeed_buffer s) (_flow_buffer s) (_ext_vision_buffer s) (_output_buffer s)
    (_output_vert_buffer s) (_drag_buffer s) (_auxvel_buffer s) (_gps_buffer_fail s)
    (_mag_buffer_fail s) (_baro_buffer_fail s) (_range_buffer_fail s)
    (_airspeed_buffer_fail s) (_flow_buffer_fail s) (_ev_buffer_fail s)
    (_drag_buffer_fail s) (_auxvel_buffer_fail s) (_time_last_imu s) (_time_last_gps s)
    (_time_last_mag s) v (_time_last_range s) (_time_last_airspeed s)
    (_time_last_ext_vision s) (_time_last_optflow s) (_time_last_auxvel s).

Definition set_time_last_range (v : Z) (s : EstimatorInterface) : EstimatorInterface :=
  mkEstimatorInterface (_params s) (_control_status_in_air s) (_initialised s)
    (_obs_buffer_length s) (_imu_buffer_length s) (_min_obs_interval_us s)
    (_dt_imu_avg s) (_imu_ticks s) (_imu_updated s) (_imu_sample_new s)
    (_imu_sample_delayed s) (_delta_ang_prev s) (_delta_vel_prev s) (_vibe_metrics s)
    (_drag_down_sampled s) (_drag_sample_count s) (_drag_sample_time_dt s)
    (_gps_speed_valid s) (_deadreckon_time_exceeded s) (_fault_status_value s)
    (_imu_buffer s) (_gps_buffer s) (_mag_buffer s) (_baro_buffer s) (_range_buffer s)
    (_airspeed_buffer s) (_flow_buffer s) (_ext_vision_buffer s) (_output_buffer s)
    (_output_vert_buffer s) (_drag_buffer s) (_auxvel_buffer s) (_gps_buffer_fail s)
    (_mag_buffer_fail s) (_baro_buffer_fail s) (_range_buffer_fail s)
    (_airspeed_buffer_fail s) (_flow_buffer_fail s) (_ev_buffer_fail s)
    (_drag_buffer_fail s) (_auxvel_buffer_fail s) (_time_last_imu s) (_time_last_gps s)
    (_time_last_mag s) (_time_last_baro s) v (_time_last_airspeed s)
    (_time_last_ext_vision s) (_time_last_optflow s) (_time_last_auxvel s).

Definition set_time_last_airspeed (v : Z) (s : EstimatorInterface) : EstimatorInterface :=
  mkEstimatorInterface (_params s) (_control_status_in_air s) (_initialised s)
    (_obs_buffer_length s) (_imu_buffer_length s) (_min_obs_interval_us s)
    (_dt_imu_avg s) (_imu_ticks s) (_imu_updated s) (_imu_sample_new s)
    (_imu_sample_delayed s) (_delta_ang_prev s) (_delta_vel_prev s) (_vibe_metrics s)
    (_drag_down_sampled s) (_drag_sample_count s) (_drag_sample_time_dt s)
    (_gps_speed_valid s) (_deadreckon_time_exceeded s) (_fault_status_value s)
    (_imu_buffer s) (_gps_buffer s) (_mag_buffer s) (_baro_buffer s) (_range_buffer s)
    (_airspeed_buffer s) (_flow_buffer s) (_ext_vision_buffer s) (_output_buffer s)
    (_output_vert_buffer s) (_drag_buffer s) (_auxvel_buffer s) (_gps_buffer_fail s)
    (_mag_buffer_fail s) (_baro_buffer_fail s) (_range_buffer_fail s)
    (_airspeed_buffer_fail s) (_flow_buffer_fail s) (_ev_buffer_fail s)
    (_drag_buffer_fail s) (_auxvel_buffer_fail s) (_time_last_imu s) (_time_last_gps s)
    (_time_last_mag s) (_time_last_baro s) (_time_last_range s) v
    (_time_last_ext_vision s) (_time_last_optflow s) (_time_last_auxvel s).

Definition set_time_last_ext_vision (v : Z) (s : EstimatorInterface) : EstimatorInterface :=
  mkEstimatorInterface (_params s) (_control_status_in_air s) (_initialised s)
    (_obs_buffer_length s) (_imu_buffer_length s) (_min_obs_interval_us s)
    (_dt_imu_avg s) (_imu_ticks s) (_imu_updated s) (_imu_sample_new s)
    (_imu_sample_delayed s) (_delta_ang_prev s) (_delta_vel_prev s) (_vibe_metrics s)
    (_drag_down_sampled s) (_drag_sample_count s) (_drag_sample_time_dt s)
    (_gps_speed_valid s) (_deadreckon_time_exceeded s) (_fault_status_value s)
    (_imu_buffer s) (_gps_buffer s) (_mag_buffer s) (_baro_buffer s) (_range_buffer s)
    (_airspeed_buffer s) (_flow_buffer s) (_ext_vision_buffer s) (_output_buffer s)
    (_output_vert_buffer s) (_drag_buffer s) (_auxvel_buffer s) (_gps_buffer_fail s)
    (_mag_buffer_fail s) (_baro_buffer_fail s) (_range_buffer_fail s)
    (_airspeed_buffer_fail s) (_flow_buffer_fail s) (_ev_buffer_fail s)
    (_drag_buffer_fail s) (_auxvel_buffer_fail s) (_time_last_imu s) (_time_last_gps s)
    (_time_last_mag s) (_time_last_baro s) (_time_last_range s) (_time_last_airspeed s)
    v (_time_last_optflow s) (_time_last_auxvel s).

Definition set_time_last_optflow (v : Z) (s : EstimatorInterface) : EstimatorInterface :=
  mkEstimatorInterface (_params s) (_control_status_in_air s) (_initialised s)
    (_obs_buffer_length s) (_imu_buffer_length s) (_min_obs_interval_us s)
    (_dt_imu_avg s) (_imu_ticks s) (_imu_updated s) (_imu_sample_new s)
    (_imu_sample_delayed s) (_delta_ang_prev s) (_delta_vel_prev s) (_vibe_metrics s)
    (_drag_down_sampled s) (_drag_sample_count s) (_drag_sample_time_dt s)
    (_gps_speed_valid s) (_deadreckon_time_exceeded s) (_fault_status_value s)
    (_imu_buffer s) (_gps_buffer s) (_mag_buffer s) (_baro_buffer s) (_range_buffer s)
    (_airspeed_buffer s) (_flow_buffer s) (_ext_vision_buffer s) (_output_buffer s)
    (_output_vert_buffer s) (_drag_buffer s) (_auxvel_buffer s) (_gps_buffer_fail s)
    (_mag_buffer_fail s) (_baro_buffer_fail s) (_range_buffer_fail s)
    (_airspeed_buffer_fail s) (_flow_buffer_fail s) (_ev_buffer_fail s)
    (_drag_buffer_fail s) (_auxvel_buffer_fail s) (_time_last_imu s) (_time_last_gps s)
    (_time_last_mag s) (_time_last_baro s) (_time_last_range s) (_time_last_airspeed s)
    (_time_last_ext_vision s) v (_time_last_auxvel s).

Definition set_time_last_auxvel (v : Z) (s : EstimatorInterface) : EstimatorInterface :=
  mkEstimatorInterface (_params s) (_control_status_in_air s) (_initialised s)
    (_obs_buffer_length s) (_imu_buffer_length s) (_min_obs_interval_us s)
    (_dt_imu_avg s) (_imu_ticks s) (_imu_updated s) (_imu_sample_new s)
    (_imu_sample_delayed s) (_delta_ang_prev s) (_delta_vel_prev s) (_vibe_metrics s)
    (_drag_down_sampled s) (_drag_sample_count s) (_drag_sample_time_dt s)
    (_gps_speed_valid s) (_deadreckon_time_exceeded s) (_fault_status_value s)
    (_imu_buffer s) (_gps_buffer s) (_mag_buffer s) (_baro_buffer s) (_range_buffer s)
    (_airspeed_buffer s) (_flow_buffer s) (_ext_vision_buffer s) (_output_buffer s)
    (_output_vert_buffer s) (_drag_buffer s) (_auxvel_buffer s) (_gps_buffer_fail s)
    (_mag_buffer_fail s) (_baro_buffer_fail s) (_range_buffer_fail s)
    (_airspeed_buffer_fail s) (_flow_buffer_fail s) (_ev_buffer_fail s)
    (_drag_buffer_fail s) (_auxvel_buffer_fail s) (_time_last_imu s) (_time_last_gps s)
    (_time_last_mag s) (_time_last_baro s) (_time_last_range s) (_time_last_airspeed s)
    (_time_last_ext_vision s) (_time_last_optflow s) v.
(** ** The routines of [estimator_interface.cpp] *)

Section Interface.

(** Constants of the headers, which are outside the translation unit: the
    filter update period in milliseconds, the [fusion_mode] bit masks and the
    height-source selector for GPS. *)
Variable FILTER_UPDATE_PERIOD_MS : Z.
Variable MASK_USE_GPS : Z.
Variable MASK_USE_DRAG : Z.
Variable VDIST_SENSOR_GPS : Z.

(** [FILTER_UPDATE_PERIOD_MS * 1000 / 2], an [int] expression. *)
Definition half_update_period_us : Z := Z.quot (FILTER_UPDATE_PERIOD_MS * 1000) 2.

Definition unallocate_buffers (s : EstimatorInterface) : EstimatorInterface :=
  let s := set_imu_buffer (RingBuffer.unallocate (_imu_buffer s)) s in
  let s := set_gps_buffer (RingBuffer.unallocate (_gps_buffer s)) s in
  let s := set_mag_buffer (RingBuffer.unallocate (_mag_buffer s)) s in
  let s := set_baro_buffer (RingBuffer.unallocate (_baro_buffer s)) s in
  let s := set_range_buffer (RingBuffer.unallocate (_range_buffer s)) s in
  let s := set_airspeed_buffer (RingBuffer.unallocate (_airspeed_buffer s)) s in
  let s := set_flow_buffer (RingBuffer.unallocate (_flow_buffer s)) s in
  let s := set_ext_vision_buffer (RingBuffer.unallocate (_ext_vision_buffer s)) s in
  let s := set_output_buffer (RingBuffer.unallocate (_output_buffer s)) s in
  let s := set_output_vert_buffer (RingBuffer.unallocate (_output_vert_buffer s)) s in
  let s := set_drag_buffer (RingBuffer.unallocate (_drag_buffer s)) s in
  set_auxvel_buffer (RingBuffer.unallocate (_auxvel_buffer s)) s.

(** The local [max_time_delay_ms] of [initialise_interface], a [uint16_t]. *)
Definition max_time_delay_ms (p : parameters) : Z :=
  u16 (math.max (mag_delay_ms p)
        (math.max (range_delay_ms p)
          (math.max (gps_delay_ms p)
            (math.max (flow_delay_ms p)
              (math.max (ev_delay_ms p)
                (math.max (auxvel_delay_ms p)
                  (math.max (min_delay_ms p)
                    (math.max (airspeed_delay_ms p) (baro_delay_ms p))))))))).

(** The local [ekf_delay_ms] of [initialise_interface], a [uint16_t]. *)
Definition ekf_delay_ms (max_delay : Z) : Z :=
  u16 (max_delay
       + F32.to_int (F32.ceilf (F32.mul (F32.of_Z max_delay) (F32.lit 1 2)))).

Definition imuSample_zero (timestamp : Z) : imuSample :=
  mkImuSample Vector3f_zero Vector3f_zero F32.zero F32.zero timestamp.

(** [alloc] gives the outcome of the three allocations, in the order of the
    short-circuit conjunction.  The two integer divisions are undefined in
    the source for a zero divisor ([FILTER_UPDATE_PERIOD_MS],
    [sensor_interval_min_ms]); the definition is total, and what it gives
    there says nothing about the program: statements that depend on the
    quotients assume positive divisors. *)
Definition initialise_interface (timestamp : Z) (alloc : bool * bool * bool)
    (s : EstimatorInterface) : bool * EstimatorInterface :=
  let max_delay := max_time_delay_ms (_params s) in
  let s := set_imu_buffer_length (u8 (Z.quot max_delay FILTER_UPDATE_PERIOD_MS + 1)) s in
  let ekf_delay := ekf_delay_ms max_delay in
  let s :=
    set_obs_buffer_length
      (u8 (Z.quot ekf_delay (sensor_interval_min_ms (_params s)) + 1)) s in
  let s :=
    set_obs_buffer_length (math.min (_obs_buffer_length s) (_imu_buffer_length s)) s in
  let r1 :=
    RingBuffer.allocate (_imu_buffer_length s) (fst (fst alloc)) (_imu_buffer s) in
  let s := set_imu_buffer (snd r1) s in
  let r2 :=
    if fst r1 then
      RingBuffer.allocate (_imu_buffer_length s) (snd (fst alloc)) (_output_buffer s)
    else (false, _output_buffer s) in
  let s := set_output_buffer (snd r2) s in
  let r3 :=
    if fst r2 then
      RingBuffer.allocate (_imu_buffer_length s) (snd alloc) (_output_vert_buffer s)
    else (false, _output_vert_buffer s) in
  let s := set_output_vert_buffer (snd r3) s in
  if negb (fst r1 && fst r2 && fst r3) then (false, unallocate_buffers s)
  else
    let s := set_dt_imu_avg F32.zero s in
    let s := set_imu_sample_delayed (imuSample_zero timestamp) s in
    let s := set_imu_ticks 0 s in
    let s := set_initialised false s in
    let s := set_time_last_imu 0 s in
    let s := set_time_last_gps 0 s in
    let s := set_time_last_mag 0 s in
    let s := set_time_last_baro 0 s in
    let s := set_time_last_range 0 s in
    let s := set_time_last_airspeed 0 s in
    let s := set_time_last_optflow 0 s in
    let s := set_fault_status_value 0 s in
    let s := set_time_last_ext_vision 0 s in
    (true, s).

(** Modelled from the spec: [init] is a virtual of the filter core and is
    absent from the sources; the spec has the first IMU sample trigger the
    initialisation, which for the fields of this object is
    [initialise_interface]. *)
Definition init (timestamp : Z) (alloc : bool * bool * bool)
    (s : EstimatorInterface) : EstimatorInterface :=
  snd (initialise_interface timestamp alloc s).

(** What the virtual [collect_imu] did with the sample it was handed: whether
    a down-sampled sample is ready, the sample it left in the caller's local,
    and the member [_imu_sample_new] it maintains. *)
Record collect_imu_result : Type := mkCollectImu {
  ci_ready : bool;
  ci_sample : imuSample;
  ci_imu_sample_new : imuSample
}.

(** The local [min_sample_ratio] of the drag block, a [uint8_t], from
    [_imu_buffer_length] and [_obs_buffer_length] (lines 125 to 129). *)
Definition min_sample_ratio (imu_buffer_length obs_buffer_length : Z) : Z :=
  let r :=
    F32.to_u8 (F32.ceilf (F32.div (F32.of_Z imu_buffer_length)
                                  (F32.of_Z obs_buffer_length))) in
  if r <? 5 then 5 else r.

(** [setIMUData] is embedded block by block, in the order of the source. *)

(** Lines 52 to 55: the first call initialises. *)
Definition imu_init (time_usec : Z) (init_alloc : bool * bool * bool)
    (s : EstimatorInterface) : EstimatorInterface :=
  if negb (_initialised s) then set_initialised true (init time_usec init_alloc s)
  else s.

(** Line 57: the local [dt]. *)
Definition imu_dt (time_usec : Z) (s : EstimatorInterface) : float :=
  math.constrain
    (F32.div (F32.of_Z (u64 (time_usec - _time_last_imu s))) (F32.of_Z 1000000))
    (F32.lit 1 10000) (F32.lit 2 100).

(** Lines 57 to 63: IMU period and its average. *)
Definition imu_timing (time_usec : Z) (s : EstimatorInterface) : EstimatorInterface :=
  let dt := imu_dt time_usec s in
  let s := set_time_last_imu time_usec s in
  if _time_last_imu s >? 0 then
    set_dt_imu_avg
      (F32.add (F32.mul (F32.lit 8 10) (_dt_imu_avg s)) (F32.mul (F32.lit 2 10) dt)) s
  else s.

(** Lines 74 to 88: tick count and vibration metrics. *)
Definition imu_metrics (imu_sample_new : imuSample) (s : EstimatorInterface)
  : EstimatorInterface :=
  let s := set_imu_ticks (u32 (_imu_ticks s + 1)) s in
  let temp := cross_product (imu_delta_ang imu_sample_new) (_delta_ang_prev s) in
  let s :=
    set_vibe_metrics
      (mkVector3f
         (F32.add (F32.mul (F32.lit 99 100) (v3_0 (_vibe_metrics s)))
                  (F32.mul (F32.lit 1 100) (Vector3f_norm temp)))
         (v3_1 (_vibe_metrics s)) (v3_2 (_vibe_metrics s))) s in
  let temp := Vector3f_sub (imu_delta_ang imu_sample_new) (_delta_ang_prev s) in
  let s := set_delta_ang_prev (imu_delta_ang imu_sample_new) s in
  let s :=
    set_vibe_metrics
      (mkVector3f
         (v3_0 (_vibe_metrics s))
         (F32.add (F32.mul (F32.lit 99 100) (v3_1 (_vibe_metrics s)))
                  (F32.mul (F32.lit 1 100) (Vector3f_norm temp)))
         (v3_2 (_vibe_metrics s))) s in
  let temp := Vector3f_sub (imu_delta_vel imu_sample_new) (_delta_vel_prev s) in
  let s := set_delta_vel_prev (imu_delta_vel imu_sample_new) s in
  set_vibe_metrics
    (mkVector3f
       (v3_0 (_vibe_metrics s)) (v3_1 (_vibe_metrics s))
       (F32.add (F32.mul (F32.lit 99 100) (v3_2 (_vibe_metrics s)))
                (F32.mul (F32.lit 1 100) (Vector3f_norm temp)))) s.

(** Lines 92 to 101: the down-sampled sample enters the IMU buffer.  The
    division of line 101 is undefined in the source when
    [_obs_buffer_length] is 1; the definition is total, and what it gives
    there says nothing about the program: statements about the interval or
    about what the routine does after line 101 assume a length other
    than 1. *)
Definition imu_store (x : imuSample) (s : EstimatorInterface) : EstimatorInterface :=
  let s := set_imu_buffer (RingBuffer.push x (_imu_buffer s)) s in
  let s := set_imu_ticks 0 s in
  let s := set_imu_updated true s in
  let s :=
    set_imu_sample_delayed (RingBuffer.get_oldest (imuSample_zero 0) (_imu_buffer s)) s in
  set_min_obs_interval_us
    (u32 (u64 (imu_time_us (_imu_sample_new s) - imu_time_us (_imu_sample_delayed s))
          / u64 (_obs_buffer_length s - 1))) s.

(** Line 105: the guard of the drag block. *)
Definition drag_enabled (s : EstimatorInterface) : bool :=
  negb (Z.land (fusion_mode (_params s)) MASK_USE_DRAG =? 0)
  && negb (_drag_buffer_fail s).

(** Lines 109 to 115: lazy allocation of the drag buffer; [_drag_buffer_fail]
    is set exactly when the allocation attempted here failed. *)
Definition drag_allocate (drag_alloc : bool) (s : EstimatorInterface)
  : EstimatorInterface :=
  if RingBuffer.get_length (_drag_buffer s) <? _obs_buffer_length s then
    let r := RingBuffer.allocate (_obs_buffer_length s) drag_alloc (_drag_buffer s) in
    set_drag_buffer_fail (negb (fst r)) (set_drag_buffer (snd r) s)
  else s.

(** Lines 117 to 122: accumulation. *)
Definition drag_accumulate (x : imuSample) (s : EstimatorInterface)
  : EstimatorInterface :=
  let s := set_drag_sample_count (u8 (_drag_sample_count s + 1)) s in
  let s :=
    set_drag_down_sampled
      (mkDragSample
         (mkVector2f
            (F32.add (v2_0 (drag_accelXY (_drag_down_sampled s))) (v3_0 (imu_delta_vel x)))
            (F32.add (v2_1 (drag_accelXY (_drag_down_sampled s))) (v3_1 (imu_delta_vel x))))
         (u64 (drag_time_us (_drag_down_sampled s) + imu_time_us x))) s in
  set_drag_sample_time_dt (F32.add (_drag_sample_time_dt s) (imu_delta_vel_dt x)) s.

(** The mean the drag block forms from its accumulators (lines 134 to 136). *)
Definition drag_mean (s : EstimatorInterface) : dragSample :=
  mkDragSample
    (mkVector2f
       (F32.div (v2_0 (drag_accelXY (_drag_down_sampled s))) (_drag_sample_time_dt s))
       (F32.div (v2_1 (drag_accelXY (_drag_down_sampled s))) (_drag_sample_time_dt s)))
    (drag_time_us (_drag_down_sampled s) / _drag_sample_count s).

(** Lines 132 to 147: emission and reset. *)
Definition drag_emit (s : EstimatorInterface) : EstimatorInterface :=
  if _drag_sample_count s
     >=? min_sample_ratio (_imu_buffer_length s) (_obs_buffer_length s) then
    let s := set_drag_buffer (RingBuffer.push (drag_mean s) (_drag_buffer s)) s in
    let s := set_drag_sample_count 0 s in
    let s := set_drag_down_sampled (mkDragSample Vector2f_zero 0) s in
    set_drag_sample_time_dt F32.zero s
  else s.

(** Lines 105 to 148: the drag block; it returns from the routine when the
    allocation fails. *)
Definition drag_down_sample (x : imuSample) (drag_alloc : bool)
    (s : EstimatorInterface) : EstimatorInterface :=
  if drag_enabled s then
    let s := drag_allocate drag_alloc s in
    if _drag_buffer_fail s then s else drag_emit (drag_accumulate x s)
  else s.

(** [ci] is what the virtual [collect_imu] does in this call. *)
Definition setIMUData (time_usec delta_ang_dt delta_vel_dt : Z)
    (delta_ang delta_vel : Vector3f)
    (init_alloc : bool * bool * bool) (ci : collect_imu_result) (drag_alloc : bool)
    (s : EstimatorInterface) : EstimatorInterface :=
  let s := imu_init time_usec init_alloc s in
  let s := imu_timing time_usec s in
  let imu_sample_new :=
    mkImuSample delta_ang delta_vel
      (F32.div (F32.of_Z delta_ang_dt) (F32.of_Z 1000000))
      (F32.div (F32.of_Z delta_vel_dt) (F32.of_Z 1000000))
      time_usec in
  let s := imu_metrics imu_sample_new s in
  (* collect_imu(imu_sample_new) *)
  let imu_sample_new := ci_sample ci in
  let s := set_imu_sample_new (ci_imu_sample_new ci) s in
  if ci_ready ci then
    drag_down_sample imu_sample_new drag_alloc (imu_store imu_sample_new s)
  else set_imu_updated false s.

(** In the intake routines below the allocation block sets the failure flag,
    which the entry guard found clear, exactly when the allocation attempted
    in this call failed; the routine then returns. *)

Definition setMagData (time_usec : Z) (data : Vector3f) (alloc_ok : bool)
    (s : EstimatorInterface) : EstimatorInterface :=
  if negb (_initialised s) || _mag_buffer_fail s then s
  else
    let s :=
      if RingBuffer.get_length (_mag_buffer s) <? _obs_buffer_length s then
        let r := RingBuffer.allocate (_obs_buffer_length s) alloc_ok (_mag_buffer s) in
        set_mag_buffer_fail (negb (fst r)) (set_mag_buffer (snd r) s)
      else s in
    if _mag_buffer_fail s then s
    else if u64 (time_usec - _time_last_mag s) >? _min_obs_interval_us s then
      let time_us := u64 (time_usec - mag_delay_ms (_params s) * 1000) in
      let time_us := u64 (time_us - half_update_period_us) in
      let s := set_time_last_mag time_usec s in
      let mag_sample_new := mkMagSample data time_us in
      set_mag_buffer (RingBuffer.push mag_sample_new (_mag_buffer s)) s
    else s.

(** [collect_gps] is the virtual's answer (is the WGS-84 origin set) and
    [map_projection_project] the projection of the fix against the origin
    reference, applied to the message's latitude and longitude. *)
Definition setGpsData (time_usec : Z) (gps : gps_message) (alloc_ok : bool)
    (collect_gps : bool) (map_projection_project : Z -> Z -> float * float)
    (s : EstimatorInterface) : EstimatorInterface :=
  if negb (_initialised s) || _gps_buffer_fail s then s
  else
    let s :=
      if RingBuffer.get_length (_gps_buffer s) <? _obs_buffer_length s then
        let r := RingBuffer.allocate (_obs_buffer_length s) alloc_ok (_gps_buffer s) in
        set_gps_buffer_fail (negb (fst r)) (set_gps_buffer (snd r) s)
      else s in
    if _gps_buffer_fail s then s
    else
      let need_gps :=
        negb (Z.land (fusion_mode (_params s)) MASK_USE_GPS =? 0)
        || (vdist_sensor_type (_params s) =? VDIST_SENSOR_GPS) in
      if (u64 (time_usec - _time_last_gps s) >? _min_obs_interval_us s)
         && need_gps && (gpsm_fix_type gps >? 2) then
        let time_us := u64 (gpsm_time_usec gps - gps_delay_ms (_params s) * 1000) in
        let time_us := u64 (time_us - half_update_period_us) in
        let s := set_time_last_gps time_usec s in
        let time_us := math.max time_us (imu_time_us (_imu_sample_delayed s)) in
        let s := set_gps_speed_valid (gpsm_vel_ned_valid gps) s in
        let hgt := F32.mul (F32.of_Z (gpsm_alt gps)) (F32.lit 1 1000) in
        let pos :=
          if collect_gps then
            let lpos := map_projection_project (gpsm_lat gps) (gpsm_lon gps) in
            mkVector2f (fst lpos) (snd lpos)
          else mkVector2f F32.zero F32.zero in
        let gps_sample_new :=
          mkGpsSample pos hgt (gpsm_vel_ned gps) (gpsm_eph gps) (gpsm_epv gps)
                      (gpsm_sacc gps) time_us in
        set_gps_buffer (RingBuffer.push gps_sample_new (_gps_buffer s)) s
      else s.

Definition setBaroData (time_usec : Z) (data : float) (alloc_ok : bool)
    (s : EstimatorInterface) : EstimatorInterface :=
  if negb (_initialised s) || _baro_buffer_fail s then s
  else
    let s :=
      if RingBuffer.get_length (_baro_buffer s) <? _obs_buffer_length s then
        let r := RingBuffer.allocate (_obs_buffer_length s) alloc_ok (_baro_buffer s) in
        set_baro_buffer_fail (negb (fst r)) (set_baro_buffer (snd r) s)
      else s in
    if _baro_buffer_fail s then s
    else if u64 (time_usec - _time_last_baro s) >? _min_obs_interval_us s then
      let time_us := u64 (time_usec - baro_delay_ms (_params s) * 1000) in
      let time_us := u64 (time_us - half_update_period_us) in
      let s := set_time_last_baro time_usec s in
      let time_us := math.max time_us (imu_time_us (_imu_sample_delayed s)) in
      let baro_sample_new := mkBaroSample data time_us in
      set_baro_buffer (RingBuffer.push baro_sample_new (_baro_buffer s)) s
    else s.

Definition setAirspeedData (time_usec : Z) (true_airspeed eas2tas : float)
    (alloc_ok : bool) (s : EstimatorInterface) : EstimatorInterface :=
  if negb (_initialised s) || _airspeed_buffer_fail s then s
  else
    let s :=
      if RingBuffer.get_length (_airspeed_buffer s) <? _obs_buffer_length s then
        let r :=
          RingBuffer.allocate (_obs_buffer_length s) alloc_ok (_airspeed_buffer s) in
        set_airspeed_buffer_fail (negb (fst r)) (set_airspeed_buffer (snd r) s)
      else s in
    if _airspeed_buffer_fail s then s
    else if u64 (time_usec - _time_last_airspeed s) >? _min_obs_interval_us s then
      let time_us := u64 (time_usec - airspeed_delay_ms (_params s) * 1000) in
      let time_us := u64 (time_us - half_update_period_us) in
      let s := set_time_last_airspeed time_usec s in
      let airspeed_sample_new := mkAirspeedSample true_airspeed eas2tas time_us in
      set_airspeed_buffer (RingBuffer.push airspeed_sample_new (_airspeed_buffer s)) s
    else s.

Definition setRangeData (time_usec : Z) (data : float) (alloc_ok : bool)
    (s : EstimatorInterface) : EstimatorInterface :=
  if negb (_initialised s) || _range_buffer_fail s then s
  else
    let s :=
      if RingBuffer.get_length (_range_buffer s) <? _obs_buffer_length s then
        let r := RingBuffer.allocate (_obs_buffer_length s) alloc_ok (_range_buffer s) in
        set_range_buffer_fail (negb (fst r)) (set_range_buffer (snd r) s)
      else s in
    if _range_buffer_fail s then s
    else if u64 (time_usec - _time_last_range s) >? _min_obs_interval_us s then
      let time_us := u64 (time_usec - range_delay_ms (_params s) * 1000) in
      let s := set_time_last_range time_usec s in
      let range_sample_new := mkRangeSample data time_us in
      set_range_buffer (RingBuffer.push range_sample_new (_range_buffer s)) s
    else s.

(** [uninit] is the content of the local [matching_imu_sample] where the
    look-up in the IMU buffer finds nothing and leaves it as declared. *)
Definition setOpticalFlowData (time_usec : Z) (flow : flow_message) (alloc_ok : bool)
    (uninit : imuSample) (s : EstimatorInterface) : EstimatorInterface :=
  if negb (_initialised s) || _flow_buffer_fail s then s
  else
    let s :=
      if RingBuffer.get_length (_flow_buffer s) <? _obs_buffer_length s then
        let r := RingBuffer.allocate (_obs_buffer_length s) alloc_ok (_flow_buffer s) in
        set_flow_buffer_fail (negb (fst r)) (set_flow_buffer (snd r) s)
      else s in
    if _flow_buffer_fail s then s
    else if u64 (time_usec - _time_last_optflow s) >? _min_obs_interval_us s then
      let delta_time := F32.mul (F32.lit 1 1000000) (F32.of_Z (flowm_dt flow)) in
      let delta_time_min :=
        F32.mul (F32.lit 1 2000000) (F32.of_Z (_min_obs_interval_us s)) in
      let delta_time_good := F32.geb delta_time delta_time_min in
      let delta_time := if negb delta_time_good then delta_time_min else delta_time in
      let flow_magnitude_good :=
        if delta_time_good then
          F32.leb (F32.div (Vector2f_norm (flowm_flowdata flow)) delta_time)
                  (flow_rate_max (_params s))
        else true in
      let flow_quality_good := flowm_quality flow >=? flow_qual_min (_params s) in
      if (delta_time_good && flow_quality_good && flow_magnitude_good)
         || negb (_control_status_in_air s) then
        let time_us :=
          u64 (u64 (time_usec - flow_delay_ms (_params s) * 1000) - flowm_dt flow / 2) in
        let no_gyro :=
          negb (F32.is_finite (v3_0 (flowm_gyrodata flow)))
          && negb (F32.is_finite (v3_1 (flowm_gyrodata flow)))
          && negb (F32.is_finite (v3_2 (flowm_gyrodata flow))) in
        let matching_imu_sample :=
          if no_gyro then
            match RingBuffer.read_first_older_than imu_time_us time_us (_imu_buffer s) with
            | Some m => m
            | None => uninit
            end
          else uninit in
        let matching_gyro_sample :=
          Vector3f_div (imu_delta_ang matching_imu_sample)
                       (imu_delta_ang_dt matching_imu_sample) in
        let gyroXYZ :=
          if no_gyro then matching_gyro_sample else Vector3f_neg (flowm_gyrodata flow) in
        let flowRadXY :=
          if flow_quality_good then
            if no_gyro then Vector2f_div (flowm_flowdata flow) delta_time
            else Vector2f_neg (flowm_flowdata flow)
          else if no_gyro then
            mkVector2f (F32.opp (v3_0 matching_gyro_sample))
                       (F32.opp (v3_1 matching_gyro_sample))
          else
            mkVector2f (F32.opp (v3_0 (flowm_gyrodata flow)))
                       (F32.opp (v3_1 (flowm_gyrodata flow))) in
        let flowRadXYcomp :=
          if no_gyro then
            mkVector2f (F32.mul (F32.add (v2_0 flowRadXY) (v3_0 gyroXYZ)) delta_time)
                       (F32.mul (F32.add (v2_1 flowRadXY) (v3_1 gyroXYZ)) delta_time)
          else
            mkVector2f (F32.sub (v2_0 flowRadXY) (v3_0 gyroXYZ))
                       (F32.sub (v2_1 flowRadXY) (v3_1 gyroXYZ)) in
        let gyroXYZ :=
          if no_gyro then
            mkVector3f (F32.mul (v3_0 gyroXYZ) (imu_delta_ang_dt matching_imu_sample))
                       (F32.mul (v3_1 gyroXYZ) (imu_delta_ang_dt matching_imu_sample))
                       (v3_2 gyroXYZ)
          else gyroXYZ in
        let optflow_sample_new :=
          mkFlowSample (flowm_quality flow) flowRadXY gyroXYZ flowRadXYcomp delta_time
                       time_us in
        let s := set_time_last_optflow time_usec s in
        set_flow_buffer (RingBuffer.push optflow_sample_new (_flow_buffer s)) s
      else s
    else s.

Definition setExtVisionData (time_usec : Z) (evdata : ext_vision_message)
    (alloc_ok : bool) (s : EstimatorInterface) : EstimatorInterface :=
  if negb (_initialised s) || _ev_buffer_fail s then s
  else
    let s :=
      if RingBuffer.get_length (_ext_vision_buffer s) <? _obs_buffer_length s then
        let r :=
          RingBuffer.allocate (_obs_buffer_length s) alloc_ok (_ext_vision_buffer s) in
        set_ev_buffer_fail (negb (fst r)) (set_ext_vision_buffer (snd r) s)
      else s in
    if _ev_buffer_fail s then s
    else if u64 (time_usec - _time_last_ext_vision s) >? _min_obs_interval_us s then
      let time_us := u64 (time_usec - ev_delay_ms (_params s) * 1000) in
      let ev_sample_new :=
        mkExtVisionSample (evm_posNED evdata) (evm_quat evdata) (evm_posErr evdata)
                          (evm_angErr evdata) time_us in
      let s := set_time_last_ext_vision time_usec s in
      set_ext_vision_buffer (RingBuffer.push ev_sample_new (_ext_vision_buffer s)) s
    else s.

Definition setAuxVelData (time_usec : Z) (data variance : Vector2f) (alloc_ok : bool)
    (s : EstimatorInterface) : EstimatorInterface :=
  if negb (_initialised s) || _auxvel_buffer_fail s then s
  else
    let s :=
      if RingBuffer.get_length (_auxvel_buffer s) <? _obs_buffer_length s then
        let r := RingBuffer.allocate (_obs_buffer_length s) alloc_ok (_auxvel_buffer s) in
        set_auxvel_buffer_fail (negb (fst r)) (set_auxvel_buffer (snd r) s)
      else s in
    if _auxvel_buffer_fail s then s
    else if u64 (time_usec - _time_last_auxvel s) >? _min_obs_interval_us s then
      let time_us := u64 (time_usec - auxvel_delay_ms (_params s) * 1000) in
      let time_us := u64 (time_us - half_update_period_us) in
      let s := set_time_last_auxvel time_usec s in
      let auxvel_sample_new := mkAuxVelSample data variance time_us in
      set_auxvel_buffer (RingBuffer.push auxvel_sample_new (_auxvel_buffer s)) s
    else s.

Definition local_position_is_valid (s : EstimatorInterface) : bool :=
  negb (_deadreckon_time_exceeded s).

(** ** Names for what the intake routines compute

    Each is shown below to be what the embedded routine does. *)

(** The local [need_gps] of [setGpsData]. *)
Definition need_gps (s : EstimatorInterface) : bool :=
  negb (Z.land (fusion_mode (_params s)) MASK_USE_GPS =? 0)
  || (vdist_sensor_type (_params s) =? VDIST_SENSOR_GPS).

(** The sample [setGpsData] builds. *)
Definition gps_sample_new (gps : gps_message) (collect_gps : bool)
    (map_projection_project : Z -> Z -> float * float) (s : EstimatorInterface)
  : gpsSample :=
  mkGpsSample
    (if collect_gps then
       mkVector2f (fst (map_projection_project (gpsm_lat gps) (gpsm_lon gps)))
                  (snd (map_projection_project (gpsm_lat gps) (gpsm_lon gps)))
     else mkVector2f F32.zero F32.zero)
    (F32.mul (F32.of_Z (gpsm_alt gps)) (F32.lit 1 1000))
    (gpsm_vel_ned gps) (gpsm_eph gps) (gpsm_epv gps) (gpsm_sacc gps)
    (math.max
       (u64 (u64 (gpsm_time_usec gps - gps_delay_ms (_params s) * 1000)
             - half_update_period_us))
       (imu_time_us (_imu_sample_delayed s))).

(** The time stamp a sensor with a fixed delay and the half-period shift
    stores. *)
Definition backdated (time_usec delay_ms : Z) : Z :=
  u64 (u64 (time_usec - delay_ms * 1000) - half_update_period_us).

(** The integration time [setOpticalFlowData] works with, and its gates. *)
Definition flow_delta_time_min (s : EstimatorInterface) : float :=
  F32.mul (F32.lit 1 2000000) (F32.of_Z (_min_obs_interval_us s)).

Definition flow_delta_time_good (flow : flow_message) (s : EstimatorInterface) : bool :=
  F32.geb (F32.mul (F32.lit 1 1000000) (F32.of_Z (flowm_dt flow)))
          (flow_delta_time_min s).

Definition flow_delta_time (flow : flow_message) (s : EstimatorInterface) : float :=
  if negb (flow_delta_time_good flow s) then flow_delta_time_min s
  else F32.mul (F32.lit 1 1000000) (F32.of_Z (flowm_dt flow)).

Definition flow_magnitude_good (flow : flow_message) (s : EstimatorInterface) : bool :=
  if flow_delta_time_good flow s then
    F32.leb (F32.div (Vector2f_norm (flowm_flowdata flow)) (flow_delta_time flow s))
            (flow_rate_max (_params s))
  else true.

Definition flow_quality_good (flow : flow_message) (s : EstimatorInterface) : bool :=
  flowm_quality flow >=? flow_qual_min (_params s).

Definition flow_gate (flow : flow_message) (s : EstimatorInterface) : bool :=
  (flow_delta_time_good flow s && flow_quality_good flow s && flow_magnitude_good flow s)
  || negb (_control_status_in_air s).

(** The mid-point of the flow integration period. *)
Definition flow_time_mid (time_usec : Z) (flow : flow_message) (s : EstimatorInterface)
  : Z :=
  u64 (u64 (time_usec - flow_delay_ms (_params s) * 1000) - flowm_dt flow / 2).

(** The local [no_gyro] of [setOpticalFlowData]. *)
Definition no_gyro (flow : flow_message) : bool :=
  negb (F32.is_finite (v3_0 (flowm_gyrodata flow)))
  && negb (F32.is_finite (v3_1 (flowm_gyrodata flow)))
  && negb (F32.is_finite (v3_2 (flowm_gyrodata flow))).

(** The local [matching_imu_sample] in the branch that looks it up. *)
Definition matching_imu_sample (time_usec : Z) (flow : flow_message) (uninit : imuSample)
    (s : EstimatorInterface) : imuSample :=
  match RingBuffer.read_first_older_than imu_time_us (flow_time_mid time_usec flow s)
          (_imu_buffer s) with
  | Some m => m
  | None => uninit
  end.

(** The gyro rate assigned to [gyroXYZ] by the gyro-source step
    (source lines 383 to 396). *)
Definition flow_gyro_source (time_usec : Z) (flow : flow_message) (uninit : imuSample)
    (s : EstimatorInterface) : Vector3f :=
  if no_gyro flow then
    Vector3f_div (imu_delta_ang (matching_imu_sample time_usec flow uninit s))
                 (imu_delta_ang_dt (matching_imu_sample time_usec flow uninit s))
  else Vector3f_neg (flowm_gyrodata flow).

(** The sample [setOpticalFlowData] builds. *)
Definition optflow_sample_new (time_usec : Z) (flow : flow_message) (uninit : imuSample)
    (s : EstimatorInterface) : flowSample :=
  let m := if no_gyro flow then matching_imu_sample time_usec flow uninit s else uninit in
  let g := flow_gyro_source time_usec flow uninit s in
  let flowRadXY :=
    if flow_quality_good flow s then
      if no_gyro flow then Vector2f_div (flowm_flowdata flow) (flow_delta_time flow s)
      else Vector2f_neg (flowm_flowdata flow)
    else if no_gyro flow then mkVector2f (F32.opp (v3_0 g)) (F32.opp (v3_1 g))
    else mkVector2f (F32.opp (v3_0 (flowm_gyrodata flow)))
                    (F32.opp (v3_1 (flowm_gyrodata flow))) in
  mkFlowSample (flowm_quality flow) flowRadXY
    (if no_gyro flow then
       mkVector3f (F32.mul (v3_0 g) (imu_delta_ang_dt m))
                  (F32.mul (v3_1 g) (imu_delta_ang_dt m)) (v3_2 g)
     else g)
    (if no_gyro flow then
       mkVector2f (F32.mul (F32.add (v2_0 flowRadXY) (v3_0 g)) (flow_delta_time flow s))
                  (F32.mul (F32.add (v2_1 flowRadXY) (v3_1 g)) (flow_delta_time flow s))
     else
       mkVector2f (F32.sub (v2_0 flowRadXY) (v3_0 g))
                  (F32.sub (v2_1 flowRadXY) (v3_1 g)))
    (flow_delta_time flow s)
    (flow_time_mid time_usec flow s).

(** ** Framing

    An eraser forgets the members a block may assign: two objects with the
    same image under it agree on every other member. *)

(** The members the IMU timing block assigns. *)
Definition timing_erased (s : EstimatorInterface) : EstimatorInterface :=
  set_time_last_imu 0 (set_dt_imu_avg F32.zero s).

(** The members the metrics block assigns. *)
Definition metrics_erased (s : EstimatorInterface) : EstimatorInterface :=
  set_imu_ticks 0
    (set_vibe_metrics Vector3f_zero
      (set_delta_ang_prev Vector3f_zero (set_delta_vel_prev Vector3f_zero s))).

(** The members the IMU buffer block assigns. *)
Definition store_erased (s : EstimatorInterface) : EstimatorInterface :=
  set_imu_buffer RingBuffer.empty
    (set_imu_ticks 0
      (set_imu_updated false
        (set_imu_sample_delayed (imuSample_zero 0) (set_min_obs_interval_us 0 s)))).

(** The members the drag block assigns. *)
Definition drag_erased (s : EstimatorInterface) : EstimatorInterface :=
  set_drag_buffer_fail false
    (set_drag_buffer RingBuffer.empty
      (set_drag_sample_time_dt F32.zero
        (set_drag_sample_count 0
          (set_drag_down_sampled (mkDragSample Vector2f_zero 0) s)))).

(** The members [setIMUData] assigns on an initialised object. *)
Definition imu_erased (s : EstimatorInterface) : EstimatorInterface :=
  drag_erased
    (store_erased
      (metrics_erased (timing_erased (set_imu_sample_new (imuSample_zero 0) s)))).

(** ** Reference definitions in the words of the specification *)

(** [⌈a / b⌉] for a positive [b]. *)
Definition ceil_div (a b : Z) : Z := (a + b - 1) / b.


(** The accumulations of the drag down-sampler over a block of IMU samples:
    single-precision sums from zero, and the [uint64_t] sum of the times. *)
Definition fsum (l : list float) : float := fold_left F32.add l F32.zero.

Definition usum (l : list Z) : Z := fold_left (fun a t => u64 (a + t)) l 0.

(** The drag sample for a block of IMU samples: the accumulated
    [delta_vel[0..1]] divided by the accumulated [delta_vel_dt], and the
    accumulated time divided by the count. *)
Definition drag_block_mean (block : list imuSample) : dragSample :=
  mkDragSample
    (mkVector2f
       (F32.div (fsum (map (fun x => v3_0 (imu_delta_vel x)) block))
                (fsum (map imu_delta_vel_dt block)))
       (F32.div (fsum (map (fun x => v3_1 (imu_delta_vel x)) block))
                (fsum (map imu_delta_vel_dt block))))
    (usum (map imu_time_us block) / Z.of_nat (List.length block)).

(** The accumulators of the drag down-sampler hold the sums over [pre]. *)
Definition drag_accumulated (pre : list imuSample) (s : EstimatorInterface) : Prop :=
  _drag_sample_count s = Z.of_nat (List.length pre)
  /\ _drag_down_sampled s
     = mkDragSample
         (mkVector2f (fsum (map (fun x => v3_0 (imu_delta_vel x)) pre))
                     (fsum (map (fun x => v3_1 (imu_delta_vel x)) pre)))
         (usum (map imu_time_us pre))
  /\ _drag_sample_time_dt s = fsum (map imu_delta_vel_dt pre).

(** A bounded universal quantifier that computes: [P] holds of the [n]
    integers from [lo] on. *)
Fixpoint all_from (n : nat) (lo : Z) (P : Z -> bool) : bool :=
  match n with
  | O => true
  | S k => P lo && all_from k (lo + 1) P
  end.

(** The sensor's buffer is in service: the object is initialised, the
    allocation of the buffer has not failed and its capacity is what the
    intake asks for. *)
Definition buffer_ready {T : Type} (s : EstimatorInterface) (fail : bool)
    (b : RingBuffer.t T) : Prop :=
  _initialised s = true /\ fail = false
  /\ _obs_buffer_length s <= RingBuffer.get_length b.

(** What the rate limit decides for a sample presented at [t]: rejected (no
    sample added) when the unsigned difference to the time of the last
    accepted sample does not exceed the interval, accepted (one sample added)
    when it does. *)
Definition rate_limit_exact {T : Type} (last interval t : Z) (before after : list T)
  : Prop :=
  (u64 (t - last) <= interval -> after = before)
  /\ (interval < u64 (t - last) -> exists x, after = before ++ [x]).

(** ** Sequences of intake calls *)

Inductive sensor : Type :=
  Mag | Gps | Baro | Airspeed | Range | Flow | ExtVision | AuxVel.

Definition sensor_eqb (a b : sensor) : bool :=
  match a, b with
  | Mag, Mag | Gps, Gps | Baro, Baro | Airspeed, Airspeed | Range, Range
  | Flow, Flow | ExtVision, ExtVision | AuxVel, AuxVel => true
  | _, _ => false
  end.

(** One call of an intake routine, with what the call obtains from outside. *)
Inductive intake_call : Type :=
| call_setIMUData (time_usec delta_ang_dt delta_vel_dt : Z)
    (delta_ang delta_vel : Vector3f) (init_alloc : bool * bool * bool)
    (ci : collect_imu_result) (drag_alloc : bool)
| call_setMagData (time_usec : Z) (data : Vector3f) (alloc_ok : bool)
| call_setGpsData (time_usec : Z) (gps : gps_message) (alloc_ok collect_gps : bool)
    (map_projection_project : Z -> Z -> float * float)
| call_setBaroData (time_usec : Z) (data : float) (alloc_ok : bool)
| call_setAirspeedData (time_usec : Z) (true_airspeed eas2tas : float) (alloc_ok : bool)
| call_setRangeData (time_usec : Z) (data : float) (alloc_ok : bool)
| call_setOpticalFlowData (time_usec : Z) (flow : flow_message) (alloc_ok : bool)
    (uninit : imuSample)
| call_setExtVisionData (time_usec : Z) (evdata : ext_vision_message) (alloc_ok : bool)
| call_setAuxVelData (time_usec : Z) (data variance : Vector2f) (alloc_ok : bool).

Definition run_call (c : intake_call) (s : EstimatorInterface) : EstimatorInterface :=
  match c with
  | call_setIMUData t dta dtv da dv ia ci dr => setIMUData t dta dtv da dv ia ci dr s
  | call_setMagData t d ok => setMagData t d ok s
  | call_setGpsData t g ok cg proj => setGpsData t g ok cg proj s
  | call_setBaroData t d ok => setBaroData t d ok s
  | call_setAirspeedData t a e ok => setAirspeedData t a e ok s
  | call_setRangeData t d ok => setRangeData t d ok s
  | call_setOpticalFlowData t f ok u => setOpticalFlowData t f ok u s
  | call_setExtVisionData t e ok => setExtVisionData t e ok s
  | call_setAuxVelData t d v ok => setAuxVelData t d v ok s
  end.

Definition run_calls (l : list intake_call) (s : EstimatorInterface)
  : EstimatorInterface :=
  fold_left (fun s c => run_call c s) l s.

(** The sensor a call feeds ([None] for the IMU) and the [time_usec] it
    presents. *)
Definition call_sensor (c : intake_call) : option sensor :=
  match c with
  | call_setIMUData _ _ _ _ _ _ _ _ => None
  | call_setMagData _ _ _ => Some Mag
  | call_setGpsData _ _ _ _ _ => Some Gps
  | call_setBaroData _ _ _ => Some Baro
  | call_setAirspeedData _ _ _ _ => Some Airspeed
  | call_setRangeData _ _ _ => Some Range
  | call_setOpticalFlowData _ _ _ _ => Some Flow
  | call_setExtVisionData _ _ _ => Some ExtVision
  | call_setAuxVelData _ _ _ _ => Some AuxVel
  end.

Definition call_time (c : intake_call) : Z :=
  match c with
  | call_setIMUData t _ _ _ _ _ _ _ => t
  | call_setMagData t _ _ => t
  | call_setGpsData t _ _ _ _ => t
  | call_setBaroData t _ _ => t
  | call_setAirspeedData t _ _ _ => t
  | call_setRangeData t _ _ => t
  | call_setOpticalFlowData t _ _ _ => t
  | call_setExtVisionData t _ _ => t
  | call_setAuxVelData t _ _ _ => t
  end.

(** The gates a call has to pass besides the rate limit. *)
Definition call_gates (c : intake_call) (s : EstimatorInterface) : bool :=
  match c with
  | call_setGpsData _ g _ _ _ => need_gps s && (gpsm_fix_type g >? 2)
  | call_setOpticalFlowData _ f _ _ => flow_gate f s
  | _ => true
  end.

(** The time stamps in a sensor's buffer, in insertion order. *)
Definition sensor_stamps (sn : sensor) (s : EstimatorInterface) : list Z :=
  match sn with
  | Mag => map mag_time_us (RingBuffer.pushed (_mag_buffer s))
  | Gps => map gps_time_us (RingBuffer.pushed (_gps_buffer s))
  | Baro => map baro_time_us (RingBuffer.pushed (_baro_buffer s))
  | Airspeed => map airspeed_time_us (RingBuffer.pushed (_airspeed_buffer s))
  | Range => map range_time_us (RingBuffer.pushed (_range_buffer s))
  | Flow => map flow_time_us (RingBuffer.pushed (_flow_buffer s))
  | ExtVision => map ev_time_us (RingBuffer.pushed (_ext_vision_buffer s))
  | AuxVel => map auxvel_time_us (RingBuffer.pushed (_auxvel_buffer s))
  end.

Definition sensor_time_last (sn : sensor) (s : EstimatorInterface) : Z :=
  match sn with
  | Mag => _time_last_mag s
  | Gps => _time_last_gps s
  | Baro => _time_last_baro s
  | Airspeed => _time_last_airspeed s
  | Range => _time_last_range s
  | Flow => _time_last_optflow s
  | ExtVision => _time_last_ext_vision s
  | AuxVel => _time_last_auxvel s
  end.

Definition sensor_ready (sn : sensor) (s : EstimatorInterface) : Prop :=
  match sn with
  | Mag => buffer_ready s (_mag_buffer_fail s) (_mag_buffer s)
  | Gps => buffer_ready s (_gps_buffer_fail s) (_gps_buffer s)
  | Baro => buffer_ready s (_baro_buffer_fail s) (_baro_buffer s)
  | Airspeed => buffer_ready s (_airspeed_buffer_fail s) (_airspeed_buffer s)
  | Range => buffer_ready s (_range_buffer_fail s) (_range_buffer s)
  | Flow => buffer_ready s (_flow_buffer_fail s) (_flow_buffer s)
  | ExtVision => buffer_ready s (_ev_buffer_fail s) (_ext_vision_buffer s)
  | AuxVel => buffer_ready s (_auxvel_buffer_fail s) (_auxvel_buffer s)
  end.

(** The [time_usec] values a sequence of calls presents to one sensor. *)
Definition presented (sn : sensor) (l : list intake_call) : list Z :=
  flat_map
    (fun c =>
       match call_sensor c with
       | Some sn' => if sensor_eqb sn sn' then [call_time c] else []
       | None => []
       end) l.

(** What each sensor intake may assign. *)
Definition sensor_erased (sn : sensor) (s : EstimatorInterface) : EstimatorInterface :=
  match sn with
  | Mag =>
      set_mag_buffer RingBuffer.empty (set_mag_buffer_fail false (set_time_last_mag 0 s))
  | Gps =>
      set_gps_buffer RingBuffer.empty
        (set_gps_buffer_fail false (set_time_last_gps 0 (set_gps_speed_valid false s)))
  | Baro =>
      set_baro_buffer RingBuffer.empty
        (set_baro_buffer_fail false (set_time_last_baro 0 s))
  | Airspeed =>
      set_airspeed_buffer RingBuffer.empty
        (set_airspeed_buffer_fail false (set_time_last_airspeed 0 s))
  | Range =>
      set_range_buffer RingBuffer.empty
        (set_range_buffer_fail false (set_time_last_range 0 s))
  | Flow =>
      set_flow_buffer RingBuffer.empty
        (set_flow_buffer_fail false (set_time_last_optflow 0 s))
  | ExtVision =>
      set_ext_vision_buffer RingBuffer.empty
        (set_ev_buffer_fail false (set_time_last_ext_vision 0 s))
  | AuxVel =>
      set_auxvel_buffer RingBuffer.empty
        (set_auxvel_buffer_fail false (set_time_last_auxvel 0 s))
  end.

(** The down-sampled IMU samples a sequence of calls pushes to the IMU
    buffer. *)
Definition imu_samples_pushed (l : list intake_call) : list imuSample :=
  flat_map
    (fun c =>
       match c with
       | call_setIMUData _ _ _ _ _ _ ci _ => if ci_ready ci then [ci_sample ci] else []
       | _ => []
       end) l.

(** The drag down-sampler is in service: the object is initialised, drag
    fusion is selected and the drag buffer is allocated. *)
Definition drag_in_service (s : EstimatorInterface) : Prop :=
  _initialised s = true
  /\ Z.land (fusion_mode (_params s)) MASK_USE_DRAG <> 0
  /\ _drag_buffer_fail s = false
  /\ _obs_buffer_length s <= RingBuffer.get_length (_drag_buffer s).

(** The members the drag down-sampler depends on. *)
Definition drag_view (s : EstimatorInterface)
  : bool * parameters * bool * Z * Z * RingBuffer.t dragSample * Z * dragSample * float :=
  (_initialised s, _params s, _drag_buffer_fail s, _obs_buffer_length s,
   _imu_buffer_length s, _drag_buffer s, _drag_sample_count s, _drag_down_sampled s,
   _drag_sample_time_dt s).

(** The sensors whose stored time is the presented time less a fixed
    amount: the configured delay, and for all but range and external vision
    half the update period. *)
Definition fixed_delay_sensor (sn : sensor) : bool :=
  match sn with
  | Mag | Airspeed | Range | ExtVision | AuxVel => true
  | Gps | Baro | Flow => false
  end.

Definition sensor_delay_ms (sn : sensor) (p : parameters) : Z :=
  match sn with
  | Mag => mag_delay_ms p
  | Gps => gps_delay_ms p
  | Baro => baro_delay_ms p
  | Airspeed => airspeed_delay_ms p
  | Range => range_delay_ms p
  | Flow => flow_delay_ms p
  | ExtVision => ev_delay_ms p
  | AuxVel => auxvel_delay_ms p
  end.

(** The back-dating a fixed-delay sensor applies, in microseconds. *)
Definition sensor_offset (sn : sensor) (p : parameters) : Z :=
  match sn with
  | Range | ExtVision => sensor_delay_ms sn p * 1000
  | _ => sensor_delay_ms sn p * 1000 + half_update_period_us
  end.

(** The time stamp a fixed-delay sensor stores for a sample presented at
    [t], as the routine computes it. *)
Definition sensor_stamp (sn : sensor) (p : parameters) (t : Z) : Z :=
  match sn with
  | Range | ExtVision => u64 (t - sensor_delay_ms sn p * 1000)
  | _ => backdated t (sensor_delay_ms sn p)
  end.

(** ** Accessors by sensor *)

(** The allocation-failure flag of a sensor's buffer. *)
Definition sensor_fail (sn : sensor) (s : EstimatorInterface) : bool :=
  match sn with
  | Mag => _mag_buffer_fail s
  | Gps => _gps_buffer_fail s
  | Baro => _baro_buffer_fail s
  | Airspeed => _airspeed_buffer_fail s
  | Range => _range_buffer_fail s
  | Flow => _flow_buffer_fail s
  | ExtVision => _ev_buffer_fail s
  | AuxVel => _auxvel_buffer_fail s
  end.

(** The capacity of a sensor's buffer, [get_length]. *)
Definition sensor_capacity (sn : sensor) (s : EstimatorInterface) : Z :=
  match sn with
  | Mag => RingBuffer.get_length (_mag_buffer s)
  | Gps => RingBuffer.get_length (_gps_buffer s)
  | Baro => RingBuffer.get_length (_baro_buffer s)
  | Airspeed => RingBuffer.get_length (_airspeed_buffer s)
  | Range => RingBuffer.get_length (_range_buffer s)
  | Flow => RingBuffer.get_length (_flow_buffer s)
  | ExtVision => RingBuffer.get_length (_ext_vision_buffer s)
  | AuxVel => RingBuffer.get_length (_auxvel_buffer s)
  end.

(** The outcome of the allocation a call may attempt (for the IMU, of the
    drag buffer). *)
Definition call_alloc_ok (c : intake_call) : bool :=
  match c with
  | call_setIMUData _ _ _ _ _ _ _ ok => ok
  | call_setMagData _ _ ok => ok
  | call_setGpsData _ _ ok _ _ => ok
  | call_setBaroData _ _ ok => ok
  | call_setAirspeedData _ _ _ ok => ok
  | call_setRangeData _ _ ok => ok
  | call_setOpticalFlowData _ _ ok _ => ok
  | call_setExtVisionData _ _ ok => ok
  | call_setAuxVelData _ _ _ ok => ok
  end.

(** The members that stay as configured while the object is in service. *)
Definition configuration (s : EstimatorInterface) : bool * parameters * Z * Z :=
  (_initialised s, _params s, _obs_buffer_length s, _imu_buffer_length s).

(** The members of the drag down-sampler. *)
Definition drag_members (s : EstimatorInterface)
  : bool * RingBuffer.t dragSample * Z * dragSample * float :=
  (_drag_buffer_fail s, _drag_buffer s, _drag_sample_count s, _drag_down_sampled s,
   _drag_sample_time_dt s).

(** The object once a sensor's buffer has been reserved at first use. *)
Definition sensor_allocated (sn : sensor) (s : EstimatorInterface) : EstimatorInterface :=
  match sn with
  | Mag => set_mag_buffer (RingBuffer.mk (_obs_buffer_length s) []) s
  | Gps => set_gps_buffer (RingBuffer.mk (_obs_buffer_length s) []) s
  | Baro => set_baro_buffer (RingBuffer.mk (_obs_buffer_length s) []) s
  | Airspeed => set_airspeed_buffer (RingBuffer.mk (_obs_buffer_length s) []) s
  | Range => set_range_buffer (RingBuffer.mk (_obs_buffer_length s) []) s
  | Flow => set_flow_buffer (RingBuffer.mk (_obs_buffer_length s) []) s
  | ExtVision => set_ext_vision_buffer (RingBuffer.mk (_obs_buffer_length s) []) s
  | AuxVel => set_auxvel_buffer (RingBuffer.mk (_obs_buffer_length s) []) s
  end.

(** A call passes the rate limit and the sensor's further gates. *)
Definition call_passes (c : intake_call) (sn : sensor) (s : EstimatorInterface) : bool :=
  (u64 (call_time c - sensor_time_last sn s) >? _min_obs_interval_us s)
  && call_gates c s.

(** ** Time stamps, buffer by buffer *)

(** The time a call's stored time stamp is computed from: [time_usec],
    except for GPS, which takes the time of the message. *)
Definition call_stamp_time (c : intake_call) : Z :=
  match c with
  | call_setGpsData _ g _ _ _ => gpsm_time_usec g
  | _ => call_time c
  end.

(** Those times, for the calls of a sequence made for one sensor. *)
Definition stamp_times (sn : sensor) (l : list intake_call) : list Z :=
  flat_map
    (fun c =>
       match call_sensor c with
       | Some sn' => if sensor_eqb sn sn' then [call_stamp_time c] else []
       | None => []
       end) l.

(** The sensors that clamp the stored time to the delayed IMU time. *)
Definition clamped_sensor (sn : sensor) : bool :=
  match sn with
  | Gps | Baro => true
  | _ => false
  end.

Definition delayed_time (s : EstimatorInterface) : Z :=
  imu_time_us (_imu_sample_delayed s).

(** No call of the sequence moves the delayed IMU time back. *)
Fixpoint delayed_time_not_back (l : list intake_call) (s : EstimatorInterface) : bool :=
  match l with
  | [] => true
  | c :: l' =>
      (delayed_time s <=? delayed_time (run_call c s))
      && delayed_time_not_back l' (run_call c s)
  end.

(** The time stamp a sensor other than optical flow stores for the time
    [t], as the routine computes it. *)
Definition stored_stamp (sn : sensor) (s : EstimatorInterface) (t : Z) : Z :=
  if clamped_sensor sn then math.max (sensor_stamp sn (_params s) t) (delayed_time s)
  else sensor_stamp sn (_params s) t.

(** The time stamps in the IMU buffer and in the drag buffer, in insertion
    order. *)
Definition imu_stamps (s : EstimatorInterface) : list Z :=
  map imu_time_us (RingBuffer.pushed (_imu_buffer s)).

Definition drag_stamps (s : EstimatorInterface) : list Z :=
  map drag_time_us (RingBuffer.pushed (_drag_buffer s)).

(** The least stamp a sample still to be presented at [t] can get. *)
Definition stamp_bound (sn : sensor) (s : EstimatorInterface) (t : Z) : Z :=
  if clamped_sensor sn
  then Z.max (t - sensor_offset sn (_params s)) (delayed_time s)
  else t - sensor_offset sn (_params s).

(** ** Fixtures: concrete objects for the worked examples *)

(** GPS fusion, barometric height, 20 ms minimum sensor interval; delays in
    milliseconds: GPS 110, airspeed 100, flow 5, range 5, vision 175, the
    others 0; flow quality at least 50 and flow rate at most 2.5 rad/s. *)
Definition params_default : parameters :=
  mkParameters 1 0 20 0 0 0 110 100 5 5 175 0 50 (F32.lit 5 2).

(** The same with bit 5 of [fusion_mode] set as well. *)
Definition params_drag : parameters :=
  mkParameters 33 0 20 0 0 0 110 100 5 5 175 0 50 (F32.lit 5 2).

(** An IMU sample at 0.9 s: 0.01 rad about x in 0.01 s. *)
Definition imu_example : imuSample :=
  mkImuSample (mkVector3f (F32.lit 1 100) F32.zero F32.zero)
              (mkVector3f (F32.lit 1 100) (F32.lit 2 100) F32.zero)
              (F32.lit 1 100) (F32.lit 1 100) 900000.

(** An object on which no routine has run yet: nothing allocated, all
    counters, flags and time stamps clear. *)
Definition ei_fresh (p : parameters) : EstimatorInterface :=
  mkEstimatorInterface p false false 0 0 0 F32.zero 0 false
    (mkImuSample Vector3f_zero Vector3f_zero F32.zero F32.zero 0)
    (mkImuSample Vector3f_zero Vector3f_zero F32.zero F32.zero 0)
    Vector3f_zero Vector3f_zero Vector3f_zero
    (mkDragSample Vector2f_zero 0) 0 F32.zero false false 0
    RingBuffer.empty RingBuffer.empty RingBuffer.empty RingBuffer.empty
    RingBuffer.empty RingBuffer.empty RingBuffer.empty RingBuffer.empty
    RingBuffer.empty RingBuffer.empty RingBuffer.empty RingBuffer.empty
    false false false false false false false false false
    0 0 0 0 0 0 0 0 0.

(** An object in service on the ground: initialised, IMU buffer of 15 slots
    holding [imu_example], which is also the delayed sample, observation
    buffers of 14 slots not yet allocated, 20 ms minimum observation
    interval. *)
Definition ei_running (p : parameters) : EstimatorInterface :=
  set_min_obs_interval_us 20000
    (set_imu_sample_delayed imu_example
      (set_imu_sample_new imu_example
        (set_imu_buffer (RingBuffer.mk 15 [imu_example])
          (set_imu_buffer_length 15
            (set_obs_buffer_length 14
              (set_initialised true (ei_fresh p))))))).

(** The same with every observation buffer and the drag buffer allocated. *)
Definition ei_in_service (p : parameters) : EstimatorInterface :=
  set_mag_buffer (RingBuffer.mk 14 [])
    (set_gps_buffer (RingBuffer.mk 14 [])
      (set_baro_buffer (RingBuffer.mk 14 [])
        (set_airspeed_buffer (RingBuffer.mk 14 [])
          (set_range_buffer (RingBuffer.mk 14 [])
            (set_flow_buffer (RingBuffer.mk 14 [])
              (set_ext_vision_buffer (RingBuffer.mk 14 [])
                (set_auxvel_buffer (RingBuffer.mk 14 [])
                  (set_drag_buffer (RingBuffer.mk 14 []) (ei_running p))))))))).

(** A [setIMUData] call at [t] for which [collect_imu] hands back a
    down-sampled sample. *)
Definition imu_call_example (t : Z) : intake_call :=
  call_setIMUData t 4000 4000
    (mkVector3f (F32.lit 1 100) F32.zero F32.zero)
    (mkVector3f (F32.lit 1 100) (F32.lit 2 100) F32.zero)
    (true, true, true)
    (mkCollectImu true
       (mkImuSample (mkVector3f (F32.lit 1 100) F32.zero F32.zero)
                    (mkVector3f (F32.lit 1 100) (F32.lit 2 100) F32.zero)
                    (F32.lit 12 1000) (F32.lit 12 1000) t)
       (mkImuSample (mkVector3f (F32.lit 1 100) F32.zero F32.zero)
                    (mkVector3f (F32.lit 1 100) (F32.lit 2 100) F32.zero)
                    (F32.lit 12 1000) (F32.lit 12 1000) t))
    true.

(** An optical-flow message over 20 ms with the given gyro data. *)
Definition flow_example (gyrodata : Vector3f) : flow_message :=
  mkFlowMessage 200 (mkVector2f (F32.lit 1 100) (F32.lit 2 100)) gyrodata 20000.

(** A GPS message with the given fix type. *)
Definition gps_example (fix_type : Z) : gps_message :=
  mkGpsMessage 1000000 473977420 85455940 488000 fix_type
    (F32.lit 1 2) (F32.lit 1 2) (F32.lit 1 4) Vector3f_zero true.

(** ** Proof support *)

Ltac ei_norm :=
  cbv beta iota zeta delta
   [_params _control_status_in_air _initialised _obs_buffer_length _imu_buffer_length
    _min_obs_interval_us _dt_imu_avg _imu_ticks _imu_updated _imu_sample_new
    _imu_sample_delayed _delta_ang_prev _delta_vel_prev _vibe_metrics _drag_down_sampled
    _drag_sample_count _drag_sample_time_dt _gps_speed_valid _deadreckon_time_exceeded
    _fault_status_value _imu_buffer _gps_buffer _mag_buffer _baro_buffer _range_buffer
    _airspeed_buffer _flow_buffer _ext_vision_buffer _output_buffer _output_vert_buffer
    _drag_buffer _auxvel_buffer _gps_buffer_fail _mag_buffer_fail _baro_buffer_fail
    _range_buffer_fail _airspeed_buffer_fail _flow_buffer_fail _ev_buffer_fail
    _drag_buffer_fail _auxvel_buffer_fail _time_last_imu _time_last_gps _time_last_mag
    _time_last_baro _time_last_range _time_last_airspeed _time_last_ext_vision
    _time_last_optflow _time_last_auxvel set_params set_control_status_in_air
    set_initialised set_obs_buffer_length set_imu_buffer_length set_min_obs_interval_us
    set_dt_imu_avg set_imu_ticks set_imu_updated set_imu_sample_new
    set_imu_sample_delayed set_delta_ang_prev set_delta_vel_prev set_vibe_metrics
    set_drag_down_sampled set_drag_sample_count set_drag_sample_time_dt
    set_gps_speed_valid set_deadreckon_time_exceeded set_fault_status_value
    set_imu_buffer set_gps_buffer set_mag_buffer set_baro_buffer set_range_buffer
    set_airspeed_buffer set_flow_buffer set_ext_vision_buffer set_output_buffer
    set_output_vert_buffer set_drag_buffer set_auxvel_buffer set_gps_buffer_fail
    set_mag_buffer_fail set_baro_buffer_fail set_range_buffer_fail
    set_airspeed_buffer_fail set_flow_buffer_fail set_ev_buffer_fail
    set_drag_buffer_fail set_auxvel_buffer_fail set_time_last_imu set_time_last_gps
    set_time_last_mag set_time_last_baro set_time_last_range set_time_last_airspeed
    set_time_last_ext_vision set_time_last_optflow set_time_last_auxvel
    fst snd negb andb orb
    RingBuffer.length RingBuffer.pushed RingBuffer.get_length RingBuffer.push
    RingBuffer.allocate RingBuffer.unallocate RingBuffer.empty
    imu_time_us imu_delta_ang imu_delta_vel imu_delta_ang_dt imu_delta_vel_dt
    drag_accelXY drag_time_us v2_0 v2_1 v3_0 v3_1 v3_2
    ci_ready ci_sample ci_imu_sample_new].

Lemma all_from_sound (n : nat) (lo : Z) (P : Z -> bool) :
  all_from n lo P = true -> forall z, lo <= z < lo + Z.of_nat n -> P z = true.
Proof.
  revert lo. induction n as [|k IH]; intros lo H z Hz.
  - simpl in Hz. lia.
  - simpl in H. apply andb_true_iff in H. destruct H as [Hk Hr].
    destruct (Z.eq_dec z lo) as [->|Hne]; [exact Hk|].
    apply (IH (lo + 1)); [exact Hr|lia].
Qed.

Lemma ceil_div_spec (a b : Z) :
  0 < b -> b * (ceil_div a b - 1) < a <= b * ceil_div a b.
Proof.
  intros Hb. unfold ceil_div.
  pose proof (Z.div_mod (a + b - 1) b ltac:(lia)) as E.
  pose proof (Z.mod_pos_bound (a + b - 1) b Hb) as B.
  nia.
Qed.

Lemma math_max_Zmax (a b : Z) : math.max a b = Z.max a b.
Proof. unfold math.max. destruct (Z.gtb_spec a b); lia. Qed.

Lemma math_min_Zmin (a b : Z) : math.min a b = Z.min a b.
Proof. unfold math.min. destruct (Z.ltb_spec a b); lia. Qed.

(** ** Initialisation *)

(** On success every reset of [initialise_interface] has taken place, and
    [_time_last_auxvel], which the routine does not assign, is what it was. *)
Lemma initialise_interface_success_fields (timestamp : Z) (alloc : bool * bool * bool)
    (s : EstimatorInterface) :
  fst (initialise_interface timestamp alloc s) = true ->
  let s' := snd (initialise_interface timestamp alloc s) in
  _dt_imu_avg s' = F32.zero
  /\ _imu_sample_delayed s' = imuSample_zero timestamp
  /\ _initialised s' = false
  /\ _fault_status_value s' = 0
  /\ _time_last_imu s' = 0 /\ _time_last_gps s' = 0 /\ _time_last_mag s' = 0
  /\ _time_last_baro s' = 0 /\ _time_last_range s' = 0 /\ _time_last_airspeed s' = 0
  /\ _time_last_optflow s' = 0 /\ _time_last_ext_vision s' = 0
  /\ _time_last_auxvel s' = _time_last_auxvel s.
Proof.
  destruct alloc as [[a1 a2] a3]; destruct s.
  unfold initialise_interface. ei_norm.
  destruct a1, a2, a3; intros H; try discriminate H; repeat split; reflexivity.
Qed.

Lemma initialise_interface_imu_buffer_length (timestamp : Z)
    (alloc : bool * bool * bool) (s : EstimatorInterface) :
  _imu_buffer_length (snd (initialise_interface timestamp alloc s))
  = u8 (Z.quot (max_time_delay_ms (_params s)) FILTER_UPDATE_PERIOD_MS + 1).
Proof.
  destruct alloc as [[a1 a2] a3]; destruct s.
  unfold initialise_interface. ei_norm.
  destruct a1, a2, a3; reflexivity.
Qed.

Lemma initialise_interface_obs_buffer_length (timestamp : Z)
    (alloc : bool * bool * bool) (s : EstimatorInterface) :
  _obs_buffer_length (snd (initialise_interface timestamp alloc s))
  = math.min
      (u8 (Z.quot (ekf_delay_ms (max_time_delay_ms (_params s)))
                  (sensor_interval_min_ms (_params s)) + 1))
      (u8 (Z.quot (max_time_delay_ms (_params s)) FILTER_UPDATE_PERIOD_MS + 1)).
Proof.
  destruct alloc as [[a1 a2] a3]; destruct s.
  unfold initialise_interface. ei_norm.
  destruct a1, a2, a3; reflexivity.
Qed.




(** ** The intake routines on a buffer in service *)

Ltac intake_ready f :=
  intros (Hi & Hf & Hl); apply Z.ltb_ge in Hl;
  match goal with s : EstimatorInterface |- _ => destruct s end;
  unfold f; revert Hi Hf Hl; ei_norm; intros Hi Hf Hl;
  rewrite Hi, Hf, Hl; ei_norm.

Lemma setMagData_ready (time_usec : Z) (data : Vector3f) (alloc_ok : bool)
    (s : EstimatorInterface) :
  buffer_ready s (_mag_buffer_fail s) (_mag_buffer s) ->
  setMagData time_usec data alloc_ok s
  = if u64 (time_usec - _time_last_mag s) >? _min_obs_interval_us s then
      set_mag_buffer
        (RingBuffer.push
           (mkMagSample data (backdated time_usec (mag_delay_ms (_params s))))
           (_mag_buffer s))
        (set_time_last_mag time_usec s)
    else s.
Proof. intake_ready setMagData. reflexivity. Qed.

Lemma setBaroData_ready (time_usec : Z) (data : float) (alloc_ok : bool)
    (s : EstimatorInterface) :
  buffer_ready s (_baro_buffer_fail s) (_baro_buffer s) ->
  setBaroData time_usec data alloc_ok s
  = if u64 (time_usec - _time_last_baro s) >? _min_obs_interval_us s then
      set_baro_buffer
        (RingBuffer.push
           (mkBaroSample data
              (math.max (backdated time_usec (baro_delay_ms (_params s)))
                        (imu_time_us (_imu_sample_delayed s))))
           (_baro_buffer s))
        (set_time_last_baro time_usec s)
    else s.
Proof. intake_ready setBaroData. reflexivity. Qed.

Lemma setAirspeedData_ready (time_usec : Z) (true_airspeed eas2tas : float)
    (alloc_ok : bool) (s : EstimatorInterface) :
  buffer_ready s (_airspeed_buffer_fail s) (_airspeed_buffer s) ->
  setAirspeedData time_usec true_airspeed eas2tas alloc_ok s
  = if u64 (time_usec - _time_last_airspeed s) >? _min_obs_interval_us s then
      set_airspeed_buffer
        (RingBuffer.push
           (mkAirspeedSample true_airspeed eas2tas
              (backdated time_usec (airspeed_delay_ms (_params s))))
           (_airspeed_buffer s))
        (set_time_last_airspeed time_usec s)
    else s.
Proof. intake_ready setAirspeedData. reflexivity. Qed.

Lemma setRangeData_ready (time_usec : Z) (data : float) (alloc_ok : bool)
    (s : EstimatorInterface) :
  buffer_ready s (_range_buffer_fail s) (_range_buffer s) ->
  setRangeData time_usec data alloc_ok s
  = if u64 (time_usec - _time_last_range s) >? _min_obs_interval_us s then
      set_range_buffer
        (RingBuffer.push
           (mkRangeSample data (u64 (time_usec - range_delay_ms (_params s) * 1000)))
           (_range_buffer s))
        (set_time_last_range time_usec s)
    else s.
Proof. intake_ready setRangeData. reflexivity. Qed.

Lemma setExtVisionData_ready (time_usec : Z) (evdata : ext_vision_message)
    (alloc_ok : bool) (s : EstimatorInterface) :
  buffer_ready s (_ev_buffer_fail s) (_ext_vision_buffer s) ->
  setExtVisionData time_usec evdata alloc_ok s
  = if u64 (time_usec - _time_last_ext_vision s) >? _min_obs_interval_us s then
      set_ext_vision_buffer
        (RingBuffer.push
           (mkExtVisionSample (evm_posNED evdata) (evm_quat evdata) (evm_posErr evdata)
              (evm_angErr evdata) (u64 (time_usec - ev_delay_ms (_params s) * 1000)))
           (_ext_vision_buffer s))
        (set_time_last_ext_vision time_usec s)
    else s.
Proof. intake_ready setExtVisionData. reflexivity. Qed.

Lemma setAuxVelData_ready (time_usec : Z) (data variance : Vector2f) (alloc_ok : bool)
    (s : EstimatorInterface) :
  buffer_ready s (_auxvel_buffer_fail s) (_auxvel_buffer s) ->
  setAuxVelData time_usec data variance alloc_ok s
  = if u64 (time_usec - _time_last_auxvel s) >? _min_obs_interval_us s then
      set_auxvel_buffer
        (RingBuffer.push
           (mkAuxVelSample data variance
              (backdated time_usec (auxvel_delay_ms (_params s))))
           (_auxvel_buffer s))
        (set_time_last_auxvel time_usec s)
    else s.
Proof. intake_ready setAuxVelData. reflexivity. Qed.

Lemma setGpsData_ready (time_usec : Z) (gps : gps_message) (alloc_ok collect_gps : bool)
    (map_projection_project : Z -> Z -> float * float) (s : EstimatorInterface) :
  buffer_ready s (_gps_buffer_fail s) (_gps_buffer s) ->
  setGpsData time_usec gps alloc_ok collect_gps map_projection_project s
  = if (u64 (time_usec - _time_last_gps s) >? _min_obs_interval_us s)
       && need_gps s && (gpsm_fix_type gps >? 2) then
      set_gps_buffer
        (RingBuffer.push (gps_sample_new gps collect_gps map_projection_project s)
                         (_gps_buffer s))
        (set_gps_speed_valid (gpsm_vel_ned_valid gps) (set_time_last_gps time_usec s))
    else s.
Proof. intake_ready setGpsData. reflexivity. Qed.

Lemma setOpticalFlowData_ready (time_usec : Z) (flow : flow_message) (alloc_ok : bool)
    (uninit : imuSample) (s : EstimatorInterface) :
  buffer_ready s (_flow_buffer_fail s) (_flow_buffer s) ->
  setOpticalFlowData time_usec flow alloc_ok uninit s
  = if u64 (time_usec - _time_last_optflow s) >? _min_obs_interval_us s then
      if flow_gate flow s then
        set_flow_buffer
          (RingBuffer.push (optflow_sample_new time_usec flow uninit s) (_flow_buffer s))
          (set_time_last_optflow time_usec s)
      else s
    else s.
Proof.
  destruct flow as [q fd [g0 g1 g2] fdt].
  intake_ready setOpticalFlowData.
  unfold flow_gate, optflow_sample_new, flow_gyro_source, matching_imu_sample,
    flow_magnitude_good, flow_delta_time, flow_quality_good, flow_delta_time_good,
    flow_delta_time_min, flow_time_mid, no_gyro.
  ei_norm. cbn [flowm_quality flowm_flowdata flowm_gyrodata flowm_dt].
  destruct (F32.is_finite g0), (F32.is_finite g1), (F32.is_finite g2);
    destruct (q >=? flow_qual_min _params0);
    destruct (F32.geb (F32.mul (F32.lit 1 1000000) (F32.of_Z fdt))
                (F32.mul (F32.lit 1 2000000) (F32.of_Z _min_obs_interval_us0)));
    reflexivity.
Qed.

(** ** The intake routines on any object

    Whatever the state of the object, a call leaves the history of its
    buffer as it was, or empties it (a failed allocation), or appends the
    sample it built, possibly to freshly reserved storage. *)

Ltac split_ifs :=
  repeat match goal with
         | |- context [if ?c then _ else _] => destruct c eqn:?
         end.

Ltac any_simple f :=
  match goal with s : EstimatorInterface |- _ => destruct s end;
  repeat match goal with b : RingBuffer.t _ |- _ => destruct b end;
  unfold f, backdated; ei_norm; split_ifs; ei_norm; auto;
  right; right; (split; [lia|]); eauto.

Lemma setMagData_any (time_usec : Z) (data : Vector3f) (alloc_ok : bool)
    (s : EstimatorInterface) :
  let s' := setMagData time_usec data alloc_ok s in
  let before := RingBuffer.pushed (_mag_buffer s) in
  let after := RingBuffer.pushed (_mag_buffer s') in
  after = before \/ after = []
  \/ (_min_obs_interval_us s < u64 (time_usec - _time_last_mag s)
      /\ exists pre, (pre = before \/ pre = [])
         /\ after
            = pre ++ [mkMagSample data (backdated time_usec (mag_delay_ms (_params s)))]).
Proof. any_simple setMagData. Qed.

Lemma setBaroData_any (time_usec : Z) (data : float) (alloc_ok : bool)
    (s : EstimatorInterface) :
  let s' := setBaroData time_usec data alloc_ok s in
  let before := RingBuffer.pushed (_baro_buffer s) in
  let after := RingBuffer.pushed (_baro_buffer s') in
  after = before \/ after = []
  \/ (_min_obs_interval_us s < u64 (time_usec - _time_last_baro s)
      /\ exists pre, (pre = before \/ pre = [])
         /\ after
            = pre ++ [mkBaroSample data
                        (math.max (backdated time_usec (baro_delay_ms (_params s)))
                                  (imu_time_us (_imu_sample_delayed s)))]).
Proof. any_simple setBaroData. Qed.

Lemma setAirspeedData_any (time_usec : Z) (true_airspeed eas2tas : float)
    (alloc_ok : bool) (s : EstimatorInterface) :
  let s' := setAirspeedData time_usec true_airspeed eas2tas alloc_ok s in
  let before := RingBuffer.pushed (_airspeed_buffer s) in
  let after := RingBuffer.pushed (_airspeed_buffer s') in
  after = before \/ after = []
  \/ (_min_obs_interval_us s < u64 (time_usec - _time_last_airspeed s)
      /\ exists pre, (pre = before \/ pre = [])
         /\ after
            = pre ++ [mkAirspeedSample true_airspeed eas2tas
                        (backdated time_usec (airspeed_delay_ms (_params s)))]).
Proof. any_simple setAirspeedData. Qed.

Lemma setRangeData_any (time_usec : Z) (data : float) (alloc_ok : bool)
    (s : EstimatorInterface) :
  let s' := setRangeData time_usec data alloc_ok s in
  let before := RingBuffer.pushed (_range_buffer s) in
  let after := RingBuffer.pushed (_range_buffer s') in
  after = before \/ after = []
  \/ (_min_obs_interval_us s < u64 (time_usec - _time_last_range s)
      /\ exists pre, (pre = before \/ pre = [])
         /\ after
            = pre ++ [mkRangeSample data
                        (u64 (time_usec - range_delay_ms (_params s) * 1000))]).
Proof. any_simple setRangeData. Qed.

Lemma setExtVisionData_any (time_usec : Z) (evdata : ext_vision_message)
    (alloc_ok : bool) (s : EstimatorInterface) :
  let s' := setExtVisionData time_usec evdata alloc_ok s in
  let before := RingBuffer.pushed (_ext_vision_buffer s) in
  let after := RingBuffer.pushed (_ext_vision_buffer s') in
  after = before \/ after = []
  \/ (_min_obs_interval_us s < u64 (time_usec - _time_last_ext_vision s)
      /\ exists pre, (pre = before \/ pre = [])
         /\ after
            = pre ++ [mkExtVisionSample (evm_posNED evdata) (evm_quat evdata)
                        (evm_posErr evdata) (evm_angErr evdata)
                        (u64 (time_usec - ev_delay_ms (_params s) * 1000))]).
Proof. any_simple setExtVisionData. Qed.

Lemma setAuxVelData_any (time_usec : Z) (data variance : Vector2f) (alloc_ok : bool)
    (s : EstimatorInterface) :
  let s' := setAuxVelData time_usec data variance alloc_ok s in
  let before := RingBuffer.pushed (_auxvel_buffer s) in
  let after := RingBuffer.pushed (_auxvel_buffer s') in
  after = before \/ after = []
  \/ (_min_obs_interval_us s < u64 (time_usec - _time_last_auxvel s)
      /\ exists pre, (pre = before \/ pre = [])
         /\ after
            = pre ++ [mkAuxVelSample data variance
                        (backdated time_usec (auxvel_delay_ms (_params s)))]).
Proof. any_simple setAuxVelData. Qed.

Lemma setGpsData_any (time_usec : Z) (gps : gps_message) (alloc_ok collect_gps : bool)
    (map_projection_project : Z -> Z -> float * float) (s : EstimatorInterface) :
  let s' := setGpsData time_usec gps alloc_ok collect_gps map_projection_project s in
  let before := RingBuffer.pushed (_gps_buffer s) in
  let after := RingBuffer.pushed (_gps_buffer s') in
  after = before \/ after = []
  \/ (_min_obs_interval_us s < u64 (time_usec - _time_last_gps s)
      /\ need_gps s = true /\ 2 < gpsm_fix_type gps
      /\ exists pre, (pre = before \/ pre = [])
         /\ after = pre ++ [gps_sample_new gps collect_gps map_projection_project s]).
Proof.
  destruct s. destruct _gps_buffer0 as [len hist].
  unfold setGpsData, need_gps, gps_sample_new. ei_norm.
  destruct _initialised0, _gps_buffer_fail0; ei_norm; auto.
  destruct (len <? _obs_buffer_length0), alloc_ok; ei_norm; auto;
    try destruct (len =? _obs_buffer_length0); ei_norm;
    destruct (u64 (time_usec - _time_last_gps0) >? _min_obs_interval_us0) eqn:Hr;
    ei_norm; auto;
    destruct (Z.land (fusion_mode _params0) MASK_USE_GPS =? 0); ei_norm;
    try destruct (vdist_sensor_type _params0 =? VDIST_SENSOR_GPS); ei_norm; auto;
    destruct (gpsm_fix_type gps >? 2) eqn:Hx; ei_norm; auto;
    right; right; (split; [lia|]); (split; [reflexivity|]); (split; [lia|]); eauto.
Qed.

Lemma setOpticalFlowData_any (time_usec : Z) (flow : flow_message) (alloc_ok : bool)
    (uninit : imuSample) (s : EstimatorInterface) :
  let s' := setOpticalFlowData time_usec flow alloc_ok uninit s in
  let before := RingBuffer.pushed (_flow_buffer s) in
  let after := RingBuffer.pushed (_flow_buffer s') in
  after = before \/ after = []
  \/ (_min_obs_interval_us s < u64 (time_usec - _time_last_optflow s)
      /\ flow_gate flow s = true
      /\ exists pre, (pre = before \/ pre = [])
         /\ after = pre ++ [optflow_sample_new time_usec flow uninit s]).
Proof.
  destruct flow as [q fd [g0 g1 g2] fdt].
  destruct s. destruct _flow_buffer0 as [len hist].
  unfold setOpticalFlowData, flow_gate, optflow_sample_new, flow_gyro_source,
    matching_imu_sample, flow_magnitude_good, flow_delta_time, flow_quality_good,
    flow_delta_time_good, flow_delta_time_min, flow_time_mid, no_gyro.
  ei_norm. cbn [flowm_quality flowm_flowdata flowm_gyrodata flowm_dt].
  destruct _initialised0, _flow_buffer_fail0; ei_norm; auto.
  destruct (len <? _obs_buffer_length0), alloc_ok; ei_norm; auto;
    try destruct (len =? _obs_buffer_length0); ei_norm;
    destruct (u64 (time_usec - _time_last_optflow0) >? _min_obs_interval_us0) eqn:Hr;
    ei_norm; auto;
    destruct (F32.geb (F32.mul (F32.lit 1 1000000) (F32.of_Z fdt))
                (F32.mul (F32.lit 1 2000000) (F32.of_Z _min_obs_interval_us0)));
    ei_norm;
    destruct (q >=? flow_qual_min _params0); ei_norm;
    try match goal with
        | |- context [if F32.leb ?a ?b then _ else _] => destruct (F32.leb a b)
        end; ei_norm;
    destruct _control_status_in_air0; ei_norm; auto;
    right; right; (split; [lia|]); (split; [reflexivity|]);
    destruct (F32.is_finite g0), (F32.is_finite g1), (F32.is_finite g2);
    first [ exists hist; split; [left; reflexivity|reflexivity]
          | exists []; split; [right; reflexivity|reflexivity] ].
Qed.

(** ** The rate limit *)

Lemma map_push {A B : Type} (f : A -> B) (x : A) (b : RingBuffer.t A) :
  map f (RingBuffer.pushed (RingBuffer.push x b))
  = map f (RingBuffer.pushed b) ++ [f x].
Proof. unfold RingBuffer.push. simpl. apply map_app. Qed.

Ltac rate_case :=
  match goal with
  | |- context [?a >? ?b] => destruct (Z.gtb_spec a b)
  end.

Ltac rate_limit_sensor :=
  split;
  [ intros H; rate_case; [lia|reflexivity]
  | intros H Hg; rate_case; [|lia];
    cbn [andb]; try rewrite Hg;
    match goal with s : EstimatorInterface |- _ => destruct s end;
    split; [eexists; apply map_push|reflexivity] ].

(** C3 (as amended): on a buffer in service the rate limit rejects the
    presented sample, leaving the object as it was, when the unsigned
    difference [time_usec - _time_last_<sensor>] is at most
    [_min_obs_interval_us]; when the difference exceeds the interval and the
    sensor's further gates pass, the sample is stored and its arrival time
    recorded.  A sample arriving exactly one interval after the last accepted
    one is therefore rejected. *)
Theorem rate_limit_rejects_up_to_interval (c : intake_call) (sn : sensor)
    (s : EstimatorInterface) :
  call_sensor c = Some sn ->
  sensor_ready sn s ->
  (u64 (call_time c - sensor_time_last sn s) <= _min_obs_interval_us s ->
   run_call c s = s)
  /\ (_min_obs_interval_us s < u64 (call_time c - sensor_time_last sn s) ->
      call_gates c s = true ->
      (exists x, sensor_stamps sn (run_call c s) = sensor_stamps sn s ++ [x])
      /\ sensor_time_last sn (run_call c s) = call_time c).
Proof.
  intros Hc Hr.
  destruct c; simpl in Hc; inversion Hc; subst sn; clear Hc;
    simpl in Hr; simpl run_call; simpl call_time; simpl sensor_time_last;
    simpl call_gates; unfold sensor_stamps.
  - rewrite setMagData_ready by exact Hr. rate_limit_sensor.
  - rewrite setGpsData_ready by exact Hr. rate_limit_sensor.
  - rewrite setBaroData_ready by exact Hr. rate_limit_sensor.
  - rewrite setAirspeedData_ready by exact Hr. rate_limit_sensor.
  - rewrite setRangeData_ready by exact Hr. rate_limit_sensor.
  - rewrite setOpticalFlowData_ready by exact Hr. rate_limit_sensor.
  - rewrite setExtVisionData_ready by exact Hr. rate_limit_sensor.
  - rewrite setAuxVelData_ready by exact Hr. rate_limit_sensor.
Qed.

(** ** Clamping to the delayed IMU time *)

Lemma math_max_ge_r (a b : Z) : b <= math.max a b.
Proof. rewrite math_max_Zmax. lia. Qed.

(** C1 (as amended): [setGpsData] and [setBaroData] store the back-dated
    time clamped from below by [_imu_sample_delayed.time_us]: on a buffer in
    service an accepted sample is appended with [time_us] equal to the
    maximum of the back-dated time (for GPS, of the time of the message) and
    the delayed IMU time, which is therefore no smaller than the latter; and
    in any state of the object a sample the call adds carries that time.
    [setAuxVelData] applies no such clamp: the sample it appends carries the
    back-dated time as it is. *)
Theorem gps_baro_time_clamped (time_usec : Z) (gps : gps_message)
    (collect_gps : bool) (map_projection_project : Z -> Z -> float * float)
    (hgt : float) (vel var : Vector2f) (alloc_ok : bool) (s : EstimatorInterface) :
  let delayed := imu_time_us (_imu_sample_delayed s) in
  let gps_stamp :=
    math.max (backdated (gpsm_time_usec gps) (gps_delay_ms (_params s))) delayed in
  let baro_stamp :=
    math.max (backdated time_usec (baro_delay_ms (_params s))) delayed in
  let auxvel_stamp := backdated time_usec (auxvel_delay_ms (_params s)) in
  let gps_after :=
    RingBuffer.pushed
      (_gps_buffer
         (setGpsData time_usec gps alloc_ok collect_gps map_projection_project s)) in
  let baro_after :=
    RingBuffer.pushed (_baro_buffer (setBaroData time_usec hgt alloc_ok s)) in
  let auxvel_after :=
    RingBuffer.pushed (_auxvel_buffer (setAuxVelData time_usec vel var alloc_ok s)) in
  (buffer_ready s (_gps_buffer_fail s) (_gps_buffer s) ->
   _min_obs_interval_us s < u64 (time_usec - _time_last_gps s) ->
   need_gps s = true ->
   2 < gpsm_fix_type gps ->
   exists x, gps_after = RingBuffer.pushed (_gps_buffer s) ++ [x]
             /\ gps_time_us x = gps_stamp)
  /\ (buffer_ready s (_baro_buffer_fail s) (_baro_buffer s) ->
      _min_obs_interval_us s < u64 (time_usec - _time_last_baro s) ->
      exists x, baro_after = RingBuffer.pushed (_baro_buffer s) ++ [x]
                /\ baro_time_us x = baro_stamp)
  /\ (buffer_ready s (_auxvel_buffer_fail s) (_auxvel_buffer s) ->
      _min_obs_interval_us s < u64 (time_usec - _time_last_auxvel s) ->
      exists x, auxvel_after = RingBuffer.pushed (_auxvel_buffer s) ++ [x]
                /\ auxvel_time_us x = auxvel_stamp)
  /\ (forall x, In x gps_after ->
                In x (RingBuffer.pushed (_gps_buffer s)) \/ gps_time_us x = gps_stamp)
  /\ (forall x, In x baro_after ->
                In x (RingBuffer.pushed (_baro_buffer s)) \/ baro_time_us x = baro_stamp)
  /\ (forall x, In x auxvel_after ->
                In x (RingBuffer.pushed (_auxvel_buffer s))
                \/ auxvel_time_us x = auxvel_stamp)
  /\ delayed <= gps_stamp
  /\ delayed <= baro_stamp.
Proof.
  intros delayed gps_stamp baro_stamp auxvel_stamp gps_after baro_after auxvel_after.
  split; [|split; [|split; [|split; [|split; [|split; [|split]]]]]].
  - intros Hr Ht Hn Hx. apply Z.gtb_lt in Ht, Hx.
    exists (gps_sample_new gps collect_gps map_projection_project s).
    split; [|reflexivity].
    subst gps_after. rewrite setGpsData_ready by exact Hr.
    rewrite Ht, Hn, Hx. destruct s; reflexivity.
  - intros Hr Ht. apply Z.gtb_lt in Ht.
    exists (mkBaroSample hgt baro_stamp). split; [|reflexivity].
    subst baro_after. rewrite setBaroData_ready by exact Hr.
    rewrite Ht. destruct s; reflexivity.
  - intros Hr Ht. apply Z.gtb_lt in Ht.
    exists (mkAuxVelSample vel var auxvel_stamp). split; [|reflexivity].
    subst auxvel_after. rewrite setAuxVelData_ready by exact Hr.
    rewrite Ht. destruct s; reflexivity.
  - intros x Hx. subst gps_after.
    destruct (setGpsData_any time_usec gps alloc_ok collect_gps
                map_projection_project s) as [E|[E|(_ & _ & _ & pre & Hp & E)]];
      rewrite E in Hx.
    + left; exact Hx.
    + destruct Hx.
    + apply in_app_or in Hx. destruct Hx as [Hx|[Hx|[]]].
      * destruct Hp as [->| ->]; [left; exact Hx|destruct Hx].
      * right. subst x. reflexivity.
  - intros x Hx. subst baro_after.
    destruct (setBaroData_any time_usec hgt alloc_ok s) as [E|[E|(_ & pre & Hp & E)]];
      rewrite E in Hx.
    + left; exact Hx.
    + destruct Hx.
    + apply in_app_or in Hx. destruct Hx as [Hx|[Hx|[]]].
      * destruct Hp as [->| ->]; [left; exact Hx|destruct Hx].
      * right. subst x. reflexivity.
  - intros x Hx. subst auxvel_after.
    destruct (setAuxVelData_any time_usec vel var alloc_ok s)
      as [E|[E|(_ & pre & Hp & E)]]; rewrite E in Hx.
    + left; exact Hx.
    + destruct Hx.
    + apply in_app_or in Hx. destruct Hx as [Hx|[Hx|[]]].
      * destruct Hp as [->| ->]; [left; exact Hx|destruct Hx].
      * right. subst x. reflexivity.
  - apply math_max_ge_r.
  - apply math_max_ge_r.
Qed.

(** ** GPS gating *)


(** ** Optical-flow gyro source *)

(** C2 (as amended): when [setOpticalFlowData] stores a sample, the IMU
    fallback is taken exactly when all three components of the driver's
    [gyrodata] are non-finite.  The gyro rate is then the [delta_ang] of the
    IMU sample found for the flow mid-point divided by its [delta_ang_dt];
    the stored [gyroXYZ] holds its third component and, scaled back by
    [delta_ang_dt], its first two.  Otherwise the stored [gyroXYZ] is
    [-gyrodata]. *)
Theorem setOpticalFlowData_gyro_source (time_usec : Z) (flow : flow_message)
    (alloc_ok : bool) (uninit : imuSample) (s : EstimatorInterface) :
  buffer_ready s (_flow_buffer_fail s) (_flow_buffer s) ->
  _min_obs_interval_us s < u64 (time_usec - _time_last_optflow s) ->
  flow_gate flow s = true ->
  let all_non_finite :=
    negb (F32.is_finite (v3_0 (flowm_gyrodata flow)))
    && negb (F32.is_finite (v3_1 (flowm_gyrodata flow)))
    && negb (F32.is_finite (v3_2 (flowm_gyrodata flow))) in
  let m :=
    match RingBuffer.read_first_older_than imu_time_us
            (u64 (u64 (time_usec - flow_delay_ms (_params s) * 1000) - flowm_dt flow / 2))
            (_imu_buffer s) with
    | Some m => m
    | None => uninit
    end in
  let rate := Vector3f_div (imu_delta_ang m) (imu_delta_ang_dt m) in
  exists x,
    RingBuffer.pushed
      (_flow_buffer (setOpticalFlowData time_usec flow alloc_ok uninit s))
    = RingBuffer.pushed (_flow_buffer s) ++ [x]
    /\ flow_gyro_source time_usec flow uninit s
       = (if all_non_finite then rate else Vector3f_neg (flowm_gyrodata flow))
    /\ flow_gyroXYZ x
       = (if all_non_finite then
            mkVector3f (F32.mul (v3_0 rate) (imu_delta_ang_dt m))
                       (F32.mul (v3_1 rate) (imu_delta_ang_dt m))
                       (v3_2 rate)
          else Vector3f_neg (flowm_gyrodata flow)).
Proof.
  intros Hr Hrate Hg all_non_finite m rate.
  exists (optflow_sample_new time_usec flow uninit s).
  rewrite setOpticalFlowData_ready by exact Hr. rewrite Hg.
  destruct (Z.gtb_spec (u64 (time_usec - _time_last_optflow s)) (_min_obs_interval_us s));
    [|lia].
  split; [destruct s; reflexivity|].
  unfold optflow_sample_new, flow_gyro_source. fold (no_gyro flow) in all_non_finite.
  subst all_non_finite. destruct (no_gyro flow); split; reflexivity.
Qed.


(** ** [setIMUData] block by block *)

Ltac block_frame :=
  intros;
  match goal with s : EstimatorInterface |- _ => destruct s end;
  repeat match goal with b : RingBuffer.t _ |- _ => destruct b end;
  cbv beta delta [imu_timing imu_dt imu_metrics imu_store drag_enabled
                  drag_allocate drag_accumulate drag_emit drag_mean drag_erased
                  timing_erased metrics_erased store_erased imu_erased];
  ei_norm; split_ifs; reflexivity.

(** A member that an eraser leaves alone is the same in two objects with the
    same image. *)
Lemma via_erased {A : Type} (E : EstimatorInterface -> EstimatorInterface)
    (f : EstimatorInterface -> A) (s s' : EstimatorInterface) :
  E s' = E s -> (forall t, f (E t) = f t) -> f s' = f s.
Proof. intros HE Hf. rewrite <- (Hf s'), <- (Hf s), HE. reflexivity. Qed.

Lemma imu_timing_erased (time_usec : Z) (s : EstimatorInterface) :
  timing_erased (imu_timing time_usec s) = timing_erased s.
Proof. block_frame. Qed.

Lemma imu_metrics_erased (x : imuSample) (s : EstimatorInterface) :
  metrics_erased (imu_metrics x s) = metrics_erased s.
Proof. block_frame. Qed.

Lemma imu_store_erased (x : imuSample) (s : EstimatorInterface) :
  store_erased (imu_store x s) = store_erased s.
Proof. block_frame. Qed.

Lemma drag_allocate_erased (drag_alloc : bool) (s : EstimatorInterface) :
  drag_erased (drag_allocate drag_alloc s) = drag_erased s.
Proof. block_frame. Qed.

Lemma drag_accumulate_erased (x : imuSample) (s : EstimatorInterface) :
  drag_erased (drag_accumulate x s) = drag_erased s.
Proof. block_frame. Qed.

Lemma drag_emit_erased (s : EstimatorInterface) :
  drag_erased (drag_emit s) = drag_erased s.
Proof. block_frame. Qed.

Lemma drag_down_sample_erased (x : imuSample) (drag_alloc : bool)
    (s : EstimatorInterface) :
  drag_erased (drag_down_sample x drag_alloc s) = drag_erased s.
Proof.
  unfold drag_down_sample.
  destruct (drag_enabled s); [|reflexivity].
  cbv zeta.
  destruct (_drag_buffer_fail (drag_allocate drag_alloc s)).
  - apply drag_allocate_erased.
  - rewrite drag_emit_erased, drag_accumulate_erased. apply drag_allocate_erased.
Qed.

(** The IMU blocks, composed as in [setIMUData] after the initialisation. *)
Lemma setIMUData_initialised (time_usec delta_ang_dt delta_vel_dt : Z)
    (delta_ang delta_vel : Vector3f) (init_alloc : bool * bool * bool)
    (ci : collect_imu_result) (drag_alloc : bool) (s : EstimatorInterface) :
  _initialised s = true ->
  setIMUData time_usec delta_ang_dt delta_vel_dt delta_ang delta_vel init_alloc ci
    drag_alloc s
  = let s3 :=
      set_imu_sample_new (ci_imu_sample_new ci)
        (imu_metrics
           (mkImuSample delta_ang delta_vel
              (F32.div (F32.of_Z delta_ang_dt) (F32.of_Z 1000000))
              (F32.div (F32.of_Z delta_vel_dt) (F32.of_Z 1000000)) time_usec)
           (imu_timing time_usec s)) in
    if ci_ready ci then
      drag_down_sample (ci_sample ci) drag_alloc (imu_store (ci_sample ci) s3)
    else set_imu_updated false s3.
Proof.
  intros Hi. unfold setIMUData, imu_init. rewrite Hi. reflexivity.
Qed.

Lemma setIMUData_uninitialised (time_usec delta_ang_dt delta_vel_dt : Z)
    (delta_ang delta_vel : Vector3f) (init_alloc : bool * bool * bool)
    (ci : collect_imu_result) (drag_alloc : bool) (s : EstimatorInterface) :
  _initialised s = false ->
  setIMUData time_usec delta_ang_dt delta_vel_dt delta_ang delta_vel init_alloc ci
    drag_alloc s
  = setIMUData time_usec delta_ang_dt delta_vel_dt delta_ang delta_vel init_alloc ci
      drag_alloc (set_initialised true (init time_usec init_alloc s)).
Proof.
  intros Hi. unfold setIMUData, imu_init. rewrite Hi. reflexivity.
Qed.

(** Apart from the initialisation, [setIMUData] assigns IMU and drag
    members only. *)
Lemma setIMUData_erased (time_usec delta_ang_dt delta_vel_dt : Z)
    (delta_ang delta_vel : Vector3f) (init_alloc : bool * bool * bool)
    (ci : collect_imu_result) (drag_alloc : bool) (s : EstimatorInterface) :
  imu_erased
    (setIMUData time_usec delta_ang_dt delta_vel_dt delta_ang delta_vel init_alloc ci
       drag_alloc s)
  = imu_erased (imu_init time_usec init_alloc s).
Proof.
  unfold setIMUData. cbv zeta.
  generalize (imu_init time_usec init_alloc s). clear s. intros s.
  set (x := mkImuSample _ _ _ _ _).
  assert (E3 : imu_erased
                 (set_imu_sample_new (ci_imu_sample_new ci)
                    (imu_metrics x (imu_timing time_usec s)))
               = imu_erased s).
  { transitivity (imu_erased (imu_metrics x (imu_timing time_usec s)));
      [destruct (imu_metrics x (imu_timing time_usec s)); reflexivity|].
    transitivity (imu_erased (imu_timing time_usec s)).
    - apply (via_erased metrics_erased imu_erased);
        [apply imu_metrics_erased|intros []; reflexivity].
    - apply (via_erased timing_erased imu_erased);
        [apply imu_timing_erased|intros []; reflexivity]. }
  destruct (ci_ready ci).
  - rewrite <- E3.
    transitivity (imu_erased (imu_store (ci_sample ci)
                    (set_imu_sample_new (ci_imu_sample_new ci)
                       (imu_metrics x (imu_timing time_usec s))))).
    + apply (via_erased drag_erased imu_erased);
        [apply drag_down_sample_erased|intros []; reflexivity].
    + apply (via_erased store_erased imu_erased);
        [apply imu_store_erased|intros []; reflexivity].
  - rewrite <- E3.
    destruct (set_imu_sample_new (ci_imu_sample_new ci)
                (imu_metrics x (imu_timing time_usec s))); reflexivity.
Qed.

(** ** The prologue of the sensor intakes *)

Ltac intake_off f :=
  intros H;
  match goal with s : EstimatorInterface |- _ => destruct s end;
  cbv beta delta [f]; revert H; ei_norm; intros H;
  match goal with
  | i : bool, b : bool |- _ =>
      lazymatch type of H with
      | i = false \/ b = true => destruct i, b
      end
  end;
  try reflexivity; destruct H; discriminate.

Ltac intake_alloc f ok :=
  intros Hi Hf Hl;
  assert (Hl' := Hl); apply Z.ltb_lt in Hl';
  assert (Hn : forall a b : Z, a < b -> (a =? b) = false)
    by (intros a b Hab; apply Z.eqb_neq; lia);
  apply Hn in Hl; clear Hn;
  match goal with s : EstimatorInterface |- _ => destruct s end;
  repeat match goal with b : RingBuffer.t _ |- _ => destruct b end;
  cbv beta delta [f]; revert Hi Hf Hl Hl'; ei_norm; intros Hi Hf Hl Hl';
  rewrite Hi, Hf, Hl'; ei_norm; rewrite ?Hl, ?Z.ltb_irrefl;
  destruct ok; ei_norm; rewrite ?Hi, ?Hf, ?Hl, ?Z.ltb_irrefl; reflexivity.

Ltac erased_leaf :=
  repeat match goal with
         | |- context [if ?c then _ else _] => destruct c
         end;
  match goal with s : EstimatorInterface |- _ => destruct s end; reflexivity.

Ltac ready_after_alloc Hi Hf :=
  match goal with s : EstimatorInterface |- _ =>
    destruct s; revert Hi Hf; unfold buffer_ready; ei_norm; intros Hi Hf;
    repeat split; [exact Hi|exact Hf|lia]
  end.

Lemma setMagData_off (time_usec : Z) (data : Vector3f) (alloc_ok : bool)
    (s : EstimatorInterface) :
  _initialised s = false \/ _mag_buffer_fail s = true ->
  setMagData time_usec data alloc_ok s = s.
Proof. intake_off setMagData. Qed.

Lemma setMagData_alloc (time_usec : Z) (data : Vector3f) (alloc_ok : bool)
    (s : EstimatorInterface) :
  _initialised s = true -> _mag_buffer_fail s = false ->
  RingBuffer.get_length (_mag_buffer s) < _obs_buffer_length s ->
  setMagData time_usec data alloc_ok s
  = if alloc_ok then
      setMagData time_usec data alloc_ok
        (set_mag_buffer (RingBuffer.mk (_obs_buffer_length s) []) s)
    else set_mag_buffer_fail true (set_mag_buffer RingBuffer.empty s).
Proof. intake_alloc setMagData alloc_ok. Qed.

Lemma setMagData_erased (time_usec : Z) (data : Vector3f) (alloc_ok : bool)
    (s : EstimatorInterface) :
  sensor_erased Mag (setMagData time_usec data alloc_ok s) = sensor_erased Mag s.
Proof.
  destruct (_initialised s) eqn:Hi;
    [|rewrite setMagData_off by auto; reflexivity].
  destruct (_mag_buffer_fail s) eqn:Hf;
    [rewrite setMagData_off by auto; reflexivity|].
  destruct (Z.lt_ge_cases (RingBuffer.get_length (_mag_buffer s)) (_obs_buffer_length s))
    as [Hl|Hl].
  - rewrite setMagData_alloc by assumption.
    destruct alloc_ok; [|destruct s; reflexivity].
    rewrite setMagData_ready by ready_after_alloc Hi Hf.
    erased_leaf.
  - rewrite setMagData_ready by (repeat split; assumption).
    erased_leaf.
Qed.

Lemma setGpsData_off (time_usec : Z) (gps : gps_message) (alloc_ok collect_gps : bool)
    (map_projection_project : Z -> Z -> float * float)
    (s : EstimatorInterface) :
  _initialised s = false \/ _gps_buffer_fail s = true ->
  setGpsData time_usec gps alloc_ok collect_gps map_projection_project s = s.
Proof. intake_off setGpsData. Qed.

Lemma setGpsData_alloc (time_usec : Z) (gps : gps_message) (alloc_ok collect_gps : bool)
    (map_projection_project : Z -> Z -> float * float)
    (s : EstimatorInterface) :
  _initialised s = true -> _gps_buffer_fail s = false ->
  RingBuffer.get_length (_gps_buffer s) < _obs_buffer_length s ->
  setGpsData time_usec gps alloc_ok collect_gps map_projection_project s
  = if alloc_ok then
      setGpsData time_usec gps alloc_ok collect_gps map_projection_project
        (set_gps_buffer (RingBuffer.mk (_obs_buffer_length s) []) s)
    else set_gps_buffer_fail true (set_gps_buffer RingBuffer.empty s).
Proof. intake_alloc setGpsData alloc_ok. Qed.

Lemma setGpsData_erased (time_usec : Z) (gps : gps_message) (alloc_ok collect_gps : bool)
    (map_projection_project : Z -> Z -> float * float)
    (s : EstimatorInterface) :
  sensor_erased Gps (setGpsData time_usec gps alloc_ok collect_gps map_projection_project s) = sensor_erased Gps s.
Proof.
  destruct (_initialised s) eqn:Hi;
    [|rewrite setGpsData_off by auto; reflexivity].
  destruct (_gps_buffer_fail s) eqn:Hf;
    [rewrite setGpsData_off by auto; reflexivity|].
  destruct (Z.lt_ge_cases (RingBuffer.get_length (_gps_buffer s)) (_obs_buffer_length s))
    as [Hl|Hl].
  - rewrite setGpsData_alloc by assumption.
    destruct alloc_ok; [|destruct s; reflexivity].
    rewrite setGpsData_ready by ready_after_alloc Hi Hf.
    erased_leaf.
  - rewrite setGpsData_ready by (repeat split; assumption).
    erased_leaf.
Qed.

Lemma setBaroData_off (time_usec : Z) (data : float) (alloc_ok : bool)
    (s : EstimatorInterface) :
  _initialised s = false \/ _baro_buffer_fail s = true ->
  setBaroData time_usec data alloc_ok s = s.
Proof. intake_off setBaroData. Qed.

Lemma setBaroData_alloc (time_usec : Z) (data : float) (alloc_ok : bool)
    (s : EstimatorInterface) :
  _initialised s = true -> _baro_buffer_fail s = false ->
  RingBuffer.get_length (_baro_buffer s) < _obs_buffer_length s ->
  setBaroData time_usec data alloc_ok s
  = if alloc_ok then
      setBaroData time_usec data alloc_ok
        (set_baro_buffer (RingBuffer.mk (_obs_buffer_length s) []) s)
    else set_baro_buffer_fail true (set_baro_buffer RingBuffer.empty s).
Proof. intake_alloc setBaroData alloc_ok. Qed.

Lemma setBaroData_erased (time_usec : Z) (data : float) (alloc_ok : bool)
    (s : EstimatorInterface) :
  sensor_erased Baro (setBaroData time_usec data alloc_ok s) = sensor_erased Baro s.
Proof.
  destruct (_initialised s) eqn:Hi;
    [|rewrite setBaroData_off by auto; reflexivity].
  destruct (_baro_buffer_fail s) eqn:Hf;
    [rewrite setBaroData_off by auto; reflexivity|].
  destruct (Z.lt_ge_cases (RingBuffer.get_length (_baro_buffer s)) (_obs_buffer_length s))
    as [Hl|Hl].
  - rewrite setBaroData_alloc by assumption.
    destruct alloc_ok; [|destruct s; reflexivity].
    rewrite setBaroData_ready by ready_after_alloc Hi Hf.
    erased_leaf.
  - rewrite setBaroData_ready by (repeat split; assumption).
    erased_leaf.
Qed.

Lemma setAirspeedData_off (time_usec : Z) (true_airspeed eas2tas : float) (alloc_ok : bool)
    (s : EstimatorInterface) :
  _initialised s = false \/ _airspeed_buffer_fail s = true ->
  setAirspeedData time_usec true_airspeed eas2tas alloc_ok s = s.
Proof. intake_off setAirspeedData. Qed.

Lemma setAirspeedData_alloc (time_usec : Z) (true_airspeed eas2tas : float) (alloc_ok : bool)
    (s : EstimatorInterface) :
  _initialised s = true -> _airspeed_buffer_fail s = false ->
  RingBuffer.get_length (_airspeed_buffer s) < _obs_buffer_length s ->
  setAirspeedData time_usec true_airspeed eas2tas alloc_ok s
  = if alloc_ok then
      setAirspeedData time_usec true_airspeed eas2tas alloc_ok
        (set_airspeed_buffer (RingBuffer.mk (_obs_buffer_length s) []) s)
    else set_airspeed_buffer_fail true (set_airspeed_buffer RingBuffer.empty s).
Proof. intake_alloc setAirspeedData alloc_ok. Qed.

Lemma setAirspeedData_erased (time_usec : Z) (true_airspeed eas2tas : float) (alloc_ok : bool)
    (s : EstimatorInterface) :
  sensor_erased Airspeed (setAirspeedData time_usec true_airspeed eas2tas alloc_ok s) = sensor_erased Airspeed s.
Proof.
  destruct (_initialised s) eqn:Hi;
    [|rewrite setAirspeedData_off by auto; reflexivity].
  destruct (_airspeed_buffer_fail s) eqn:Hf;
    [rewrite setAirspeedData_off by auto; reflexivity|].
  destruct (Z.lt_ge_cases (RingBuffer.get_length (_airspeed_buffer s)) (_obs_buffer_length s))
    as [Hl|Hl].
  - rewrite setAirspeedData_alloc by assumption.
    destruct alloc_ok; [|destruct s; reflexivity].
    rewrite setAirspeedData_ready by ready_after_alloc Hi Hf.
    erased_leaf.
  - rewrite setAirspeedData_ready by (repeat split; assumption).
    erased_leaf.
Qed.

Lemma setRangeData_off (time_usec : Z) (data : float) (alloc_ok : bool)
    (s : EstimatorInterface) :
  _initialised s = false \/ _range_buffer_fail s = true ->
  setRangeData time_usec data alloc_ok s = s.
Proof. intake_off setRangeData. Qed.

Lemma setRangeData_alloc (time_usec : Z) (data : float) (alloc_ok : bool)
    (s : EstimatorInterface) :
  _initialised s = true -> _range_buffer_fail s = false ->
  RingBuffer.get_length (_range_buffer s) < _obs_buffer_length s ->
  setRangeData time_usec data alloc_ok s
  = if alloc_ok then
      setRangeData time_usec data alloc_ok
        (set_range_buffer (RingBuffer.mk (_obs_buffer_length s) []) s)
    else set_range_buffer_fail true (set_range_buffer RingBuffer.empty s).
Proof. intake_alloc setRangeData alloc_ok. Qed.

Lemma setRangeData_erased (time_usec : Z) (data : float) (alloc_ok : bool)
    (s : EstimatorInterface) :
  sensor_erased Range (setRangeData time_usec data alloc_ok s) = sensor_erased Range s.
Proof.
  destruct (_initialised s) eqn:Hi;
    [|rewrite setRangeData_off by auto; reflexivity].
  destruct (_range_buffer_fail s) eqn:Hf;
    [rewrite setRangeData_off by auto; reflexivity|].
  destruct (Z.lt_ge_cases (RingBuffer.get_length (_range_buffer s)) (_obs_buffer_length s))
    as [Hl|Hl].
  - rewrite setRangeData_alloc by assumption.
    destruct alloc_ok; [|destruct s; reflexivity].
    rewrite setRangeData_ready by ready_after_alloc Hi Hf.
    erased_leaf.
  - rewrite setRangeData_ready by (repeat split; assumption).
    erased_leaf.
Qed.

Lemma setOpticalFlowData_off (time_usec : Z) (flow : flow_message) (alloc_ok : bool)
    (uninit : imuSample)
    (s : EstimatorInterface) :
  _initialised s = false \/ _flow_buffer_fail s = true ->
  setOpticalFlowData time_usec flow alloc_ok uninit s = s.
Proof. intake_off setOpticalFlowData. Qed.

Lemma setOpticalFlowData_alloc (time_usec : Z) (flow : flow_message) (alloc_ok : bool)
    (uninit : imuSample)
    (s : EstimatorInterface) :
  _initialised s = true -> _flow_buffer_fail s = false ->
  RingBuffer.get_length (_flow_buffer s) < _obs_buffer_length s ->
  setOpticalFlowData time_usec flow alloc_ok uninit s
  = if alloc_ok then
      setOpticalFlowData time_usec flow alloc_ok uninit
        (set_flow_buffer (RingBuffer.mk (_obs_buffer_length s) []) s)
    else set_flow_buffer_fail true (set_flow_buffer RingBuffer.empty s).
Proof. intake_alloc setOpticalFlowData alloc_ok. Qed.

Lemma setOpticalFlowData_erased (time_usec : Z) (flow : flow_message) (alloc_ok : bool)
    (uninit : imuSample)
    (s : EstimatorInterface) :
  sensor_erased Flow (setOpticalFlowData time_usec flow alloc_ok uninit s) = sensor_erased Flow s.
Proof.
  destruct (_initialised s) eqn:Hi;
    [|rewrite setOpticalFlowData_off by auto; reflexivity].
  destruct (_flow_buffer_fail s) eqn:Hf;
    [rewrite setOpticalFlowData_off by auto; reflexivity|].
  destruct (Z.lt_ge_cases (RingBuffer.get_length (_flow_buffer s)) (_obs_buffer_length s))
    as [Hl|Hl].
  - rewrite setOpticalFlowData_alloc by assumption.
    destruct alloc_ok; [|destruct s; reflexivity].
    rewrite setOpticalFlowData_ready by ready_after_alloc Hi Hf.
    erased_leaf.
  - rewrite setOpticalFlowData_ready by (repeat split; assumption).
    erased_leaf.
Qed.

Lemma setExtVisionData_off (time_usec : Z) (evdata : ext_vision_message) (alloc_ok : bool)
    (s : EstimatorInterface) :
  _initialised s = false \/ _ev_buffer_fail s = true ->
  setExtVisionData time_usec evdata alloc_ok s = s.
Proof. intake_off setExtVisionData. Qed.

Lemma setExtVisionData_alloc (time_usec : Z) (evdata : ext_vision_message) (alloc_ok : bool)
    (s : EstimatorInterface) :
  _initialised s = true -> _ev_buffer_fail s = false ->
  RingBuffer.get_length (_ext_vision_buffer s) < _obs_buffer_length s ->
  setExtVisionData time_usec evdata alloc_ok s
  = if alloc_ok then
      setExtVisionData time_usec evdata alloc_ok
        (set_ext_vision_buffer (RingBuffer.mk (_obs_buffer_length s) []) s)
    else set_ev_buffer_fail true (set_ext_vision_buffer RingBuffer.empty s).
Proof. intake_alloc setExtVisionData alloc_ok. Qed.

Lemma setExtVisionData_erased (time_usec : Z) (evdata : ext_vision_message) (alloc_ok : bool)
    (s : EstimatorInterface) :
  sensor_erased ExtVision (setExtVisionData time_usec evdata alloc_ok s) = sensor_erased ExtVision s.
Proof.
  destruct (_initialised s) eqn:Hi;
    [|rewrite setExtVisionData_off by auto; reflexivity].
  destruct (_ev_buffer_fail s) eqn:Hf;
    [rewrite setExtVisionData_off by auto; reflexivity|].
  destruct (Z.lt_ge_cases (RingBuffer.get_length (_ext_vision_buffer s)) (_obs_buffer_length s))
    as [Hl|Hl].
  - rewrite setExtVisionData_alloc by assumption.
    destruct alloc_ok; [|destruct s; reflexivity].
    rewrite setExtVisionData_ready by ready_after_alloc Hi Hf.
    erased_leaf.
  - rewrite setExtVisionData_ready by (repeat split; assumption).
    erased_leaf.
Qed.

Lemma setAuxVelData_off (time_usec : Z) (data variance : Vector2f) (alloc_ok : bool)
    (s : EstimatorInterface) :
  _initialised s = false \/ _auxvel_buffer_fail s = true ->
  setAuxVelData time_usec data variance alloc_ok s = s.
Proof. intake_off setAuxVelData. Qed.

Lemma setAuxVelData_alloc (time_usec : Z) (data variance : Vector2f) (alloc_ok : bool)
    (s : EstimatorInterface) :
  _initialised s = true -> _auxvel_buffer_fail s = false ->
  RingBuffer.get_length (_auxvel_buffer s) < _obs_buffer_length s ->
  setAuxVelData time_usec data variance alloc_ok s
  = if alloc_ok then
      setAuxVelData time_usec data variance alloc_ok
        (set_auxvel_buffer (RingBuffer.mk (_obs_buffer_length s) []) s)
    else set_auxvel_buffer_fail true (set_auxvel_buffer RingBuffer.empty s).
Proof. intake_alloc setAuxVelData alloc_ok. Qed.

Lemma setAuxVelData_erased (time_usec : Z) (data variance : Vector2f) (alloc_ok : bool)
    (s : EstimatorInterface) :
  sensor_erased AuxVel (setAuxVelData time_usec data variance alloc_ok s) = sensor_erased AuxVel s.
Proof.
  destruct (_initialised s) eqn:Hi;
    [|rewrite setAuxVelData_off by auto; reflexivity].
  destruct (_auxvel_buffer_fail s) eqn:Hf;
    [rewrite setAuxVelData_off by auto; reflexivity|].
  destruct (Z.lt_ge_cases (RingBuffer.get_length (_auxvel_buffer s)) (_obs_buffer_length s))
    as [Hl|Hl].
  - rewrite setAuxVelData_alloc by assumption.
    destruct alloc_ok; [|destruct s; reflexivity].
    rewrite setAuxVelData_ready by ready_after_alloc Hi Hf.
    erased_leaf.
  - rewrite setAuxVelData_ready by (repeat split; assumption).
    erased_leaf.
Qed.

(** ** IMU timing *)

Lemma imu_timing_dt_imu_avg (time_usec : Z) (s : EstimatorInterface) :
  _dt_imu_avg (imu_timing time_usec s)
  = (if time_usec >? 0 then
       F32.add (F32.mul (F32.lit 8 10) (_dt_imu_avg s))
               (F32.mul (F32.lit 2 10) (imu_dt time_usec s))
     else _dt_imu_avg s)
  /\ _time_last_imu (imu_timing time_usec s) = time_usec.
Proof.
  destruct s. cbv beta delta [imu_timing imu_dt]. ei_norm.
  destruct (time_usec >? 0); split; reflexivity.
Qed.

Lemma after_imu_timing {A : Type} (f : EstimatorInterface -> A)
    (time_usec delta_ang_dt delta_vel_dt : Z)
    (delta_ang delta_vel : Vector3f) (init_alloc : bool * bool * bool)
    (ci : collect_imu_result) (drag_alloc : bool) (s : EstimatorInterface) :
  (forall t, f (drag_erased t) = f t) ->
  (forall t, f (store_erased t) = f t) ->
  (forall t, f (metrics_erased t) = f t) ->
  (forall x t, f (set_imu_sample_new x t) = f t) ->
  (forall b t, f (set_imu_updated b t) = f t) ->
  f (setIMUData time_usec delta_ang_dt delta_vel_dt delta_ang delta_vel init_alloc ci
       drag_alloc s)
  = f (imu_timing time_usec (imu_init time_usec init_alloc s)).
Proof.
  intros Hd Hs Hm Hn Hu. unfold setIMUData. cbv zeta.
  set (s1 := imu_timing time_usec (imu_init time_usec init_alloc s)).
  set (x := mkImuSample _ _ _ _ _).
  destruct (ci_ready ci).
  - rewrite (via_erased drag_erased f _ _ (drag_down_sample_erased _ _ _) Hd).
    rewrite (via_erased store_erased f _ _ (imu_store_erased _ _) Hs).
    rewrite Hn. apply (via_erased metrics_erased f _ _ (imu_metrics_erased _ _) Hm).
  - rewrite Hu, Hn.
    apply (via_erased metrics_erased f _ _ (imu_metrics_erased _ _) Hm).
Qed.

(** C4 (as amended): [setIMUData] computes
    [dt = constrain((time_usec - _time_last_imu) / 1e6, 1e-4, 0.02)] and
    applies [_dt_imu_avg = 0.8 * _dt_imu_avg + 0.2 * dt], except when the
    [time_usec] it has just stored in [_time_last_imu] is zero.  The members
    read are those of the object after the initialisation the first call
    performs. *)
Theorem setIMUData_dt_imu_avg (time_usec delta_ang_dt delta_vel_dt : Z)
    (delta_ang delta_vel : Vector3f) (init_alloc : bool * bool * bool)
    (ci : collect_imu_result) (drag_alloc : bool) (s : EstimatorInterface) :
  let s0 :=
    if _initialised s then s else set_initialised true (init time_usec init_alloc s) in
  let dt :=
    math.constrain
      (F32.div (F32.of_Z (u64 (time_usec - _time_last_imu s0))) (F32.of_Z 1000000))
      (F32.lit 1 10000) (F32.lit 2 100) in
  let s' :=
    setIMUData time_usec delta_ang_dt delta_vel_dt delta_ang delta_vel init_alloc ci
      drag_alloc s in
  _time_last_imu s' = time_usec
  /\ _dt_imu_avg s'
     = if time_usec >? 0 then
         F32.add (F32.mul (F32.lit 8 10) (_dt_imu_avg s0)) (F32.mul (F32.lit 2 10) dt)
       else _dt_imu_avg s0.
Proof.
  intros s0 dt s'.
  assert (E0 : imu_init time_usec init_alloc s = s0)
    by (unfold imu_init; subst s0; destruct (_initialised s); reflexivity).
  subst s'. split.
  - rewrite (after_imu_timing _time_last_imu); try (intros; destruct t; reflexivity).
    apply imu_timing_dt_imu_avg.
  - rewrite (after_imu_timing _dt_imu_avg); try (intros; destruct t; reflexivity).
    rewrite E0. apply imu_timing_dt_imu_avg.
Qed.

(** ** What the calls leave alone *)

Lemma run_call_erased (c : intake_call) (sn : sensor) (s : EstimatorInterface) :
  call_sensor c = Some sn ->
  sensor_erased sn (run_call c s) = sensor_erased sn s.
Proof.
  destruct c; simpl; intros H; inversion H; subst sn.
  - apply setMagData_erased.
  - apply setGpsData_erased.
  - apply setBaroData_erased.
  - apply setAirspeedData_erased.
  - apply setRangeData_erased.
  - apply setOpticalFlowData_erased.
  - apply setExtVisionData_erased.
  - apply setAuxVelData_erased.
Qed.

(** A member that no sensor intake assigns survives every sensor call. *)
Lemma sensor_call_keeps {A : Type} (f : EstimatorInterface -> A) (c : intake_call)
    (sn : sensor) (s : EstimatorInterface) :
  call_sensor c = Some sn ->
  (forall sn' t, f (sensor_erased sn' t) = f t) ->
  f (run_call c s) = f s.
Proof.
  intros Hc Hf.
  apply (via_erased (sensor_erased sn) f); [apply run_call_erased; exact Hc|apply Hf].
Qed.

(** The initialisation the first IMU call performs: it keeps the parameters
    and the allocation-failure flags, and leaves each sensor buffer as it was
    or releases it. *)
Lemma imu_init_frame (time_usec : Z) (init_alloc : bool * bool * bool)
    (s : EstimatorInterface) :
  let s' := imu_init time_usec init_alloc s in
  _params s' = _params s
  /\ _initialised s' = true
  /\ _drag_buffer_fail s' = _drag_buffer_fail s
  /\ (_mag_buffer s' = _mag_buffer s \/ _mag_buffer s' = RingBuffer.empty)
  /\ (_airspeed_buffer s' = _airspeed_buffer s
      \/ _airspeed_buffer s' = RingBuffer.empty)
  /\ (_range_buffer s' = _range_buffer s \/ _range_buffer s' = RingBuffer.empty)
  /\ (_ext_vision_buffer s' = _ext_vision_buffer s
      \/ _ext_vision_buffer s' = RingBuffer.empty)
  /\ (_auxvel_buffer s' = _auxvel_buffer s \/ _auxvel_buffer s' = RingBuffer.empty).
Proof.
  destruct init_alloc as [[a1 a2] a3]. destruct s.
  cbv beta delta [imu_init init initialise_interface]. ei_norm.
  destruct _initialised0; ei_norm; [repeat split; auto|].
  destruct a1, a2, a3; ei_norm; repeat split; auto.
Qed.

(** ** Failure of the drag buffer allocation *)

Lemma drag_down_sample_latched (x : imuSample) (drag_alloc : bool)
    (s : EstimatorInterface) :
  _drag_buffer_fail s = true -> drag_down_sample x drag_alloc s = s.
Proof.
  intros H. unfold drag_down_sample, drag_enabled. rewrite H.
  rewrite andb_false_r. reflexivity.
Qed.

Lemma drag_down_sample_alloc_fails (x : imuSample) (s : EstimatorInterface) :
  drag_enabled s = true ->
  RingBuffer.get_length (_drag_buffer s) < _obs_buffer_length s ->
  drag_down_sample x false s
  = set_drag_buffer_fail true (set_drag_buffer RingBuffer.empty s).
Proof.
  intros He Hl. apply Z.ltb_lt in Hl.
  unfold drag_down_sample. rewrite He. cbv zeta.
  unfold drag_allocate. rewrite Hl. destruct s. reflexivity.
Qed.

Lemma imu_store_fields (x : imuSample) (s : EstimatorInterface) :
  let s' := imu_store x s in
  let b := RingBuffer.push x (_imu_buffer s) in
  let oldest := RingBuffer.get_oldest (imuSample_zero 0) b in
  _imu_buffer s' = b
  /\ _imu_updated s' = true
  /\ _imu_sample_delayed s' = oldest
  /\ _min_obs_interval_us s'
     = u32 (u64 (imu_time_us (_imu_sample_new s) - imu_time_us oldest)
            / u64 (_obs_buffer_length s - 1)).
Proof. destruct s. repeat split. Qed.

(** The state the IMU blocks reach before the buffer block, and what they
    keep of the object they started from. *)
Lemma before_imu_store {A : Type} (f : EstimatorInterface -> A)
    (time_usec : Z) (x n : imuSample) (s : EstimatorInterface) :
  (forall t, f (timing_erased t) = f t) ->
  (forall t, f (metrics_erased t) = f t) ->
  (forall y t, f (set_imu_sample_new y t) = f t) ->
  f (set_imu_sample_new n (imu_metrics x (imu_timing time_usec s))) = f s.
Proof.
  intros Ht Hm Hn. rewrite Hn.
  rewrite (via_erased metrics_erased f _ _ (imu_metrics_erased _ _) Hm).
  apply (via_erased timing_erased f _ _ (imu_timing_erased _ _) Ht).
Qed.

Ltac by_fields := intros; match goal with t : EstimatorInterface |- _ => destruct t end;
                  reflexivity.

(** Once [_drag_buffer_fail] is set, [setIMUData] is its IMU blocks alone:
    the drag block is skipped. *)
Lemma setIMUData_latched (time_usec delta_ang_dt delta_vel_dt : Z)
    (delta_ang delta_vel : Vector3f) (init_alloc : bool * bool * bool)
    (ci : collect_imu_result) (drag_alloc : bool) (s : EstimatorInterface) :
  _drag_buffer_fail s = true ->
  setIMUData time_usec delta_ang_dt delta_vel_dt delta_ang delta_vel init_alloc ci
    drag_alloc s
  = let s3 :=
      set_imu_sample_new (ci_imu_sample_new ci)
        (imu_metrics
           (mkImuSample delta_ang delta_vel
              (F32.div (F32.of_Z delta_ang_dt) (F32.of_Z 1000000))
              (F32.div (F32.of_Z delta_vel_dt) (F32.of_Z 1000000)) time_usec)
           (imu_timing time_usec (imu_init time_usec init_alloc s))) in
    if ci_ready ci then imu_store (ci_sample ci) s3 else set_imu_updated false s3.
Proof.
  intros H. unfold setIMUData. cbv zeta.
  destruct (ci_ready ci); [|reflexivity].
  apply drag_down_sample_latched.
  rewrite (via_erased store_erased _drag_buffer_fail _ _ (imu_store_erased _ _))
    by by_fields.
  rewrite (before_imu_store _drag_buffer_fail) by by_fields.
  destruct (imu_init_frame time_usec init_alloc s) as (_ & _ & -> & _). exact H.
Qed.

Lemma drag_buffer_fail_latched (c : intake_call) (s : EstimatorInterface) :
  _drag_buffer_fail s = true -> _drag_buffer_fail (run_call c s) = true.
Proof.
  intros H. destruct (call_sensor c) as [sn|] eqn:Hc.
  - rewrite (sensor_call_keeps _drag_buffer_fail c sn s Hc); [exact H|].
    intros [] t; destruct t; reflexivity.
  - destruct c; try discriminate Hc. simpl.
    rewrite setIMUData_latched by exact H. cbv zeta.
    destruct (ci_ready ci).
    + rewrite (via_erased store_erased _drag_buffer_fail _ _ (imu_store_erased _ _))
        by by_fields.
      rewrite (before_imu_store _drag_buffer_fail) by by_fields.
      destruct (imu_init_frame time_usec init_alloc s) as (_ & _ & -> & _). exact H.
    + transitivity
        (_drag_buffer_fail
           (set_imu_sample_new (ci_imu_sample_new ci)
              (imu_metrics
                 (mkImuSample delta_ang delta_vel
                    (F32.div (F32.of_Z delta_ang_dt) (F32.of_Z 1000000))
                    (F32.div (F32.of_Z delta_vel_dt) (F32.of_Z 1000000)) time_usec)
                 (imu_timing time_usec (imu_init time_usec init_alloc s)))));
        [match goal with |- _ (set_imu_updated _ ?t) = _ => destruct t end; reflexivity|].
      rewrite (before_imu_store _drag_buffer_fail) by by_fields.
      destruct (imu_init_frame time_usec init_alloc s) as (_ & _ & -> & _). exact H.
Qed.

Lemma drag_buffer_fail_latched_run (l : list intake_call) (s : EstimatorInterface) :
  _drag_buffer_fail s = true -> _drag_buffer_fail (run_calls l s) = true.
Proof.
  revert s. induction l as [|c l IH]; intros s H; [exact H|].
  simpl. apply IH. apply drag_buffer_fail_latched. exact H.
Qed.

(** C10: when the lazy allocation of the drag buffer fails, [setIMUData]
    returns with [_drag_buffer_fail] latched and with what the call had
    already done in place: the down-sampled sample is in the IMU buffer,
    [_imu_updated] is true, [_imu_sample_delayed] and [_min_obs_interval_us]
    have their new values; the drag accumulators are untouched.  The flag
    stays set through every later call, and a later [setIMUData] is its IMU
    blocks alone, the drag block being skipped.  Throughout,
    [_obs_buffer_length] is not 1, so that the division by
    [_obs_buffer_length - 1], which comes before the allocation, is
    defined. *)
Theorem setIMUData_drag_allocation_failure (time_usec delta_ang_dt delta_vel_dt : Z)
    (delta_ang delta_vel : Vector3f) (init_alloc : bool * bool * bool)
    (ci : collect_imu_result) (s : EstimatorInterface) :
  _initialised s = true ->
  ci_ready ci = true ->
  Z.land (fusion_mode (_params s)) MASK_USE_DRAG <> 0 ->
  _drag_buffer_fail s = false ->
  RingBuffer.get_length (_drag_buffer s) < _obs_buffer_length s ->
  _obs_buffer_length s <> 1 ->
  let s' :=
    setIMUData time_usec delta_ang_dt delta_vel_dt delta_ang delta_vel init_alloc ci
      false s in
  let b := RingBuffer.push (ci_sample ci) (_imu_buffer s) in
  let oldest := RingBuffer.get_oldest (imuSample_zero 0) b in
  (_drag_buffer_fail s' = true
   /\ _imu_buffer s' = b
   /\ _imu_updated s' = true
   /\ _imu_sample_delayed s' = oldest
   /\ _min_obs_interval_us s'
      = u32 (u64 (imu_time_us (ci_imu_sample_new ci) - imu_time_us oldest)
             / u64 (_obs_buffer_length s - 1))
   /\ _drag_sample_count s' = _drag_sample_count s
   /\ _drag_down_sampled s' = _drag_down_sampled s
   /\ _drag_sample_time_dt s' = _drag_sample_time_dt s)
  /\ (forall later : list intake_call, _drag_buffer_fail (run_calls later s') = true)
  /\ (forall t dta dtv da dv ia ci' dr (s2 : EstimatorInterface),
        _drag_buffer_fail s2 = true ->
        _obs_buffer_length (imu_init t ia s2) <> 1 ->
        let s3 :=
          set_imu_sample_new (ci_imu_sample_new ci')
            (imu_metrics
               (mkImuSample da dv (F32.div (F32.of_Z dta) (F32.of_Z 1000000))
                  (F32.div (F32.of_Z dtv) (F32.of_Z 1000000)) t)
               (imu_timing t (imu_init t ia s2))) in
        setIMUData t dta dtv da dv ia ci' dr s2
        = if ci_ready ci' then imu_store (ci_sample ci') s3
          else set_imu_updated false s3).
Proof.
  intros Hi Hr Hb Hf Hl Hdiv s' b oldest.
  set (x := mkImuSample delta_ang delta_vel
              (F32.div (F32.of_Z delta_ang_dt) (F32.of_Z 1000000))
              (F32.div (F32.of_Z delta_vel_dt) (F32.of_Z 1000000)) time_usec).
  set (s3 := set_imu_sample_new (ci_imu_sample_new ci)
               (imu_metrics x (imu_timing time_usec s))).
  set (s4 := imu_store (ci_sample ci) s3).
  assert (E3 : forall A (f : EstimatorInterface -> A),
             (forall t, f (timing_erased t) = f t) ->
             (forall t, f (metrics_erased t) = f t) ->
             (forall y t, f (set_imu_sample_new y t) = f t) ->
             f s3 = f s)
    by (intros A f; apply before_imu_store).
  assert (E4 : forall A (f : EstimatorInterface -> A),
             (forall t, f (store_erased t) = f t) ->
             (forall t, f (timing_erased t) = f t) ->
             (forall t, f (metrics_erased t) = f t) ->
             (forall y t, f (set_imu_sample_new y t) = f t) ->
             f s4 = f s).
  { intros A f H1 H2 H3 H4.
    rewrite <- (E3 A f H2 H3 H4).
    apply (via_erased store_erased f _ _ (imu_store_erased _ _) H1). }
  assert (Es : s' = set_drag_buffer_fail true (set_drag_buffer RingBuffer.empty s4)).
  { subst s'. rewrite setIMUData_initialised by exact Hi. cbv zeta. rewrite Hr.
    apply drag_down_sample_alloc_fails.
    - unfold drag_enabled.
      rewrite (E4 _ (fun t => Z.land (fusion_mode (_params t)) MASK_USE_DRAG))
        by by_fields.
      rewrite (E4 _ _drag_buffer_fail) by by_fields.
      rewrite Hf. apply Z.eqb_neq in Hb. rewrite Hb. reflexivity.
    - rewrite (E4 _ (fun t => RingBuffer.get_length (_drag_buffer t))) by by_fields.
      rewrite (E4 _ _obs_buffer_length) by by_fields. exact Hl. }
  destruct (imu_store_fields (ci_sample ci) s3) as (F1 & F2 & F3 & F4).
  fold s4 in F1, F2, F3, F4.
  assert (Eb : _imu_buffer s3 = _imu_buffer s) by (apply E3; by_fields).
  assert (En : _imu_sample_new s3 = ci_imu_sample_new ci)
    by (subst s3; destruct (imu_metrics x (imu_timing time_usec s)); reflexivity).
  assert (Eo : _obs_buffer_length s3 = _obs_buffer_length s) by (apply E3; by_fields).
  rewrite Eb in F1, F3, F4. rewrite En, Eo in F4. fold b in F1, F3, F4.
  fold oldest in F3, F4.
  split; [|split].
  - rewrite Es.
    assert (P : forall A (f : EstimatorInterface -> A),
               (forall v t, f (set_drag_buffer_fail v t) = f t) ->
               (forall v t, f (set_drag_buffer v t) = f t) ->
               f (set_drag_buffer_fail true (set_drag_buffer RingBuffer.empty s4))
               = f s4)
      by (intros A f H1 H2; rewrite H1, H2; reflexivity).
    split; [reflexivity|].
    rewrite (P _ _imu_buffer), (P _ _imu_updated), (P _ _imu_sample_delayed),
      (P _ _min_obs_interval_us), (P _ _drag_sample_count), (P _ _drag_down_sampled),
      (P _ _drag_sample_time_dt) by by_fields.
    rewrite (E4 _ _drag_sample_count), (E4 _ _drag_down_sampled),
      (E4 _ _drag_sample_time_dt) by by_fields.
    rewrite F1, F2, F3, F4. repeat split; reflexivity.
  - intros later. apply drag_buffer_fail_latched_run.
    rewrite Es. reflexivity.
  - intros. apply setIMUData_latched. assumption.
Qed.

(** ** The drag down-sampler *)

Lemma min_sample_ratio_exact (imu_len obs_len : Z) :
  0 <= imu_len < 256 -> 1 <= obs_len < 256 ->
  min_sample_ratio imu_len obs_len = Z.max 5 (ceil_div imu_len obs_len).
Proof.
  intros Hi Ho.
  assert (H : all_from (Z.to_nat 256) 0
                (fun a => all_from (Z.to_nat 255) 1
                   (fun b => min_sample_ratio a b =? Z.max 5 (ceil_div a b))) = true)
    by (vm_compute; reflexivity).
  apply Z.eqb_eq.
  apply (all_from_sound _ _ _ (all_from_sound _ _ _ H imu_len ltac:(rewrite Z2Nat.id; lia))).
  rewrite Z2Nat.id; lia.
Qed.

(** The drag block of an object whose drag buffer is in service. *)
Lemma drag_down_sample_in_service (x : imuSample) (drag_alloc : bool)
    (s : EstimatorInterface) :
  drag_enabled s = true ->
  _obs_buffer_length s <= RingBuffer.get_length (_drag_buffer s) ->
  drag_down_sample x drag_alloc s = drag_emit (drag_accumulate x s).
Proof.
  intros He Hl. apply Z.ltb_ge in Hl.
  assert (Hf : _drag_buffer_fail s = false).
  { unfold drag_enabled in He. apply andb_true_iff in He.
    destruct He as [_ He]. destruct (_drag_buffer_fail s); [discriminate He|reflexivity]. }
  unfold drag_down_sample. rewrite He. cbv zeta.
  unfold drag_allocate. rewrite Hl, Hf. reflexivity.
Qed.

Lemma fsum_snoc (l : list float) (x : float) : fsum (l ++ [x]) = F32.add (fsum l) x.
Proof. unfold fsum. rewrite fold_left_app. reflexivity. Qed.

Lemma usum_snoc (l : list Z) (x : Z) : usum (l ++ [x]) = u64 (usum l + x).
Proof. unfold usum. rewrite fold_left_app. reflexivity. Qed.

(** One sample through accumulation and emission: below the ratio the
    accumulators grow, at the ratio the mean of the block is pushed and the
    accumulators are reset. *)
Lemma drag_emit_accumulate (x : imuSample) (pre : list imuSample)
    (s : EstimatorInterface) :
  drag_accumulated pre s ->
  Z.of_nat (List.length pre) < 255 ->
  let n := min_sample_ratio (_imu_buffer_length s) (_obs_buffer_length s) in
  let s' := drag_emit (drag_accumulate x s) in
  drag_erased s' = drag_erased s
  /\ _drag_buffer_fail s' = _drag_buffer_fail s
  /\ RingBuffer.length (_drag_buffer s') = RingBuffer.length (_drag_buffer s)
  /\ (if Z.of_nat (List.length pre) + 1 >=? n then
        RingBuffer.pushed (_drag_buffer s')
        = RingBuffer.pushed (_drag_buffer s) ++ [drag_block_mean (pre ++ [x])]
        /\ drag_accumulated [] s'
      else
        RingBuffer.pushed (_drag_buffer s') = RingBuffer.pushed (_drag_buffer s)
        /\ drag_accumulated (pre ++ [x]) s').
Proof.
  intros (Hc & Hd & Ht) Hlen n s'.
  split; [subst s'; rewrite drag_emit_erased; apply drag_accumulate_erased|].
  subst n s'. unfold drag_accumulated, drag_block_mean.
  rewrite !map_app. cbn [map].
  rewrite !fsum_snoc, usum_snoc, length_app, Nat2Z.inj_add.
  change (Z.of_nat (List.length [x])) with 1.
  destruct s. destruct _drag_buffer0 as [dl dh].
  revert Hc Hd Ht. cbv beta delta [drag_emit drag_accumulate drag_mean]. ei_norm.
  intros -> -> ->. ei_norm.
  assert (Hu : u8 (Z.of_nat (List.length pre) + 1) = Z.of_nat (List.length pre) + 1)
    by (unfold u8, wrap; apply Z.mod_small; lia).
  rewrite Hu.
  destruct (Z.of_nat (List.length pre) + 1
            >=? min_sample_ratio _imu_buffer_length0 _obs_buffer_length0);
    ei_norm; repeat split; reflexivity.
Qed.

Lemma drag_view_facts (s s' : EstimatorInterface) :
  drag_view s' = drag_view s ->
  _initialised s' = _initialised s /\ _params s' = _params s
  /\ _drag_buffer_fail s' = _drag_buffer_fail s
  /\ _obs_buffer_length s' = _obs_buffer_length s
  /\ _imu_buffer_length s' = _imu_buffer_length s
  /\ _drag_buffer s' = _drag_buffer s
  /\ _drag_sample_count s' = _drag_sample_count s
  /\ _drag_down_sampled s' = _drag_down_sampled s
  /\ _drag_sample_time_dt s' = _drag_sample_time_dt s.
Proof.
  unfold drag_view. intros H. injection H as H1 H2 H3 H4 H5 H6 H7 H8 H9.
  repeat split; assumption.
Qed.

Lemma drag_view_invariants (pre : list imuSample) (s s' : EstimatorInterface) :
  drag_view s' = drag_view s ->
  drag_in_service s -> drag_accumulated pre s ->
  drag_in_service s' /\ drag_accumulated pre s'
  /\ _imu_buffer_length s' = _imu_buffer_length s
  /\ _obs_buffer_length s' = _obs_buffer_length s
  /\ RingBuffer.pushed (_drag_buffer s') = RingBuffer.pushed (_drag_buffer s).
Proof.
  intros H. apply drag_view_facts in H.
  destruct H as (H1 & H2 & H3 & H4 & H5 & H6 & H7 & H8 & H9).
  unfold drag_in_service, drag_accumulated.
  rewrite H1, H2, H3, H4, H5, H6, H7, H8, H9. intuition.
Qed.

(** The sensor intakes do not touch what the drag down-sampler depends on. *)
Lemma sensor_call_drag_view (c : intake_call) (sn : sensor) (s : EstimatorInterface) :
  call_sensor c = Some sn -> drag_view (run_call c s) = drag_view s.
Proof.
  intros Hc. apply (sensor_call_keeps drag_view c sn s Hc).
  intros [] t; destruct t; reflexivity.
Qed.

(** Nor do the IMU blocks before the drag block. *)
Lemma imu_blocks_drag_view (time_usec : Z) (x n y : imuSample) (s : EstimatorInterface) :
  drag_view (set_imu_sample_new n (imu_metrics x (imu_timing time_usec s)))
  = drag_view s
  /\ drag_view (imu_store y (set_imu_sample_new n (imu_metrics x (imu_timing time_usec s))))
     = drag_view s.
Proof.
  assert (E : drag_view (set_imu_sample_new n (imu_metrics x (imu_timing time_usec s)))
              = drag_view s) by (apply before_imu_store; by_fields).
  split; [exact E|]. rewrite <- E.
  apply (via_erased store_erased drag_view _ _ (imu_store_erased _ _)). by_fields.
Qed.

(** One call, seen from the drag down-sampler. *)
Lemma run_call_drag (c : intake_call) (pre : list imuSample) (s : EstimatorInterface) :
  drag_in_service s ->
  drag_accumulated pre s ->
  Z.of_nat (List.length pre) < 255 ->
  let n := min_sample_ratio (_imu_buffer_length s) (_obs_buffer_length s) in
  let s' := run_call c s in
  drag_in_service s'
  /\ _imu_buffer_length s' = _imu_buffer_length s
  /\ _obs_buffer_length s' = _obs_buffer_length s
  /\ match imu_samples_pushed [c] with
     | [] =>
         RingBuffer.pushed (_drag_buffer s') = RingBuffer.pushed (_drag_buffer s)
         /\ drag_accumulated pre s'
     | x :: _ =>
         if Z.of_nat (List.length pre) + 1 >=? n then
           RingBuffer.pushed (_drag_buffer s')
           = RingBuffer.pushed (_drag_buffer s) ++ [drag_block_mean (pre ++ [x])]
           /\ drag_accumulated [] s'
         else
           RingBuffer.pushed (_drag_buffer s') = RingBuffer.pushed (_drag_buffer s)
           /\ drag_accumulated (pre ++ [x]) s'
     end.
Proof.
  intros Hs Ha Hlen n s'.
  assert (Hsensor : forall sn, call_sensor c = Some sn -> imu_samples_pushed [c] = [])
    by (destruct c; simpl; intros sn Hc; try reflexivity; discriminate Hc).
  destruct (call_sensor c) as [sn|] eqn:Hc.
  - rewrite (Hsensor sn eq_refl).
    destruct (drag_view_invariants pre s s' (sensor_call_drag_view c sn s Hc) Hs Ha)
      as (I1 & I2 & I3 & I4 & I5).
    split; [exact I1|split; [exact I3|split; [exact I4|split; [exact I5|exact I2]]]].
  - destruct c; try discriminate Hc. clear Hsensor Hc.
    subst s'. cbn [run_call].
    rewrite setIMUData_initialised by apply Hs. cbv zeta.
    set (x := mkImuSample _ _ _ _ _).
    destruct (imu_blocks_drag_view time_usec x (ci_imu_sample_new ci) (ci_sample ci) s)
      as [E3 E4].
    set (s3 := set_imu_sample_new (ci_imu_sample_new ci)
                 (imu_metrics x (imu_timing time_usec s))) in *.
    unfold imu_samples_pushed. cbn [flat_map]. rewrite app_nil_r.
    destruct (ci_ready ci).
    + set (s4 := imu_store (ci_sample ci) s3) in *.
      destruct (drag_view_invariants pre s s4 E4 Hs Ha) as (I1 & I2 & I3 & I4 & I5).
      assert (He : drag_enabled s4 = true).
      { destruct I1 as (_ & Hb & Hf & _). unfold drag_enabled. rewrite Hf.
        apply Z.eqb_neq in Hb. rewrite Hb. reflexivity. }
      rewrite drag_down_sample_in_service by (exact He || apply I1).
      destruct (drag_emit_accumulate (ci_sample ci) pre s4 I2 Hlen)
        as (D1 & D2 & D3 & D4).
      rewrite I3, I4 in D4. fold n in D4. rewrite I5 in D4.
      set (s5 := drag_emit (drag_accumulate (ci_sample ci) s4)) in *.
      assert (K : forall A (f : EstimatorInterface -> A),
                 (forall t, f (drag_erased t) = f t) -> f s5 = f s4)
        by (intros A f Hf; apply (via_erased drag_erased f _ _ D1 Hf)).
      split; [|split; [|split]].
      * destruct I1 as (J1 & J2 & J3 & J4).
        unfold drag_in_service, RingBuffer.get_length.
        rewrite (K _ _initialised), (K _ _params), (K _ _obs_buffer_length) by by_fields.
        rewrite D2, D3. repeat split; assumption.
      * rewrite (K _ _imu_buffer_length) by by_fields. exact I3.
      * rewrite (K _ _obs_buffer_length) by by_fields. exact I4.
      * exact D4.
    + assert (E5 : drag_view (set_imu_updated false s3) = drag_view s)
        by (rewrite <- E3; generalize s3; intros []; reflexivity).
      destruct (drag_view_invariants pre s _ E5 Hs Ha) as (I1 & I2 & I3 & I4 & I5).
      split; [exact I1|split; [exact I3|split; [exact I4|split; [exact I5|exact I2]]]].
Qed.

Lemma min_sample_ratio_bounds (imu_len obs_len : Z) :
  5 <= min_sample_ratio imu_len obs_len <= 255.
Proof.
  unfold min_sample_ratio.
  set (r := F32.to_u8 _).
  assert (Hr : 0 <= r < 256).
  { subst r. unfold F32.to_u8. destruct (F32.trunc _); [|lia].
    unfold u8, wrap. apply Z.mod_pos_bound. reflexivity. }
  cbv zeta. destruct (Z.ltb_spec r 5); lia.
Qed.

Lemma imu_samples_pushed_cons (c : intake_call) (l : list intake_call) :
  imu_samples_pushed (c :: l) = imu_samples_pushed [c] ++ imu_samples_pushed l.
Proof. unfold imu_samples_pushed. simpl. rewrite app_nil_r. reflexivity. Qed.

Lemma imu_samples_pushed_one (c : intake_call) :
  imu_samples_pushed [c] = [] \/ exists x, imu_samples_pushed [c] = [x].
Proof.
  destruct c; simpl; auto. destruct (ci_ready ci); simpl; eauto.
Qed.

(** A sequence of calls, seen from the drag down-sampler: the samples pushed
    to the IMU buffer, after those already accumulated, fall into consecutive
    blocks of the ratio; each block has emitted its mean and the remainder is
    in the accumulators. *)
Lemma run_calls_drag (l : list intake_call) :
  forall (pre : list imuSample) (s : EstimatorInterface),
    drag_in_service s ->
    drag_accumulated pre s ->
    let n := min_sample_ratio (_imu_buffer_length s) (_obs_buffer_length s) in
    Z.of_nat (List.length pre) < n ->
    exists blocks rest,
      pre ++ imu_samples_pushed l = concat blocks ++ rest
      /\ Forall (fun b => Z.of_nat (List.length b) = n) blocks
      /\ Z.of_nat (List.length rest) < n
      /\ RingBuffer.pushed (_drag_buffer (run_calls l s))
         = RingBuffer.pushed (_drag_buffer s) ++ map drag_block_mean blocks
      /\ drag_accumulated rest (run_calls l s).
Proof.
  induction l as [|c l IH]; intros pre s Hs Ha n Hlen.
  - exists [], pre. simpl. rewrite !app_nil_r.
    split; [reflexivity|]. split; [constructor|]. split; [exact Hlen|].
    split; [reflexivity|exact Ha].
  - pose proof (min_sample_ratio_bounds (_imu_buffer_length s) (_obs_buffer_length s))
      as Hn. fold n in Hn.
    destruct (run_call_drag c pre s Hs Ha ltac:(lia)) as (S1 & L1 & L2 & Hc).
    fold n in Hc.
    rewrite imu_samples_pushed_cons. cbn [run_calls fold_left].
    change (fold_left (fun s c => run_call c s) l (run_call c s))
      with (run_calls l (run_call c s)).
    assert (En : min_sample_ratio (_imu_buffer_length (run_call c s))
                                  (_obs_buffer_length (run_call c s)) = n)
      by (rewrite L1, L2; reflexivity).
    destruct (imu_samples_pushed_one c) as [E|[x E]]; rewrite E in Hc |- *.
    + destruct Hc as [Hp Ha'].
      destruct (IH pre (run_call c s) S1 Ha' ltac:(rewrite En; exact Hlen))
        as (blocks & rest & H1 & H2 & H3 & H4 & H5).
      rewrite En in H2, H3. rewrite Hp in H4.
      exists blocks, rest.
      split; [exact H1|]. split; [exact H2|]. split; [exact H3|].
      split; [exact H4|exact H5].
    + destruct (Z.geb_spec (Z.of_nat (List.length pre) + 1) n) as [Hge|Hlt].
      * destruct Hc as [Hp Ha'].
        destruct (IH [] (run_call c s) S1 Ha' ltac:(rewrite En; simpl; lia))
          as (blocks & rest & H1 & H2 & H3 & H4 & H5).
        rewrite En in H2, H3. rewrite Hp in H4. simpl in H1.
        exists ((pre ++ [x]) :: blocks), rest.
        split; [|split; [|split; [exact H3|split; [|exact H5]]]].
        -- simpl. rewrite H1. rewrite <- !app_assoc. reflexivity.
        -- constructor; [|exact H2].
           rewrite length_app, Nat2Z.inj_add. simpl. lia.
        -- rewrite H4. simpl. rewrite <- app_assoc. reflexivity.
      * destruct Hc as [Hp Ha'].
        destruct (IH (pre ++ [x]) (run_call c s) S1 Ha'
                    ltac:(rewrite En, length_app, Nat2Z.inj_add; simpl; lia))
          as (blocks & rest & H1 & H2 & H3 & H4 & H5).
        rewrite En in H2, H3. rewrite Hp in H4.
        exists blocks, rest.
        split; [|split; [exact H2|split; [exact H3|split; [exact H4|exact H5]]]].
        rewrite <- H1, <- app_assoc. reflexivity.
Qed.

Lemma blocks_count {A : Type} (n : Z) (blocks : list (list A)) (rest : list A) :
  0 < n ->
  Forall (fun b => Z.of_nat (List.length b) = n) blocks ->
  Z.of_nat (List.length rest) < n ->
  Z.of_nat (List.length blocks) = Z.of_nat (List.length (concat blocks ++ rest)) / n.
Proof.
  intros Hn Hb Hr.
  assert (Hc : Z.of_nat (List.length (concat blocks)) = n * Z.of_nat (List.length blocks)).
  { induction Hb as [|b bs Hb Hbs IH]; [simpl; lia|].
    simpl concat. rewrite length_app, Nat2Z.inj_add, IH, Hb. simpl List.length. lia. }
  rewrite length_app, Nat2Z.inj_add, Hc.
  apply (Z.div_unique _ _ _ (Z.of_nat (List.length rest))); lia.
Qed.

(** C6: with drag fusion selected and the drag buffer allocated, the samples
    pushed to the IMU buffer are accumulated ([delta_vel[0..1]], [time_us],
    [delta_vel_dt]) and each time the count reaches
    [N = max(5, ⌈imu_buffer_length / obs_buffer_length⌉)] one drag sample is
    pushed, whose [accelXY] is the accumulated delta-velocity divided by the
    accumulated [delta_vel_dt] and whose [time_us] is the accumulated time
    divided by the count, and the accumulators are reset.  Hence [k] such
    samples emit [⌊k / N⌋] drag samples.  The observation buffer length is
    at least 2: at 1 the division by [_obs_buffer_length - 1] that precedes
    the drag block is undefined and the block is not reached. *)
Theorem drag_down_sampler_emits (l : list intake_call) (s : EstimatorInterface) :
  drag_in_service s ->
  drag_accumulated [] s ->
  0 <= _imu_buffer_length s < 256 ->
  2 <= _obs_buffer_length s < 256 ->
  let N := Z.max 5 (ceil_div (_imu_buffer_length s) (_obs_buffer_length s)) in
  let xs := imu_samples_pushed l in
  let s' := run_calls l s in
  exists blocks rest,
    xs = concat blocks ++ rest
    /\ Forall (fun b => Z.of_nat (List.length b) = N) blocks
    /\ Z.of_nat (List.length rest) < N
    /\ RingBuffer.pushed (_drag_buffer s')
       = RingBuffer.pushed (_drag_buffer s) ++ map drag_block_mean blocks
    /\ drag_accumulated rest s'
    /\ Z.of_nat (List.length blocks) = Z.of_nat (List.length xs) / N.
Proof.
  intros Hs Ha Hi Ho N xs s'.
  assert (EN : min_sample_ratio (_imu_buffer_length s) (_obs_buffer_length s) = N)
    by (apply min_sample_ratio_exact; [assumption|lia]).
  destruct (run_calls_drag l [] s Hs Ha ltac:(rewrite EN; simpl; lia))
    as (blocks & rest & H1 & H2 & H3 & H4 & H5).
  rewrite EN in H2, H3. simpl in H1. fold xs in H1.
  exists blocks, rest.
  split; [exact H1|]. split; [exact H2|]. split; [exact H3|].
  split; [exact H4|]. split; [exact H5|].
  rewrite H1. apply blocks_count; [lia|exact H2|exact H3].
Qed.

(** ** Order of the stored time stamps *)

Lemma sensor_stamp_exact (sn : sensor) (p : parameters) (t : Z) :
  0 <= FILTER_UPDATE_PERIOD_MS ->
  0 <= sensor_delay_ms sn p ->
  sensor_offset sn p <= t < 2 ^ 64 ->
  sensor_stamp sn p t = t - sensor_offset sn p.
Proof.
  intros Hf Hd Ht.
  assert (Hh : 0 <= half_update_period_us)
    by (unfold half_update_period_us; apply Z.quot_pos; lia).
  assert (Hw : forall x, 0 <= x < 2 ^ 64 -> u64 x = x)
    by (intros x Hx; unfold u64, wrap; apply Z.mod_small; exact Hx).
  unfold sensor_stamp, sensor_offset, backdated in *.
  destruct sn; rewrite (Hw (t - _ * 1000)) by lia; try rewrite Hw by lia; lia.
Qed.

Lemma stamps_of_any {T : Type} (time_us : T -> Z) (before after : list T) (x : T)
    (P : Prop) :
  after = before \/ after = []
  \/ (P /\ exists pre, (pre = before \/ pre = []) /\ after = pre ++ [x]) ->
  map time_us after = map time_us before \/ map time_us after = []
  \/ (exists pre, (pre = map time_us before \/ pre = [])
        /\ map time_us after = pre ++ [time_us x]).
Proof.
  intros [->|[->|(_ & pre & Hp & ->)]]; auto.
  right; right. exists (map time_us pre). rewrite map_app. split; [|reflexivity].
  destruct Hp as [->| ->]; auto.
Qed.

(** What a call does to the time stamps in the buffer of a fixed-delay
    sensor: nothing, or the buffer is released, or the stamp of the presented
    sample is appended, possibly to freshly reserved storage. *)
Lemma run_call_stamps (c : intake_call) (sn : sensor) (s : EstimatorInterface) :
  fixed_delay_sensor sn = true ->
  let before := sensor_stamps sn s in
  let after := sensor_stamps sn (run_call c s) in
  _params (run_call c s) = _params s
  /\ (after = before \/ after = []
      \/ (call_sensor c = Some sn
          /\ exists pre, (pre = before \/ pre = [])
             /\ after = pre ++ [sensor_stamp sn (_params s) (call_time c)])).
Proof.
  intros Hfix before after.
  assert (Himu : call_sensor c = None ->
                 _params (run_call c s) = _params s
                 /\ (after = before \/ after = [])).
  { destruct c; try discriminate. intros _. subst before after. cbn [run_call].
    pose proof (setIMUData_erased time_usec delta_ang_dt delta_vel_dt delta_ang
                  delta_vel init_alloc ci drag_alloc s) as E.
    destruct (imu_init_frame time_usec init_alloc s)
      as (P & _ & _ & B1 & B2 & B3 & B4 & B5).
    split.
    - rewrite (via_erased imu_erased _params _ _ E) by by_fields. exact P.
    - rewrite (via_erased imu_erased (sensor_stamps sn) _ _ E)
        by (intros t; destruct sn, t; reflexivity).
      destruct sn; try discriminate Hfix; unfold sensor_stamps.
      + destruct B1 as [-> | ->]; auto.
      + destruct B2 as [-> | ->]; auto.
      + destruct B3 as [-> | ->]; auto.
      + destruct B4 as [-> | ->]; auto.
      + destruct B5 as [-> | ->]; auto. }
  destruct (call_sensor c) as [sn'|] eqn:Hc;
    [|destruct (Himu eq_refl) as [P [H|H]]; auto].
  clear Himu. split.
  - apply (sensor_call_keeps _params c sn' s Hc). intros [] t; destruct t; reflexivity.
  - destruct (sensor_eqb sn sn') eqn:Heq.
    + assert (sn' = sn) by (destruct sn, sn'; try discriminate Heq; reflexivity).
      subst sn'. subst before after.
      destruct c; try discriminate Hc; injection Hc as <-; try discriminate Hfix;
        cbn [run_call call_time]; unfold sensor_stamps, sensor_stamp;
        cbn [sensor_delay_ms].
      * destruct (stamps_of_any mag_time_us _ _ _ _
                    (setMagData_any time_usec data alloc_ok s)) as [H|[H|H]]; auto.
      * destruct (stamps_of_any airspeed_time_us _ _ _ _
                    (setAirspeedData_any time_usec true_airspeed eas2tas alloc_ok s))
          as [H|[H|H]]; auto.
      * destruct (stamps_of_any range_time_us _ _ _ _
                    (setRangeData_any time_usec data alloc_ok s)) as [H|[H|H]]; auto.
      * destruct (stamps_of_any ev_time_us _ _ _ _
                    (setExtVisionData_any time_usec evdata alloc_ok s))
          as [H|[H|H]]; auto.
      * destruct (stamps_of_any auxvel_time_us _ _ _ _
                    (setAuxVelData_any time_usec data variance alloc_ok s))
          as [H|[H|H]]; auto.
    + left. subst before after.
      apply (via_erased (sensor_erased sn') (sensor_stamps sn));
        [apply run_call_erased; exact Hc|].
      intros t. destruct sn, sn', t; try discriminate Heq; reflexivity.
Qed.

Lemma presented_cons (sn : sensor) (c : intake_call) (l : list intake_call) :
  presented sn (c :: l)
  = match call_sensor c with
    | Some sn' => if sensor_eqb sn sn' then call_time c :: presented sn l
                  else presented sn l
    | None => presented sn l
    end.
Proof.
  unfold presented. cbn [flat_map].
  destruct (call_sensor c) as [sn'|]; [|reflexivity].
  destruct (sensor_eqb sn sn'); reflexivity.
Qed.

Lemma sensor_eqb_refl (sn : sensor) : sensor_eqb sn sn = true.
Proof. destruct sn; reflexivity. Qed.

Lemma StronglySorted_snoc (l : list Z) (x : Z) :
  StronglySorted Z.le l -> Forall (fun y => y <= x) l -> StronglySorted Z.le (l ++ [x]).
Proof.
  induction 1 as [|a l Hs IH Ha]; intros Hx; simpl.
  - repeat constructor.
  - inversion Hx as [|? ? Hax Hlx]; subst.
    constructor; [apply IH; exact Hlx|].
    apply Forall_app. split; [exact Ha|]. constructor; [exact Hax|constructor].
Qed.

(** ** Initialisation and the first IMU sample *)

Lemma setIMUData_sets_initialised (time_usec delta_ang_dt delta_vel_dt : Z)
    (delta_ang delta_vel : Vector3f) (init_alloc : bool * bool * bool)
    (ci : collect_imu_result) (drag_alloc : bool) (s : EstimatorInterface) :
  _initialised
    (setIMUData time_usec delta_ang_dt delta_vel_dt delta_ang delta_vel init_alloc ci
       drag_alloc s) = true.
Proof.
  rewrite (after_imu_timing _initialised) by by_fields.
  rewrite (via_erased timing_erased _initialised _ _ (imu_timing_erased _ _))
    by by_fields.
  apply imu_init_frame.
Qed.

(** C9: a successful [initialise_interface] zeroes [_dt_imu_avg], the fault
    status and the per-sensor [_time_last_*] members it assigns, sets the
    delayed IMU sample to zero increments at the given time stamp and leaves
    [_initialised] false, which no sensor intake changes and which the next
    [setIMUData] sets.  [_time_last_auxvel] is not among the members
    assigned: it keeps the value it had. *)
Theorem initialise_interface_resets (timestamp : Z) (alloc : bool * bool * bool)
    (s : EstimatorInterface) :
  fst (initialise_interface timestamp alloc s) = true ->
  let s' := snd (initialise_interface timestamp alloc s) in
  (_dt_imu_avg s' = F32.zero
   /\ _imu_sample_delayed s' = imuSample_zero timestamp
   /\ _initialised s' = false
   /\ _fault_status_value s' = 0
   /\ _time_last_imu s' = 0 /\ _time_last_gps s' = 0 /\ _time_last_mag s' = 0
   /\ _time_last_baro s' = 0 /\ _time_last_range s' = 0 /\ _time_last_airspeed s' = 0
   /\ _time_last_optflow s' = 0 /\ _time_last_ext_vision s' = 0)
  /\ _time_last_auxvel s' = _time_last_auxvel s
  /\ (forall c sn, call_sensor c = Some sn -> _initialised (run_call c s') = false)
  /\ (forall t dta dtv da dv ia ci dr,
        _initialised (setIMUData t dta dtv da dv ia ci dr s') = true).
Proof.
  intros H s'.
  destruct (initialise_interface_success_fields timestamp alloc s H)
    as (H1 & H2 & H3 & H4 & H5 & H6 & H7 & H8 & H9 & H10 & H11 & H12 & H13).
  fold s' in H1, H2, H3, H4, H5, H6, H7, H8, H9, H10, H11, H12, H13.
  split; [repeat split; assumption|]. split; [exact H13|]. split.
  - intros c sn Hc.
    rewrite (sensor_call_keeps _initialised c sn s' Hc); [exact H3|].
    intros [] t; destruct t; reflexivity.
  - intros. apply setIMUData_sets_initialised.
Qed.

(** * Further properties of the intake routines *)

(** ** The prologue *)

Lemma sensor_ready_iff (sn : sensor) (s : EstimatorInterface) :
  sensor_ready sn s
  <-> _initialised s = true /\ sensor_fail sn s = false
      /\ _obs_buffer_length s <= sensor_capacity sn s.
Proof. destruct sn; reflexivity. Qed.

Lemma run_call_off (c : intake_call) (sn : sensor) (s : EstimatorInterface) :
  call_sensor c = Some sn ->
  _initialised s = false \/ sensor_fail sn s = true ->
  run_call c s = s.
Proof.
  intros Hc H. destruct c; try discriminate Hc; injection Hc as <-; cbn [run_call].
  - apply setMagData_off; exact H.
  - apply setGpsData_off; exact H.
  - apply setBaroData_off; exact H.
  - apply setAirspeedData_off; exact H.
  - apply setRangeData_off; exact H.
  - apply setOpticalFlowData_off; exact H.
  - apply setExtVisionData_off; exact H.
  - apply setAuxVelData_off; exact H.
Qed.

(** X1: a sensor whose buffer allocation has failed is out of service: its
    intake returns at once and the object is left exactly as it was. *)
Theorem failed_sensor_call_ignored (c : intake_call) (sn : sensor)
    (s : EstimatorInterface) :
  call_sensor c = Some sn ->
  sensor_fail sn s = true ->
  run_call c s = s.
Proof. intros Hc H. apply (run_call_off c sn s Hc). right. exact H. Qed.

(** X3: before the first IMU sample has initialised the object, sensor data
    are discarded: any sequence of sensor intake calls leaves the object
    exactly as it was. *)
Theorem uninitialised_sensor_calls_ignored (l : list intake_call)
    (s : EstimatorInterface) :
  Forall (fun c => call_sensor c <> None) l ->
  _initialised s = false ->
  run_calls l s = s.
Proof.
  intros Hl Hi. induction Hl as [|c l Hc Hl IH]; [reflexivity|].
  cbn [run_calls fold_left].
  destruct (call_sensor c) as [sn|] eqn:E; [|contradiction].
  rewrite (run_call_off c sn s E) by (left; exact Hi). exact IH.
Qed.

(** ** A call on a sensor in service *)

Ltac ready_case :=
  match goal with
  | |- context [if ?c then _ else _] =>
      destruct c eqn:?; [right|left; split; reflexivity]
  end;
  (split; [reflexivity|]);
  match goal with s : EstimatorInterface |- _ => destruct s end;
  repeat split; eexists; apply map_push.

(** A call on a sensor in service either is refused and changes nothing, or
    stores one sample and records the arrival time. *)
Lemma run_call_ready_cases (c : intake_call) (sn : sensor) (s : EstimatorInterface) :
  call_sensor c = Some sn ->
  sensor_ready sn s ->
  let pass := (u64 (call_time c - sensor_time_last sn s) >? _min_obs_interval_us s)
              && call_gates c s in
  (pass = false /\ run_call c s = s)
  \/ (pass = true
      /\ sensor_time_last sn (run_call c s) = call_time c
      /\ sensor_fail sn (run_call c s) = sensor_fail sn s
      /\ sensor_capacity sn (run_call c s) = sensor_capacity sn s
      /\ exists x, sensor_stamps sn (run_call c s) = sensor_stamps sn s ++ [x]).
Proof.
  intros Hc Hr.
  destruct c; simpl in Hc; inversion Hc; subst sn; clear Hc;
    simpl in Hr; simpl run_call; simpl call_time; simpl sensor_time_last;
    simpl call_gates; unfold sensor_stamps, sensor_fail, sensor_capacity;
    rewrite ?Bool.andb_true_r.
  - rewrite setMagData_ready by exact Hr. ready_case.
  - rewrite setGpsData_ready by exact Hr. rewrite <- Bool.andb_assoc. ready_case.
  - rewrite setBaroData_ready by exact Hr. ready_case.
  - rewrite setAirspeedData_ready by exact Hr. ready_case.
  - rewrite setRangeData_ready by exact Hr. ready_case.
  - rewrite setOpticalFlowData_ready by exact Hr.
    destruct (u64 (time_usec - _time_last_optflow s) >? _min_obs_interval_us s);
      cbn [andb]; [|left; split; reflexivity].
    ready_case.
  - rewrite setExtVisionData_ready by exact Hr. ready_case.
  - rewrite setAuxVelData_ready by exact Hr. ready_case.
Qed.

(** ** Reserving a sensor's buffer at first use *)

Lemma run_call_alloc (c : intake_call) (sn : sensor) (s : EstimatorInterface) :
  call_sensor c = Some sn ->
  _initialised s = true ->
  sensor_fail sn s = false ->
  sensor_capacity sn s < _obs_buffer_length s ->
  (call_alloc_ok c = true -> run_call c s = run_call c (sensor_allocated sn s))
  /\ (call_alloc_ok c = false ->
      sensor_fail sn (run_call c s) = true
      /\ sensor_capacity sn (run_call c s) = 0
      /\ sensor_stamps sn (run_call c s) = []
      /\ sensor_time_last sn (run_call c s) = sensor_time_last sn s).
Proof.
  intros Hc Hi Hf Hl.
  destruct c; simpl in Hc; inversion Hc; subst sn; clear Hc;
    cbn [sensor_fail sensor_capacity] in Hf, Hl;
    cbn [run_call call_alloc_ok sensor_allocated].
  - rewrite (setMagData_alloc _ _ _ s Hi Hf Hl).
    split; intros ->; [reflexivity|destruct s; repeat split].
  - rewrite (setGpsData_alloc _ _ _ _ _ s Hi Hf Hl).
    split; intros ->; [reflexivity|destruct s; repeat split].
  - rewrite (setBaroData_alloc _ _ _ s Hi Hf Hl).
    split; intros ->; [reflexivity|destruct s; repeat split].
  - rewrite (setAirspeedData_alloc _ _ _ _ s Hi Hf Hl).
    split; intros ->; [reflexivity|destruct s; repeat split].
  - rewrite (setRangeData_alloc _ _ _ s Hi Hf Hl).
    split; intros ->; [reflexivity|destruct s; repeat split].
  - rewrite (setOpticalFlowData_alloc _ _ _ _ s Hi Hf Hl).
    split; intros ->; [reflexivity|destruct s; repeat split].
  - rewrite (setExtVisionData_alloc _ _ _ s Hi Hf Hl).
    split; intros ->; [reflexivity|destruct s; repeat split].
  - rewrite (setAuxVelData_alloc _ _ _ _ s Hi Hf Hl).
    split; intros ->; [reflexivity|destruct s; repeat split].
Qed.

Lemma sensor_allocated_facts (c : intake_call) (sn : sensor) (s : EstimatorInterface) :
  let a := sensor_allocated sn s in
  _initialised a = _initialised s
  /\ sensor_fail sn a = sensor_fail sn s
  /\ sensor_capacity sn a = _obs_buffer_length s
  /\ _obs_buffer_length a = _obs_buffer_length s
  /\ sensor_stamps sn a = []
  /\ sensor_time_last sn a = sensor_time_last sn s
  /\ call_passes c sn a = call_passes c sn s.
Proof. destruct sn, s; repeat split; destruct c; reflexivity. Qed.

(** X4: when the reservation of a sensor's buffer at its first use fails, the
    sample is dropped, the failure flag is set and the buffer is left
    released; from then on every call for that sensor leaves the object as
    it is. *)
Theorem failed_allocation_takes_sensor_out_of_service (c : intake_call) (sn : sensor)
    (s : EstimatorInterface) :
  call_sensor c = Some sn ->
  _initialised s = true ->
  sensor_fail sn s = false ->
  sensor_capacity sn s < _obs_buffer_length s ->
  call_alloc_ok c = false ->
  let s' := run_call c s in
  sensor_fail sn s' = true
  /\ sensor_capacity sn s' = 0
  /\ sensor_stamps sn s' = []
  /\ sensor_time_last sn s' = sensor_time_last sn s
  /\ forall l, Forall (fun c' => call_sensor c' = Some sn) l -> run_calls l s' = s'.
Proof.
  intros Hc Hi Hf Hl Ha s'.
  destruct (run_call_alloc c sn s Hc Hi Hf Hl) as (_ & H).
  destruct (H Ha) as (F & C & S & T). fold s' in F, C, S, T.
  repeat split; try assumption.
  intros l Hall. induction Hall as [|c' l Hc' _ IH]; [reflexivity|].
  cbn [run_calls fold_left].
  rewrite (run_call_off c' sn s' Hc') by (right; exact F). exact IH.
Qed.

(** X5: when the reservation succeeds the buffer gets the capacity
    [_obs_buffer_length] and is in service; the sample of the reserving call
    is subject to the rate limit and the gates like any other, so the buffer
    then holds that sample alone, or nothing. *)
Theorem first_use_reserves_obs_buffer_length (c : intake_call) (sn : sensor)
    (s : EstimatorInterface) :
  call_sensor c = Some sn ->
  _initialised s = true ->
  sensor_fail sn s = false ->
  sensor_capacity sn s < _obs_buffer_length s ->
  call_alloc_ok c = true ->
  let s' := run_call c s in
  sensor_ready sn s'
  /\ sensor_capacity sn s' = _obs_buffer_length s
  /\ (if call_passes c sn s
      then (exists x, sensor_stamps sn s' = [x]) /\ sensor_time_last sn s' = call_time c
      else sensor_stamps sn s' = [] /\ sensor_time_last sn s' = sensor_time_last sn s).
Proof.
  intros Hc Hi Hf Hl Ha s'.
  destruct (run_call_alloc c sn s Hc Hi Hf Hl) as (H & _).
  specialize (H Ha). subst s'. rewrite H.
  destruct (sensor_allocated_facts c sn s) as (Ai & Af & Ac & Ao & As & At & Ap).
  assert (Hr : sensor_ready sn (sensor_allocated sn s)).
  { apply sensor_ready_iff. rewrite Ai, Af, Ac, Ao. repeat split; [assumption..|lia]. }
  assert (Hk : _obs_buffer_length (run_call c (sensor_allocated sn s))
               = _obs_buffer_length s).
  { rewrite (sensor_call_keeps _obs_buffer_length c sn _ Hc)
      by (intros sn' t; destruct sn', t; reflexivity).
    exact Ao. }
  destruct (run_call_ready_cases c sn _ Hc Hr) as [(P & E)|(P & T & F & C & x & S)];
    fold (call_passes c sn (sensor_allocated sn s)) in P; rewrite Ap in P; rewrite P.
  - rewrite E. repeat split; [exact Hr|exact Ac|exact As|exact At].
  - repeat split.
    + apply sensor_ready_iff. rewrite Hk, C, F, Ac, Af.
      rewrite (sensor_call_keeps _initialised c sn _ Hc)
        by (intros sn' t; destruct sn', t; reflexivity).
      rewrite Ai. repeat split; [assumption..|lia].
    + rewrite C. exact Ac.
    + exists x. rewrite S, As. reflexivity.
    + exact T.
Qed.

(** ** What a call leaves alone *)

Lemma imu_init_initialised (time_usec : Z) (init_alloc : bool * bool * bool)
    (s : EstimatorInterface) :
  _initialised s = true -> imu_init time_usec init_alloc s = s.
Proof. intros H. unfold imu_init. rewrite H. reflexivity. Qed.

(** A member outside the IMU and drag blocks survives [setIMUData] on an
    initialised object. *)
Lemma imu_call_keeps {A : Type} (f : EstimatorInterface -> A)
    (time_usec delta_ang_dt delta_vel_dt : Z)
    (delta_ang delta_vel : Vector3f) (init_alloc : bool * bool * bool)
    (ci : collect_imu_result) (drag_alloc : bool) (s : EstimatorInterface) :
  _initialised s = true ->
  (forall t, f (imu_erased t) = f t) ->
  f (setIMUData time_usec delta_ang_dt delta_vel_dt delta_ang delta_vel init_alloc ci
       drag_alloc s) = f s.
Proof.
  intros Hi Hf. apply (via_erased imu_erased f); [|exact Hf].
  rewrite setIMUData_erased, imu_init_initialised by exact Hi. reflexivity.
Qed.

Lemma run_call_keeps {A : Type} (f : EstimatorInterface -> A) (c : intake_call)
    (s : EstimatorInterface) :
  _initialised s = true ->
  (forall t, f (imu_erased t) = f t) ->
  (forall sn t, f (sensor_erased sn t) = f t) ->
  f (run_call c s) = f s.
Proof.
  intros Hi Himu Hsn. destruct (call_sensor c) as [sn|] eqn:Hc.
  - apply (sensor_call_keeps f c sn s Hc Hsn).
  - destruct c; try discriminate Hc. cbn [run_call].
    apply imu_call_keeps; assumption.
Qed.

Lemma run_call_stays_initialised (c : intake_call) (s : EstimatorInterface) :
  _initialised s = true -> _initialised (run_call c s) = true.
Proof.
  intros Hi. rewrite (run_call_keeps _initialised c s Hi); [exact Hi|by_fields|].
  intros sn t; destruct sn, t; reflexivity.
Qed.

Lemma run_calls_keeps {A : Type} (f : EstimatorInterface -> A) (l : list intake_call)
    (s : EstimatorInterface) :
  _initialised s = true ->
  (forall t, f (imu_erased t) = f t) ->
  (forall sn t, f (sensor_erased sn t) = f t) ->
  f (run_calls l s) = f s.
Proof.
  intros Hi Himu Hsn. revert s Hi.
  induction l as [|c l IH]; intros s Hi; [reflexivity|].
  cbn [run_calls fold_left]. fold (run_calls l (run_call c s)).
  rewrite IH by (apply run_call_stays_initialised; exact Hi).
  apply run_call_keeps; assumption.
Qed.

(** X6: a sensor intake assigns nothing but its own buffer, its failure flag
    and its last accepted arrival time (and, for GPS, [_gps_speed_valid]):
    with those members blanked the object after the call is the object
    before it, whatever the call did. *)
Theorem sensor_call_assigns_own_members (c : intake_call) (sn : sensor)
    (s : EstimatorInterface) :
  call_sensor c = Some sn ->
  sensor_erased sn (run_call c s) = sensor_erased sn s.
Proof. apply run_call_erased. Qed.

(** X7: on an initialised object [setIMUData] assigns nothing but the members
    of its IMU and drag blocks; in particular no sensor buffer, failure flag
    or arrival time is touched. *)
Theorem setIMUData_assigns_imu_members (time_usec delta_ang_dt delta_vel_dt : Z)
    (delta_ang delta_vel : Vector3f) (init_alloc : bool * bool * bool)
    (ci : collect_imu_result) (drag_alloc : bool) (s : EstimatorInterface) :
  _initialised s = true ->
  let s' := setIMUData time_usec delta_ang_dt delta_vel_dt delta_ang delta_vel
              init_alloc ci drag_alloc s in
  imu_erased s' = imu_erased s
  /\ forall sn, sensor_stamps sn s' = sensor_stamps sn s
                /\ sensor_capacity sn s' = sensor_capacity sn s
                /\ sensor_fail sn s' = sensor_fail sn s
                /\ sensor_time_last sn s' = sensor_time_last sn s.
Proof.
  intros Hi s'. split.
  - subst s'. rewrite setIMUData_erased, imu_init_initialised by exact Hi. reflexivity.
  - intros sn. subst s'.
    repeat split; apply imu_call_keeps; try exact Hi; intros t; destruct sn, t;
      reflexivity.
Qed.

(** X8: while the object is in service its configuration is fixed: no
    sequence of intake calls changes [_initialised], the parameters or the two
    buffer lengths. *)
Theorem configuration_fixed_in_service (l : list intake_call) (s : EstimatorInterface) :
  _initialised s = true ->
  configuration (run_calls l s) = configuration s.
Proof.
  intros Hi. apply run_calls_keeps; [exact Hi|by_fields|].
  intros sn t; destruct sn, t; reflexivity.
Qed.

(** X9: the intake routines do not decide the validity of the local position:
    [local_position_is_valid] answers the same before and after any sequence
    of intake calls on an object in service. *)
Theorem intake_keeps_local_position_validity (l : list intake_call)
    (s : EstimatorInterface) :
  _initialised s = true ->
  local_position_is_valid (run_calls l s) = local_position_is_valid s.
Proof.
  intros Hi. apply run_calls_keeps; [exact Hi|by_fields|].
  intros sn t; destruct sn, t; reflexivity.
Qed.

(** ** The allocation-failure flags *)

Lemma initialise_interface_keeps_fail (timestamp : Z) (alloc : bool * bool * bool)
    (sn : sensor) (s : EstimatorInterface) :
  sensor_fail sn (snd (initialise_interface timestamp alloc s)) = sensor_fail sn s
  /\ _drag_buffer_fail (snd (initialise_interface timestamp alloc s))
     = _drag_buffer_fail s.
Proof.
  destruct alloc as [[a1 a2] a3]. destruct s.
  cbv beta delta [initialise_interface]. ei_norm.
  destruct a1, a2, a3; ei_norm; destruct sn; split; reflexivity.
Qed.

Lemma imu_init_keeps_fail (time_usec : Z) (init_alloc : bool * bool * bool)
    (sn : sensor) (s : EstimatorInterface) :
  sensor_fail sn (imu_init time_usec init_alloc s) = sensor_fail sn s.
Proof.
  unfold imu_init. destruct (negb (_initialised s)); [|reflexivity].
  transitivity (sensor_fail sn (init time_usec init_alloc s)).
  - destruct sn, (init time_usec init_alloc s); reflexivity.
  - unfold init. apply initialise_interface_keeps_fail.
Qed.

Lemma sensor_fail_latched (c : intake_call) (sn : sensor) (s : EstimatorInterface) :
  sensor_fail sn s = true -> sensor_fail sn (run_call c s) = true.
Proof.
  intros H. destruct (call_sensor c) as [sn'|] eqn:Hc.
  - destruct (sensor_eqb sn sn') eqn:E.
    + assert (sn' = sn) as -> by (destruct sn, sn'; try discriminate E; reflexivity).
      rewrite (run_call_off c sn s Hc) by (right; exact H). exact H.
    + rewrite (via_erased (sensor_erased sn') (sensor_fail sn) _ _
                 (run_call_erased c sn' s Hc)); [exact H|].
      intros t; destruct sn, sn', t; try discriminate E; reflexivity.
  - destruct c; try discriminate Hc. cbn [run_call].
    rewrite (via_erased imu_erased (sensor_fail sn) _ _ (setIMUData_erased _ _ _ _ _ _ _ _ _))
      by (intros t; destruct sn, t; reflexivity).
    rewrite imu_init_keeps_fail. exact H.
Qed.

(** X2: an allocation failure is permanent.  [initialise_interface] leaves
    all nine failure flags as they are, whether it succeeds or not, and a
    sensor's flag, once set, stays set through every sequence of intake
    calls, a re-initialisation by the IMU intake included: nothing in the
    file clears it. *)
Theorem allocation_failure_is_permanent (sn : sensor) (s : EstimatorInterface) :
  (forall timestamp alloc,
     sensor_fail sn (snd (initialise_interface timestamp alloc s)) = sensor_fail sn s
     /\ _drag_buffer_fail (snd (initialise_interface timestamp alloc s))
        = _drag_buffer_fail s)
  /\ (sensor_fail sn s = true ->
      forall l, sensor_fail sn (run_calls l s) = true).
Proof.
  split; [intros; apply initialise_interface_keeps_fail|].
  intros H l. revert s H.
  induction l as [|c l IH]; intros s H; [exact H|].
  cbn [run_calls fold_left]. apply IH. apply sensor_fail_latched. exact H.
Qed.

(** ** The IMU buffer *)

Lemma setIMUData_imu_buffer (time_usec delta_ang_dt delta_vel_dt : Z)
    (delta_ang delta_vel : Vector3f) (init_alloc : bool * bool * bool)
    (ci : collect_imu_result) (drag_alloc : bool) (s : EstimatorInterface) :
  let s' := setIMUData time_usec delta_ang_dt delta_vel_dt delta_ang delta_vel
              init_alloc ci drag_alloc s in
  let s0 := imu_init time_usec init_alloc s in
  _imu_updated s' = ci_ready ci
  /\ _imu_buffer s'
     = (if ci_ready ci then RingBuffer.push (ci_sample ci) (_imu_buffer s0)
        else _imu_buffer s0)
  /\ _imu_sample_new s' = ci_imu_sample_new ci
  /\ _delta_ang_prev s' = delta_ang
  /\ _delta_vel_prev s' = delta_vel
  /\ _time_last_imu s' = time_usec
  /\ _imu_ticks s' = (if ci_ready ci then 0 else u32 (_imu_ticks s0 + 1)).
Proof.
  cbv zeta. unfold setIMUData. cbv zeta.
  generalize (imu_init time_usec init_alloc s). clear s. intros s.
  set (x := mkImuSample _ _ _ _ _).
  set (s3 := set_imu_sample_new (ci_imu_sample_new ci)
               (imu_metrics x (imu_timing time_usec s))).
  assert (B : _imu_buffer s3 = _imu_buffer s)
    by (apply (before_imu_store _imu_buffer); by_fields).
  assert (N : _imu_sample_new s3 = ci_imu_sample_new ci)
    by (subst s3; destruct (imu_metrics x (imu_timing time_usec s)); reflexivity).
  assert (DA : _delta_ang_prev s3 = delta_ang).
  { subst s3.
    transitivity (_delta_ang_prev (imu_metrics x (imu_timing time_usec s)));
      [destruct (imu_metrics x (imu_timing time_usec s)); reflexivity|].
    destruct (imu_timing time_usec s); reflexivity. }
  assert (DV : _delta_vel_prev s3 = delta_vel).
  { subst s3.
    transitivity (_delta_vel_prev (imu_metrics x (imu_timing time_usec s)));
      [destruct (imu_metrics x (imu_timing time_usec s)); reflexivity|].
    destruct (imu_timing time_usec s); reflexivity. }
  assert (T : _time_last_imu s3 = time_usec).
  { subst s3.
    transitivity (_time_last_imu (imu_metrics x (imu_timing time_usec s)));
      [destruct (imu_metrics x (imu_timing time_usec s)); reflexivity|].
    rewrite (via_erased metrics_erased _time_last_imu _ _ (imu_metrics_erased _ _))
      by by_fields.
    destruct s. unfold imu_timing. ei_norm.
    destruct (time_usec >? 0); reflexivity. }
  assert (TK : _imu_ticks s3 = u32 (_imu_ticks s + 1)).
  { subst s3.
    transitivity (_imu_ticks (imu_metrics x (imu_timing time_usec s)));
      [destruct (imu_metrics x (imu_timing time_usec s)); reflexivity|].
    transitivity (u32 (_imu_ticks (imu_timing time_usec s) + 1));
      [destruct (imu_timing time_usec s); reflexivity|].
    rewrite (via_erased timing_erased _imu_ticks _ _ (imu_timing_erased _ _))
      by by_fields.
    reflexivity. }
  clearbody s3. destruct (ci_ready ci).
  - set (s4 := imu_store (ci_sample ci) s3).
    assert (K : forall A (f : EstimatorInterface -> A),
              (forall t, f (drag_erased t) = f t) ->
              f (drag_down_sample (ci_sample ci) drag_alloc s4) = f s4).
    { intros A f Hf.
      apply (via_erased drag_erased f); [apply drag_down_sample_erased|exact Hf]. }
    rewrite (K _ _imu_updated), (K _ _imu_buffer), (K _ _imu_sample_new),
      (K _ _delta_ang_prev), (K _ _delta_vel_prev), (K _ _time_last_imu),
      (K _ _imu_ticks) by by_fields.
    subst s4. rewrite <- B, <- N, <- DA, <- DV, <- T.
    destruct s3; repeat split.
  - rewrite <- B, <- N, <- DA, <- DV, <- T, <- TK. destruct s3; repeat split.
Qed.

(** X10: whatever else happens in the call, [setIMUData] reports in
    [_imu_updated] exactly whether [collect_imu] delivered a down-sampled
    sample, records the raw increments as [_delta_ang_prev] and
    [_delta_vel_prev] and the time as [_time_last_imu]; on an object in
    service the IMU buffer receives the down-sampled sample and nothing
    else, also when the drag buffer cannot be allocated, and [_imu_ticks]
    counts the calls since the last down-sampled sample. *)
Theorem setIMUData_bookkeeping (time_usec delta_ang_dt delta_vel_dt : Z)
    (delta_ang delta_vel : Vector3f) (init_alloc : bool * bool * bool)
    (ci : collect_imu_result) (drag_alloc : bool) (s : EstimatorInterface) :
  let s' := setIMUData time_usec delta_ang_dt delta_vel_dt delta_ang delta_vel
              init_alloc ci drag_alloc s in
  _imu_updated s' = ci_ready ci
  /\ _delta_ang_prev s' = delta_ang
  /\ _delta_vel_prev s' = delta_vel
  /\ _time_last_imu s' = time_usec
  /\ (_initialised s = true ->
      _imu_buffer s'
      = (if ci_ready ci then RingBuffer.push (ci_sample ci) (_imu_buffer s)
         else _imu_buffer s)
      /\ _imu_ticks s' = (if ci_ready ci then 0 else u32 (_imu_ticks s + 1))).
Proof.
  intros s'.
  destruct (setIMUData_imu_buffer time_usec delta_ang_dt delta_vel_dt delta_ang
              delta_vel init_alloc ci drag_alloc s) as (U & B & _ & DA & DV & T & K).
  fold s' in U, B, DA, DV, T, K. repeat split; try assumption.
  - rewrite B, imu_init_initialised by assumption. reflexivity.
  - rewrite K, imu_init_initialised by assumption. reflexivity.
Qed.

Lemma run_call_imu_buffer (c : intake_call) (s : EstimatorInterface) :
  _initialised s = true ->
  RingBuffer.length (_imu_buffer (run_call c s)) = RingBuffer.length (_imu_buffer s)
  /\ RingBuffer.pushed (_imu_buffer (run_call c s))
     = RingBuffer.pushed (_imu_buffer s) ++ imu_samples_pushed [c].
Proof.
  intros Hi. destruct (call_sensor c) as [sn|] eqn:Hc.
  - rewrite (sensor_call_keeps _imu_buffer c sn s Hc)
      by (intros sn' t; destruct sn', t; reflexivity).
    destruct c; try discriminate Hc; cbn [imu_samples_pushed flat_map];
      rewrite app_nil_r; split; reflexivity.
  - destruct c; try discriminate Hc. cbn [run_call].
    destruct (setIMUData_imu_buffer time_usec delta_ang_dt delta_vel_dt delta_ang
                delta_vel init_alloc ci drag_alloc s) as (_ & B & _).
    rewrite B, imu_init_initialised by exact Hi.
    cbn [imu_samples_pushed flat_map]. rewrite app_nil_r.
    destruct (ci_ready ci); [|rewrite app_nil_r; split; reflexivity].
    split; reflexivity.
Qed.

(** X11: over any sequence of intake calls on an object in service the IMU
    buffer keeps its capacity and its history grows by exactly the
    down-sampled samples [collect_imu] delivered, in order: sensor calls and
    IMU calls without a down-sampled sample add nothing. *)
Theorem imu_buffer_history (l : list intake_call) (s : EstimatorInterface) :
  _initialised s = true ->
  RingBuffer.length (_imu_buffer (run_calls l s)) = RingBuffer.length (_imu_buffer s)
  /\ RingBuffer.pushed (_imu_buffer (run_calls l s))
     = RingBuffer.pushed (_imu_buffer s) ++ imu_samples_pushed l.
Proof.
  revert s. induction l as [|c l IH]; intros s Hi.
  - cbn. rewrite app_nil_r. split; reflexivity.
  - cbn [run_calls fold_left]. fold (run_calls l (run_call c s)).
    destruct (IH (run_call c s) (run_call_stays_initialised c s Hi)) as (L & P).
    destruct (run_call_imu_buffer c s Hi) as (L1 & P1).
    rewrite L, P, L1, P1, <- app_assoc, <- imu_samples_pushed_cons.
    split; reflexivity.
Qed.

(** ** A sensor in service stays in service *)

Lemma sensor_eqb_eq (a b : sensor) : sensor_eqb a b = true -> a = b.
Proof. destruct a, b; try discriminate; reflexivity. Qed.

Lemma run_call_in_service (c : intake_call) (sn : sensor) (s : EstimatorInterface) :
  sensor_ready sn s ->
  sensor_ready sn (run_call c s)
  /\ sensor_capacity sn (run_call c s) = sensor_capacity sn s
  /\ exists suffix,
       sensor_stamps sn (run_call c s) = sensor_stamps sn s ++ suffix
       /\ (length suffix <= length (presented sn [c]))%nat.
Proof.
  intros Hr. pose proof Hr as Hr0. apply sensor_ready_iff in Hr0.
  destruct Hr0 as (Hi & Hf & Hl).
  set (view := fun t => (_initialised t, sensor_fail sn t, _obs_buffer_length t,
                         sensor_capacity sn t, sensor_stamps sn t)).
  assert (Same : view (run_call c s) = view s ->
                 sensor_ready sn (run_call c s)
                 /\ sensor_capacity sn (run_call c s) = sensor_capacity sn s
                 /\ exists suffix,
                      sensor_stamps sn (run_call c s) = sensor_stamps sn s ++ suffix
                      /\ (length suffix <= length (presented sn [c]))%nat).
  { intros V. unfold view in V. injection V as V1 V2 V3 V4 V5.
    split; [|split; [exact V4|]].
    - apply sensor_ready_iff. rewrite V1, V2, V3, V4. repeat split; assumption.
    - exists []. rewrite app_nil_r. split; [exact V5|apply Nat.le_0_l]. }
  destruct (call_sensor c) as [sn'|] eqn:Hc.
  - destruct (sensor_eqb sn sn') eqn:E.
    + apply sensor_eqb_eq in E. subst sn'.
      destruct (run_call_ready_cases c sn s Hc Hr) as [(_ & ->)|(_ & T & F & C & x & S)].
      * repeat split; [exact Hr|]. exists []. rewrite app_nil_r.
        split; [reflexivity|apply Nat.le_0_l].
      * split; [|split; [exact C|]].
        -- apply sensor_ready_iff. rewrite F, C.
           rewrite (sensor_call_keeps _initialised c sn s Hc)
             by (intros sn' t; destruct sn', t; reflexivity).
           rewrite (sensor_call_keeps _obs_buffer_length c sn s Hc)
             by (intros sn' t; destruct sn', t; reflexivity).
           repeat split; assumption.
        -- exists [x]. split; [exact S|].
           unfold presented. cbn [flat_map]. rewrite Hc, sensor_eqb_refl.
           cbn. apply Nat.le_refl.
    + apply Same.
      apply (via_erased (sensor_erased sn') view _ _ (run_call_erased c sn' s Hc)).
      intros t; destruct sn, sn', t; try discriminate E; reflexivity.
  - apply Same. destruct c; try discriminate Hc. cbn [run_call].
    apply imu_call_keeps; [exact Hi|].
    intros t; destruct sn, t; reflexivity.
Qed.

(** X12: a sensor buffer in service is never re-allocated, released or
    emptied by the intake routines.  Through any sequence of intake calls it
    stays in service with the same capacity, its history keeps every sample
    it had and grows by at most one sample per call made for that sensor. *)
Theorem sensor_in_service_stays_in_service (sn : sensor) (l : list intake_call)
    (s : EstimatorInterface) :
  sensor_ready sn s ->
  sensor_ready sn (run_calls l s)
  /\ sensor_capacity sn (run_calls l s) = sensor_capacity sn s
  /\ exists suffix,
       sensor_stamps sn (run_calls l s) = sensor_stamps sn s ++ suffix
       /\ (length suffix <= length (presented sn l))%nat.
Proof.
  revert s. induction l as [|c l IH]; intros s Hr.
  - repeat split; [exact Hr|]. exists []. rewrite app_nil_r.
    split; [reflexivity|apply Nat.le_0_l].
  - cbn [run_calls fold_left]. fold (run_calls l (run_call c s)).
    destruct (run_call_in_service c sn s Hr) as (R1 & C1 & suf1 & S1 & N1).
    destruct (IH (run_call c s) R1) as (R & C & suf & S & N).
    split; [exact R|]. split; [rewrite C; exact C1|].
    exists (suf1 ++ suf). split.
    + rewrite S, S1, app_assoc. reflexivity.
    + assert (P : presented sn (c :: l) = presented sn [c] ++ presented sn l)
        by (unfold presented; cbn [flat_map]; rewrite app_nil_r; reflexivity).
      rewrite P, !length_app. apply Nat.add_le_mono; assumption.
Qed.

(** ** The rate limit over two calls *)

(** X13: two samples of one sensor stored by consecutive calls are more than
    [_min_obs_interval_us] apart in arrival time (as an unsigned
    difference): the rate limit measures from the last accepted arrival. *)
Theorem consecutive_accepted_samples_are_spaced (c1 c2 : intake_call) (sn : sensor)
    (s : EstimatorInterface) :
  call_sensor c1 = Some sn ->
  call_sensor c2 = Some sn ->
  sensor_ready sn s ->
  length (sensor_stamps sn (run_call c2 (run_call c1 s)))
  = S (S (length (sensor_stamps sn s))) ->
  _min_obs_interval_us s < u64 (call_time c1 - sensor_time_last sn s)
  /\ _min_obs_interval_us s < u64 (call_time c2 - call_time c1).
Proof.
  intros H1 H2 Hr Hlen.
  destruct (run_call_in_service c1 sn s Hr) as (R1 & _).
  assert (K : _min_obs_interval_us (run_call c1 s) = _min_obs_interval_us s)
    by (apply (sensor_call_keeps _min_obs_interval_us c1 sn s H1);
        intros sn' t; destruct sn', t; reflexivity).
  destruct (run_call_ready_cases c1 sn s H1 Hr) as [(_ & E1)|(P1 & T1 & _ & _ & x1 & S1)].
  - exfalso. rewrite E1 in Hlen.
    destruct (run_call_ready_cases c2 sn s H2 Hr) as [(_ & E2)|(_ & _ & _ & _ & x2 & S2)].
    + rewrite E2 in Hlen. lia.
    + rewrite S2, length_app in Hlen. cbn [length] in Hlen. lia.
  - destruct (run_call_ready_cases c2 sn _ H2 R1) as [(_ & E2)|(P2 & _)].
    + exfalso. rewrite E2, S1, length_app in Hlen. cbn [length] in Hlen. lia.
    + rewrite T1, K in P2.
      apply andb_prop in P1, P2. destruct P1 as (P1 & _), P2 as (P2 & _).
      apply Z.gtb_lt in P1, P2. split; assumption.
Qed.

(** X14: the rate limit takes the difference of unsigned 64-bit times, so a
    sample presented with a time earlier than the last accepted arrival is
    not held back: the difference wraps to a large value, the sample is
    stored and the recorded arrival time moves backwards. *)
Theorem earlier_time_passes_rate_limit (c : intake_call) (sn : sensor)
    (s : EstimatorInterface) :
  call_sensor c = Some sn ->
  sensor_ready sn s ->
  call_gates c s = true ->
  0 <= call_time c < sensor_time_last sn s ->
  sensor_time_last sn s < 2 ^ 64 ->
  _min_obs_interval_us s < 2 ^ 64 - (sensor_time_last sn s - call_time c) ->
  sensor_time_last sn (run_call c s) = call_time c
  /\ exists x, sensor_stamps sn (run_call c s) = sensor_stamps sn s ++ [x].
Proof.
  intros Hc Hr Hg Ht Hlast Hm.
  assert (W : u64 (call_time c - sensor_time_last sn s)
              = call_time c - sensor_time_last sn s + 2 ^ 64).
  { unfold u64, wrap. symmetry. apply (Z.mod_unique _ _ (-1)); lia. }
  destruct (run_call_ready_cases c sn s Hc Hr) as [(P & _)|(_ & T & _ & _ & S)].
  - exfalso. rewrite Hg, Bool.andb_true_r, W in P.
    rewrite Z.gtb_ltb, Z.ltb_ge in P. lia.
  - split; assumption.
Qed.

(** ** Initialisation: outcome, capacities and the failure path *)

Lemma u8_range (x : Z) : 0 <= u8 x < 256.
Proof. unfold u8, wrap. change (2 ^ 8) with 256. apply Z.mod_pos_bound. lia. Qed.

(** X15: [initialise_interface] succeeds exactly when the three allocations
    it attempts succeed.  When it fails every buffer of the object is
    released, the sensor buffers included, while the reset of the timing
    state has not taken place: [_initialised], the averages, the delayed
    sample and every last-arrival time are what they were.  The two buffer
    lengths have been overwritten all the same. *)
Theorem initialise_interface_failure (timestamp : Z) (a1 a2 a3 : bool)
    (s : EstimatorInterface) :
  fst (initialise_interface timestamp (a1, a2, a3) s) = a1 && a2 && a3
  /\ (a1 && a2 && a3 = false ->
      let s' := snd (initialise_interface timestamp (a1, a2, a3) s) in
      (forall sn, sensor_capacity sn s' = 0 /\ sensor_stamps sn s' = []
                  /\ sensor_time_last sn s' = sensor_time_last sn s)
      /\ RingBuffer.get_length (_imu_buffer s') = 0
      /\ RingBuffer.get_length (_output_buffer s') = 0
      /\ RingBuffer.get_length (_output_vert_buffer s') = 0
      /\ RingBuffer.get_length (_drag_buffer s') = 0
      /\ _initialised s' = _initialised s
      /\ _time_last_imu s' = _time_last_imu s
      /\ _dt_imu_avg s' = _dt_imu_avg s
      /\ _imu_sample_delayed s' = _imu_sample_delayed s
      /\ _imu_ticks s' = _imu_ticks s
      /\ _fault_status_value s' = _fault_status_value s
      /\ _imu_buffer_length s'
         = _imu_buffer_length (snd (initialise_interface timestamp (true, true, true) s))
      /\ _obs_buffer_length s'
         = _obs_buffer_length (snd (initialise_interface timestamp (true, true, true) s))).
Proof.
  split.
  - destruct s. cbv beta delta [initialise_interface]. ei_norm.
    destruct a1, a2, a3; reflexivity.
  - intros H. cbv zeta.
    rewrite !initialise_interface_imu_buffer_length,
      !initialise_interface_obs_buffer_length.
    destruct s. cbv beta delta [initialise_interface]. ei_norm.
    destruct a1, a2, a3; try discriminate H; ei_norm;
      (split; [intros sn; destruct sn; repeat split|repeat split]).
Qed.

(** X16: with a positive update period and a positive minimum sensor
    interval, so that both divisions of the routine are defined,
    [initialise_interface] leaves the observation buffer length no greater
    than the IMU buffer length, and both within the range of their 8-bit
    type, whatever the delays and the outcome of the allocations. *)
Theorem obs_buffer_length_at_most_imu_buffer_length (timestamp : Z)
    (alloc : bool * bool * bool) (s : EstimatorInterface) :
  0 < FILTER_UPDATE_PERIOD_MS ->
  0 < sensor_interval_min_ms (_params s) ->
  let s' := snd (initialise_interface timestamp alloc s) in
  0 <= _obs_buffer_length s' <= _imu_buffer_length s' /\ _imu_buffer_length s' < 256.
Proof.
  intros _ _. cbv zeta.
  rewrite initialise_interface_imu_buffer_length,
    initialise_interface_obs_buffer_length, math_min_Zmin.
  pose proof (u8_range (Z.quot (max_time_delay_ms (_params s))
                               FILTER_UPDATE_PERIOD_MS + 1)).
  pose proof (u8_range (Z.quot (ekf_delay_ms (max_time_delay_ms (_params s)))
                               (sensor_interval_min_ms (_params s)) + 1)).
  lia.
Qed.

(** X17: on success the IMU buffer and the two output buffers have the
    capacity [_imu_buffer_length]; the sensor buffers and the drag buffer are
    not reserved here but left as they are, to be reserved at first use;
    [_initialised] is false on return, to be set by the caller. *)
Theorem initialise_interface_success_capacities (timestamp : Z)
    (alloc : bool * bool * bool) (s : EstimatorInterface) :
  fst (initialise_interface timestamp alloc s) = true ->
  let s' := snd (initialise_interface timestamp alloc s) in
  RingBuffer.get_length (_imu_buffer s') = _imu_buffer_length s'
  /\ RingBuffer.get_length (_output_buffer s') = _imu_buffer_length s'
  /\ RingBuffer.get_length (_output_vert_buffer s') = _imu_buffer_length s'
  /\ _drag_buffer s' = _drag_buffer s
  /\ (forall sn, sensor_capacity sn s' = sensor_capacity sn s
                 /\ sensor_stamps sn s' = sensor_stamps sn s)
  /\ _initialised s' = false.
Proof.
  destruct alloc as [[a1 a2] a3]. destruct s.
  destruct _imu_buffer0 as [l1 p1], _output_buffer0 as [l2 p2],
    _output_vert_buffer0 as [l3 p3].
  cbv beta delta [initialise_interface]. ei_norm.
  destruct a1, a2, a3; ei_norm; intros H; try discriminate H.
  repeat match goal with
         | |- context [?a =? ?b] => destruct (Z.eqb_spec a b)
         end; ei_norm;
    (repeat split; try assumption; try (intros sn; destruct sn; split; reflexivity)).
Qed.

(** ** Drag fusion not selected *)

Lemma run_call_drag_disabled (c : intake_call) (s : EstimatorInterface) :
  _initialised s = true ->
  Z.land (fusion_mode (_params s)) MASK_USE_DRAG = 0 ->
  drag_members (run_call c s) = drag_members s.
Proof.
  intros Hi Hm. destruct (call_sensor c) as [sn|] eqn:Hc.
  - apply (sensor_call_keeps drag_members c sn s Hc).
    intros sn' t; destruct sn', t; reflexivity.
  - destruct c; try discriminate Hc. cbn [run_call].
    rewrite setIMUData_initialised by exact Hi. cbv zeta.
    set (s3 := set_imu_sample_new _ _).
    assert (D3 : drag_members s3 = drag_members s)
      by (apply (before_imu_store drag_members); by_fields).
    assert (P3 : _params s3 = _params s)
      by (apply (before_imu_store _params); by_fields).
    clearbody s3. destruct (ci_ready ci).
    + set (s4 := imu_store (ci_sample ci) s3).
      assert (D4 : drag_members s4 = drag_members s3)
        by (apply (via_erased store_erased drag_members _ _ (imu_store_erased _ _));
            by_fields).
      assert (P4 : _params s4 = _params s3)
        by (apply (via_erased store_erased _params _ _ (imu_store_erased _ _));
            by_fields).
      clearbody s4. unfold drag_down_sample, drag_enabled.
      rewrite P4, P3, Hm. cbn [Z.eqb negb andb]. rewrite D4. exact D3.
    + rewrite <- D3. destruct s3; reflexivity.
Qed.

(** X18: while drag fusion is not selected in [fusion_mode], no sequence of
    intake calls on an object in service touches the drag down-sampler: the
    drag buffer is not reserved, nothing is accumulated, and the failure
    flag is as it was. *)
Theorem drag_untouched_when_not_selected (l : list intake_call)
    (s : EstimatorInterface) :
  _initialised s = true ->
  Z.land (fusion_mode (_params s)) MASK_USE_DRAG = 0 ->
  drag_members (run_calls l s) = drag_members s.
Proof.
  revert s. induction l as [|c l IH]; intros s Hi Hm; [reflexivity|].
  cbn [run_calls fold_left]. fold (run_calls l (run_call c s)).
  assert (K : configuration (run_call c s) = configuration s).
  { apply run_call_keeps; [exact Hi|by_fields|].
    intros sn t; destruct sn, t; reflexivity. }
  unfold configuration in K. injection K as K1 K2 _ _.
  rewrite IH; [apply run_call_drag_disabled; assumption| |].
  - rewrite K1. exact Hi.
  - rewrite K2. exact Hm.
Qed.

(** ** Optical flow on the ground *)

Lemma F32_sub_self (x : float) : F32.is_finite x = true -> F32.sub x x = F32.zero.
Proof.
  destruct x as [s|s| |s m e]; try discriminate; intros _.
  - destruct s; reflexivity.
  - unfold F32.sub, SFsub. rewrite Z.min_id.
    unfold shl_align. rewrite Z.sub_diag. reflexivity.
Qed.

Lemma F32_opp_finite (x : float) : F32.is_finite (F32.opp x) = F32.is_finite x.
Proof. destruct x; reflexivity. Qed.

Lemma setOpticalFlowData_accepts (time_usec : Z) (flow : flow_message) (alloc_ok : bool)
    (uninit : imuSample) (s : EstimatorInterface) :
  sensor_ready Flow s ->
  _min_obs_interval_us s < u64 (time_usec - _time_last_optflow s) ->
  flow_gate flow s = true ->
  RingBuffer.pushed (_flow_buffer (setOpticalFlowData time_usec flow alloc_ok uninit s))
  = RingBuffer.pushed (_flow_buffer s) ++ [optflow_sample_new time_usec flow uninit s].
Proof.
  intros Hr Ht Hg. rewrite setOpticalFlowData_ready by exact Hr.
  apply Z.gtb_lt in Ht. rewrite Ht, Hg. destruct s; reflexivity.
Qed.

(** X19: on the ground a flow sample of poor quality is not discarded but
    neutralised.  With the driver's gyro rates finite about X and Y, the
    stored sample carries the negated gyro rates as flow and a compensated
    flow of exactly zero. *)
Theorem ground_poor_quality_flow_is_zeroed (time_usec : Z) (flow : flow_message)
    (alloc_ok : bool) (uninit : imuSample) (s : EstimatorInterface) :
  sensor_ready Flow s ->
  _min_obs_interval_us s < u64 (time_usec - _time_last_optflow s) ->
  _control_status_in_air s = false ->
  flowm_quality flow < flow_qual_min (_params s) ->
  F32.is_finite (v3_0 (flowm_gyrodata flow)) = true ->
  F32.is_finite (v3_1 (flowm_gyrodata flow)) = true ->
  exists x,
    RingBuffer.pushed
      (_flow_buffer (setOpticalFlowData time_usec flow alloc_ok uninit s))
    = RingBuffer.pushed (_flow_buffer s) ++ [x]
    /\ flow_quality x = flowm_quality flow
    /\ flow_flowRadXY x
       = mkVector2f (F32.opp (v3_0 (flowm_gyrodata flow)))
                    (F32.opp (v3_1 (flowm_gyrodata flow)))
    /\ flow_gyroXYZ x = Vector3f_neg (flowm_gyrodata flow)
    /\ flow_flowRadXYcomp x = mkVector2f F32.zero F32.zero.
Proof.
  intros Hr Ht Hair Hq H0 H1.
  exists (optflow_sample_new time_usec flow uninit s). split.
  - apply setOpticalFlowData_accepts; [exact Hr|exact Ht|].
    unfold flow_gate. rewrite Hair. apply Bool.orb_true_r.
  - assert (Q : flow_quality_good flow s = false)
      by (unfold flow_quality_good; rewrite Z.geb_leb; apply Z.leb_gt; exact Hq).
    assert (G : no_gyro flow = false) by (unfold no_gyro; rewrite H0; reflexivity).
    unfold optflow_sample_new, flow_gyro_source. cbv zeta. rewrite Q, G.
    cbn [flow_quality flow_flowRadXY flow_gyroXYZ flow_flowRadXYcomp v2_0 v2_1].
    repeat split. unfold Vector3f_neg. cbn [v3_0 v3_1].
    rewrite !F32_sub_self by (rewrite F32_opp_finite; assumption). reflexivity.
Qed.

(** X20: a flow sample whose integration time is below half the minimum
    observation interval is refused in the air, but on the ground it is
    stored, with its integration time replaced by that lower bound. *)
Theorem short_integration_flow (time_usec : Z) (flow : flow_message)
    (alloc_ok : bool) (uninit : imuSample) (s : EstimatorInterface) :
  sensor_ready Flow s ->
  _min_obs_interval_us s < u64 (time_usec - _time_last_optflow s) ->
  flow_delta_time_good flow s = false ->
  let s' := setOpticalFlowData time_usec flow alloc_ok uninit s in
  if _control_status_in_air s then s' = s
  else exists x,
      RingBuffer.pushed (_flow_buffer s') = RingBuffer.pushed (_flow_buffer s) ++ [x]
      /\ flow_dt x = flow_delta_time_min s
      /\ _time_last_optflow s' = time_usec.
Proof.
  intros Hr Ht Hd s'. destruct (_control_status_in_air s) eqn:Hair.
  - subst s'. rewrite setOpticalFlowData_ready by exact Hr.
    unfold flow_gate. rewrite Hd, Hair. cbn [andb orb negb].
    destruct (_ >? _); reflexivity.
  - exists (optflow_sample_new time_usec flow uninit s). split; [|split].
    + apply setOpticalFlowData_accepts; [exact Hr|exact Ht|].
      unfold flow_gate. rewrite Hair. apply Bool.orb_true_r.
    + unfold optflow_sample_new. cbv zeta. cbn [flow_dt].
      unfold flow_delta_time. rewrite Hd. reflexivity.
    + subst s'. rewrite setOpticalFlowData_ready by exact Hr.
      apply Z.gtb_lt in Ht. rewrite Ht. unfold flow_gate. rewrite Hair.
      rewrite Bool.orb_true_r. destruct s; reflexivity.
Qed.

(** ** The divisor of the minimum observation interval *)

Lemma u16_range (x : Z) : 0 <= u16 x < 65536.
Proof. unfold u16, wrap. change (2 ^ 16) with 65536. apply Z.mod_pos_bound. lia. Qed.

(** X21: [setIMUData] divides by [_obs_buffer_length - 1] to obtain
    [_min_obs_interval_us].  With a positive update period and minimum sensor
    interval and lengths that fit their 8-bit fields, the length
    [initialise_interface] computes is at least 1, and it is exactly 1, the
    divisor then being zero, precisely when the largest configured delay is
    below the update period or the EKF delay is below the minimum sensor
    interval. *)
Theorem obs_buffer_length_one_iff (timestamp : Z) (alloc : bool * bool * bool)
    (s : EstimatorInterface) :
  0 < FILTER_UPDATE_PERIOD_MS ->
  0 < sensor_interval_min_ms (_params s) ->
  max_time_delay_ms (_params s) / FILTER_UPDATE_PERIOD_MS < 255 ->
  ekf_delay_ms (max_time_delay_ms (_params s)) / sensor_interval_min_ms (_params s)
  < 255 ->
  let s' := snd (initialise_interface timestamp alloc s) in
  1 <= _obs_buffer_length s'
  /\ (_obs_buffer_length s' - 1 = 0
      <-> max_time_delay_ms (_params s) < FILTER_UPDATE_PERIOD_MS
          \/ ekf_delay_ms (max_time_delay_ms (_params s))
             < sensor_interval_min_ms (_params s)).
Proof.
  intros Hf Hi Hm He. cbv zeta.
  rewrite initialise_interface_obs_buffer_length, math_min_Zmin.
  set (m := max_time_delay_ms (_params s)) in *.
  set (e := ekf_delay_ms m) in *.
  set (i := sensor_interval_min_ms (_params s)) in *.
  assert (Hm0 : 0 <= m) by (subst m; unfold max_time_delay_ms; apply u16_range).
  assert (He0 : 0 <= e) by (subst e; unfold ekf_delay_ms; apply u16_range).
  rewrite !Z.quot_div_nonneg by lia.
  pose proof (Z.div_pos m FILTER_UPDATE_PERIOD_MS Hm0 Hf) as Qm.
  pose proof (Z.div_pos e i He0 Hi) as Qe.
  assert (W : forall x, 0 <= x < 255 -> u8 (x + 1) = x + 1)
    by (intros x Hx; unfold u8, wrap; apply Z.mod_small; lia).
  rewrite !W by lia.
  assert (Dm : m / FILTER_UPDATE_PERIOD_MS = 0 <-> m < FILTER_UPDATE_PERIOD_MS)
    by (rewrite Z.div_small_iff by lia; lia).
  assert (De : e / i = 0 <-> e < i) by (rewrite Z.div_small_iff by lia; lia).
  split; [lia|]. split.
  - intros H. destruct (Z.eq_dec (m / FILTER_UPDATE_PERIOD_MS) 0) as [E|E];
      [left; apply Dm; exact E|right; apply De; lia].
  - intros [H|H]; [apply Dm in H|apply De in H]; lia.
Qed.

(** ** Releasing the buffers *)

Lemma unallocate_buffers_facts (sn : sensor) (s : EstimatorInterface) :
  let s' := unallocate_buffers s in
  _initialised s' = _initialised s
  /\ sensor_fail sn s' = sensor_fail sn s
  /\ _obs_buffer_length s' = _obs_buffer_length s
  /\ sensor_capacity sn s' = 0
  /\ sensor_time_last sn s' = sensor_time_last sn s.
Proof. destruct sn, s; repeat split. Qed.

(** X22: [unallocate_buffers] releases the sensor buffers and nothing more:
    flags and times stay.  On an initialised object whose sensor has not
    failed, the next intake call for the sensor reserves the buffer again
    with the capacity [_obs_buffer_length], and the sample of that call is
    held to the rate limit against the arrival time recorded before the
    release. *)
Theorem intake_after_unallocate_reserves_again (c : intake_call) (sn : sensor)
    (s : EstimatorInterface) :
  call_sensor c = Some sn ->
  _initialised s = true ->
  sensor_fail sn s = false ->
  0 < _obs_buffer_length s ->
  call_alloc_ok c = true ->
  let s' := run_call c (unallocate_buffers s) in
  sensor_ready sn s'
  /\ sensor_capacity sn s' = _obs_buffer_length s
  /\ (u64 (call_time c - sensor_time_last sn s) <= _min_obs_interval_us s ->
      sensor_stamps sn s' = [] /\ sensor_time_last sn s' = sensor_time_last sn s).
Proof.
  intros Hc Hi Hf Hl Ha s'.
  destruct (unallocate_buffers_facts sn s) as (Ui & Uf & Uo & Uc & Ut).
  assert (Um : _min_obs_interval_us (unallocate_buffers s) = _min_obs_interval_us s)
    by (destruct s; reflexivity).
  destruct (run_call_alloc c sn (unallocate_buffers s) Hc) as (H & _);
    [rewrite Ui; exact Hi|rewrite Uf; exact Hf|rewrite Uc, Uo; exact Hl|].
  specialize (H Ha). subst s'. rewrite H.
  set (u := unallocate_buffers s) in *.
  destruct (sensor_allocated_facts c sn u) as (Ai & Af & Ac & Ao & As & At & Ap).
  assert (Hr : sensor_ready sn (sensor_allocated sn u)).
  { apply sensor_ready_iff. rewrite Ai, Af, Ac, Ao, Ui, Uf. repeat split;
      [assumption..|lia]. }
  destruct (run_call_in_service c sn _ Hr) as (R & C & _).
  split; [exact R|]. split; [rewrite C, Ac; exact Uo|].
  intros Hrate.
  destruct (run_call_ready_cases c sn _ Hc Hr) as [(_ & E)|(P & _)].
  - rewrite E, As, At. split; [reflexivity|exact Ut].
  - exfalso. fold (call_passes c sn (sensor_allocated sn u)) in P.
    rewrite Ap in P. unfold call_passes in P. rewrite Ut, Um in P.
    apply andb_prop in P. destruct P as (P & _). apply Z.gtb_lt in P. lia.
Qed.

(** * The order of the stored time stamps *)

Lemma imu_init_frame_clamped (time_usec : Z) (init_alloc : bool * bool * bool)
    (s : EstimatorInterface) :
  let s' := imu_init time_usec init_alloc s in
  (_gps_buffer s' = _gps_buffer s \/ _gps_buffer s' = RingBuffer.empty)
  /\ (_baro_buffer s' = _baro_buffer s \/ _baro_buffer s' = RingBuffer.empty).
Proof.
  destruct init_alloc as [[a1 a2] a3]. destruct s.
  cbv beta delta [imu_init init initialise_interface]. ei_norm.
  destruct _initialised0; ei_norm; [split; auto|].
  destruct a1, a2, a3; ei_norm; split; auto.
Qed.

(** What a call does to the time stamps in the buffer of a sensor other than
    optical flow: nothing, or the buffer is released, or the stamp of the
    presented sample is appended, possibly to freshly reserved storage. *)
Lemma run_call_stamps_all (c : intake_call) (sn : sensor) (s : EstimatorInterface) :
  sn <> Flow ->
  let before := sensor_stamps sn s in
  let after := sensor_stamps sn (run_call c s) in
  _params (run_call c s) = _params s
  /\ (after = before \/ after = []
      \/ (call_sensor c = Some sn
          /\ exists pre, (pre = before \/ pre = [])
             /\ after = pre ++ [stored_stamp sn s (call_stamp_time c)])).
Proof.
  intros Hflow before after.
  split; [exact (proj1 (run_call_stamps c Mag s eq_refl))|].
  destruct (fixed_delay_sensor sn) eqn:Hfix.
  - destruct (run_call_stamps c sn s Hfix) as (_ & [H|[H|(Hc & pre & Hp & H)]]); auto.
    right; right. split; [exact Hc|]. exists pre. split; [exact Hp|].
    subst after. rewrite H. f_equal. f_equal.
    destruct sn; try discriminate Hfix; destruct c; try discriminate Hc; reflexivity.
  - assert (Hsn : sn = Gps \/ sn = Baro)
      by (destruct sn; try discriminate Hfix; auto; contradiction).
    destruct (call_sensor c) as [sn'|] eqn:Hc.
    + destruct (sensor_eqb sn sn') eqn:Heq.
      * apply sensor_eqb_eq in Heq. subst sn'. subst before after.
        destruct Hsn as [-> | ->]; destruct c; try discriminate Hc; cbn [run_call].
        -- destruct (setGpsData_any time_usec gps alloc_ok collect_gps
                       map_projection_project s)
             as [H|[H|(_ & _ & _ & pre & Hp & H)]]; unfold sensor_stamps.
           ++ left. rewrite H. reflexivity.
           ++ right; left. rewrite H. reflexivity.
           ++ right; right. split; [reflexivity|].
              exists (map gps_time_us pre). rewrite H, map_app. split; [|reflexivity].
              destruct Hp as [-> | ->]; auto.
        -- destruct (setBaroData_any time_usec data alloc_ok s)
             as [H|[H|(_ & pre & Hp & H)]]; unfold sensor_stamps.
           ++ left. rewrite H. reflexivity.
           ++ right; left. rewrite H. reflexivity.
           ++ right; right. split; [reflexivity|].
              exists (map baro_time_us pre). rewrite H, map_app. split; [|reflexivity].
              destruct Hp as [-> | ->]; auto.
      * left. subst before after.
        apply (via_erased (sensor_erased sn') (sensor_stamps sn));
          [apply run_call_erased; exact Hc|].
        intros t. destruct sn, sn', t; try discriminate Heq; reflexivity.
    + destruct c; try discriminate Hc. subst before after. cbn [run_call].
      pose proof (setIMUData_erased time_usec delta_ang_dt delta_vel_dt delta_ang
                    delta_vel init_alloc ci drag_alloc s) as E.
      destruct (imu_init_frame_clamped time_usec init_alloc s) as (B1 & B2).
      rewrite (via_erased imu_erased (sensor_stamps sn) _ _ E)
        by (intros t; destruct sn, t; reflexivity).
      destruct Hsn as [-> | ->]; unfold sensor_stamps.
      * destruct B1 as [-> | ->]; auto.
      * destruct B2 as [-> | ->]; auto.
Qed.

Lemma stamp_times_cons (sn : sensor) (c : intake_call) (l : list intake_call) :
  stamp_times sn (c :: l)
  = match call_sensor c with
    | Some sn' => if sensor_eqb sn sn' then call_stamp_time c :: stamp_times sn l
                  else stamp_times sn l
    | None => stamp_times sn l
    end.
Proof.
  unfold stamp_times. cbn [flat_map].
  destruct (call_sensor c) as [sn'|]; [|reflexivity].
  destruct (sensor_eqb sn sn'); reflexivity.
Qed.

Lemma stored_stamp_exact (sn : sensor) (s : EstimatorInterface) (t : Z) :
  0 <= FILTER_UPDATE_PERIOD_MS ->
  0 <= sensor_delay_ms sn (_params s) ->
  sensor_offset sn (_params s) <= t < 2 ^ 64 ->
  stored_stamp sn s t = stamp_bound sn s t.
Proof.
  intros Hf Hd Ht. unfold stored_stamp, stamp_bound.
  rewrite sensor_stamp_exact by assumption.
  destruct (clamped_sensor sn); [apply math_max_Zmax|reflexivity].
Qed.

(** The invariant behind the order of the stamps: they are in order, and
    none exceeds the stamp of a sample still to be presented. *)
Lemma run_calls_stamps_ordered (sn : sensor) (l : list intake_call) :
  sn <> Flow ->
  0 <= FILTER_UPDATE_PERIOD_MS ->
  forall s : EstimatorInterface,
    0 <= sensor_delay_ms sn (_params s) ->
    StronglySorted Z.le (stamp_times sn l) ->
    Forall (fun t => sensor_offset sn (_params s) <= t < 2 ^ 64) (stamp_times sn l) ->
    (clamped_sensor sn = true -> delayed_time_not_back l s = true) ->
    StronglySorted Z.le (sensor_stamps sn s) ->
    Forall (fun y => Forall (fun t => y <= stamp_bound sn s t) (stamp_times sn l))
           (sensor_stamps sn s) ->
    StronglySorted Z.le (sensor_stamps sn (run_calls l s)).
Proof.
  intros Hflow Hf. induction l as [|c l IH]; intros s Hd Hp Hr Hm Hs Hb; [exact Hs|].
  cbn [run_calls fold_left].
  change (fold_left (fun s c => run_call c s) l (run_call c s))
    with (run_calls l (run_call c s)).
  destruct (run_call_stamps_all c sn s Hflow) as [Pp Hstep].
  rewrite stamp_times_cons in Hp, Hr, Hb.
  assert (Hp' : StronglySorted Z.le (stamp_times sn l)).
  { destruct (call_sensor c) as [sn'|]; [|exact Hp].
    destruct (sensor_eqb sn sn'); [inversion Hp; assumption|exact Hp]. }
  assert (Hr' : Forall (fun t => sensor_offset sn (_params s) <= t < 2 ^ 64)
                       (stamp_times sn l)).
  { destruct (call_sensor c) as [sn'|]; [|exact Hr].
    destruct (sensor_eqb sn sn'); [inversion Hr; assumption|exact Hr]. }
  assert (Hb' : Forall (fun y => Forall (fun t => y <= stamp_bound sn s t)
                                        (stamp_times sn l))
                       (sensor_stamps sn s)).
  { destruct (call_sensor c) as [sn'|]; [|exact Hb].
    destruct (sensor_eqb sn sn'); [|exact Hb].
    eapply Forall_impl; [|exact Hb]. intros y Hy. inversion Hy; assumption. }
  assert (Hm' : clamped_sensor sn = true ->
                delayed_time s <= delayed_time (run_call c s)
                /\ delayed_time_not_back l (run_call c s) = true).
  { intros Hc. specialize (Hm Hc). cbn [delayed_time_not_back] in Hm.
    apply andb_prop in Hm. destruct Hm as [H1 H2].
    split; [apply Z.leb_le; exact H1|exact H2]. }
  assert (Hmono : forall t, stamp_bound sn s t <= stamp_bound sn (run_call c s) t).
  { intros t. unfold stamp_bound. rewrite Pp.
    destruct (clamped_sensor sn) eqn:Hc; [|lia].
    destruct (Hm' eq_refl) as [H1 _]. lia. }
  assert (Hlift : forall ys,
             Forall (fun y => Forall (fun t => y <= stamp_bound sn s t)
                                     (stamp_times sn l)) ys ->
             Forall (fun y => Forall (fun t => y <= stamp_bound sn (run_call c s) t)
                                     (stamp_times sn l)) ys).
  { intros ys H. eapply Forall_impl; [|exact H]. cbv beta. intros y Hy.
    eapply Forall_impl; [|exact Hy]. cbv beta. intros t Ht.
    specialize (Hmono t). lia. }
  apply IH; rewrite ?Pp; try assumption.
  - intros Hc. exact (proj2 (Hm' Hc)).
  - destruct Hstep as [->|[->|(Hc & pre & Hpre & ->)]]; [exact Hs|constructor|].
    rewrite Hc, sensor_eqb_refl in Hr, Hb.
    inversion Hr as [|? ? Ht0 _]; subst.
    rewrite stored_stamp_exact by assumption.
    destruct Hpre as [->| ->]; [|repeat constructor].
    apply StronglySorted_snoc; [exact Hs|].
    eapply Forall_impl; [|exact Hb]. intros y Hy. inversion Hy; assumption.
  - destruct Hstep as [->|[->|(Hc & pre & Hpre & ->)]];
      [apply Hlift; exact Hb'|constructor|].
    rewrite Hc, sensor_eqb_refl in Hp, Hr.
    inversion Hr as [|? ? Ht0 _]; subst.
    rewrite stored_stamp_exact by assumption.
    apply Forall_app. split.
    + destruct Hpre as [->| ->]; [apply Hlift; exact Hb'|constructor].
    + constructor; [|constructor].
      inversion Hp as [|? ? _ Hle]; subst.
      eapply Forall_impl; [|exact Hle]. cbv beta. intros t Ht.
      specialize (Hmono t). revert Hmono. unfold stamp_bound. rewrite Pp.
      destruct (clamped_sensor sn) eqn:Hcl; [|lia].
      destruct (Hm' eq_refl) as [H1 _]. lia.
Qed.

(** ** The drag buffer: means of consecutive blocks *)

Lemma StronglySorted_app_inv (l1 l2 : list Z) :
  StronglySorted Z.le (l1 ++ l2) ->
  StronglySorted Z.le l1 /\ StronglySorted Z.le l2
  /\ Forall (fun x => Forall (fun y => x <= y) l2) l1.
Proof.
  induction l1 as [|a l1 IH]; cbn [app]; intros H.
  - repeat split; [constructor|exact H|constructor].
  - inversion H as [|? ? Hs Ha]; subst.
    destruct (IH Hs) as (S1 & S2 & F).
    apply Forall_app in Ha. destruct Ha as [Ha1 Ha2].
    repeat split; [constructor; assumption|exact S2|constructor; assumption].
Qed.

(** Without overflow the unsigned sum of the times of a block lies between
    the count times a lower and times an upper bound of the times. *)
Lemma usum_bounds (ts : list Z) (lo hi : Z) :
  0 <= lo -> hi < 2 ^ 56 ->
  Forall (fun t => lo <= t <= hi) ts ->
  Z.of_nat (List.length ts) <= 255 ->
  Z.of_nat (List.length ts) * lo <= usum ts <= Z.of_nat (List.length ts) * hi.
Proof.
  intros Hlo Hhi. induction ts as [|x ts IH] using rev_ind; intros Hall Hlen.
  - cbn. lia.
  - apply Forall_app in Hall. destruct Hall as [Hts Hx].
    inversion Hx as [|? ? Hx0 _]; subst.
    rewrite length_app, Nat2Z.inj_add in Hlen |- *. cbn [List.length] in Hlen |- *.
    specialize (IH Hts ltac:(lia)).
    rewrite usum_snoc.
    assert (B : Z.of_nat (List.length ts) * hi <= 254 * 2 ^ 56) by nia.
    assert (W : u64 (usum ts + x) = usum ts + x).
    { unfold u64, wrap. apply Z.mod_small.
      change (2 ^ 64) with (256 * 2 ^ 56). nia. }
    rewrite W. nia.
Qed.

Lemma drag_block_mean_bounds (b : list imuSample) (lo hi : Z) :
  0 <= lo -> hi < 2 ^ 56 ->
  0 < Z.of_nat (List.length b) <= 255 ->
  Forall (fun t => lo <= t <= hi) (map imu_time_us b) ->
  lo <= drag_time_us (drag_block_mean b) <= hi.
Proof.
  intros Hlo Hhi Hn Hall.
  pose proof (usum_bounds (map imu_time_us b) lo hi Hlo Hhi Hall) as B.
  rewrite length_map in B. specialize (B ltac:(lia)).
  unfold drag_block_mean. cbn [drag_time_us]. split.
  - apply Z.div_le_lower_bound; lia.
  - apply Z.div_le_upper_bound; lia.
Qed.

(** The means of consecutive blocks of an ordered sequence are in order. *)
Lemma drag_means_sorted (n : Z) (blocks : list (list imuSample)) :
  0 < n <= 255 ->
  Forall (fun b => Z.of_nat (List.length b) = n) blocks ->
  StronglySorted Z.le (map imu_time_us (concat blocks)) ->
  Forall (fun t => 0 <= t < 2 ^ 56) (map imu_time_us (concat blocks)) ->
  StronglySorted Z.le (map (fun b => drag_time_us (drag_block_mean b)) blocks).
Proof.
  intros Hn Hlen. induction Hlen as [|b bs Hb Hbs IH]; intros Hs Hr; [constructor|].
  cbn [concat] in Hs, Hr. rewrite map_app in Hs, Hr.
  destruct (StronglySorted_app_inv _ _ Hs) as (_ & S2 & Hcross).
  apply Forall_app in Hr. destruct Hr as [Rb Rbs].
  cbn [map]. constructor; [apply IH; assumption|].
  apply Forall_map. apply Forall_forall. intros b' Hin.
  assert (Hb' : Z.of_nat (List.length b') = n)
    by (rewrite Forall_forall in Hbs; apply Hbs; exact Hin).
  assert (Hsub : forall y, In y (map imu_time_us b') ->
                           In y (map imu_time_us (concat bs))).
  { intros y Hy. apply in_map_iff in Hy. destruct Hy as (z & <- & Hz).
    apply in_map. apply in_concat. exists b'. split; assumption. }
  assert (R' : Forall (fun t => 0 <= t < 2 ^ 56) (map imu_time_us b')).
  { apply Forall_forall. intros y Hy. rewrite Forall_forall in Rbs.
    apply Rbs. apply Hsub. exact Hy. }
  assert (U' : drag_time_us (drag_block_mean b') <= 2 ^ 56 - 1).
  { apply (drag_block_mean_bounds b' 0 (2 ^ 56 - 1)); try lia.
    eapply Forall_impl; [|exact R']. cbv beta. intros; lia. }
  apply (drag_block_mean_bounds b 0 (drag_time_us (drag_block_mean b'))); try lia.
  apply Forall_forall. intros x Hx.
  rewrite Forall_forall in Rb. specialize (Rb x Hx). split; [lia|].
  apply (drag_block_mean_bounds b' x (2 ^ 56 - 1)); try lia.
  apply Forall_forall. intros y Hy.
  rewrite Forall_forall in R'. specialize (R' y Hy). split; [|lia].
  rewrite Forall_forall in Hcross. specialize (Hcross x Hx).
  rewrite Forall_forall in Hcross. apply Hcross. apply Hsub. exact Hy.
Qed.

Lemma run_calls_imu_pushed (l : list intake_call) (s : EstimatorInterface) :
  _initialised s = true ->
  RingBuffer.pushed (_imu_buffer (run_calls l s))
  = RingBuffer.pushed (_imu_buffer s) ++ imu_samples_pushed l.
Proof.
  revert s. induction l as [|c l IH]; intros s Hi.
  - cbn. rewrite app_nil_r. reflexivity.
  - cbn [run_calls fold_left]. fold (run_calls l (run_call c s)).
    rewrite (IH (run_call c s) (run_call_stays_initialised c s Hi)).
    destruct (run_call_imu_buffer c s Hi) as (_ & P1).
    rewrite P1, <- app_assoc, <- imu_samples_pushed_cons. reflexivity.
Qed.

(** C8 (as amended): the time stamps in every buffer the intake routines
    fill, the optical-flow buffer excepted, are non-decreasing in insertion
    order when the times they are computed from are.  For a sensor other
    than optical flow, starting from an empty buffer: the times the stamps
    are computed from ([time_usec]; for GPS the time of the message) are
    non-decreasing and no smaller than the sensor's back-dating offset, so
    that the unsigned subtraction does not wrap, and for GPS and the
    barometer, which clamp to the delayed IMU time, that time does not go
    back during the sequence.  For the IMU buffer: the times of the
    down-sampled samples follow those in the buffer in non-decreasing order.
    For the drag buffer, in service with reset accumulators: those times are
    non-decreasing and below 2^56, so that their sums do not overflow.  For
    these two the observation buffer length is not 1, so that the division
    by [_obs_buffer_length - 1] in [setIMUData] is defined.  (The
    optical-flow buffer, whose back-dating varies with the integration
    period, is not in order in general.) *)
Theorem buffers_time_ordered_except_flow (l : list intake_call)
    (s : EstimatorInterface) :
  (forall sn,
     sn <> Flow ->
     0 <= FILTER_UPDATE_PERIOD_MS ->
     0 <= sensor_delay_ms sn (_params s) ->
     sensor_stamps sn s = [] ->
     StronglySorted Z.le (stamp_times sn l) ->
     Forall (fun t => sensor_offset sn (_params s) <= t < 2 ^ 64) (stamp_times sn l) ->
     (clamped_sensor sn = true -> delayed_time_not_back l s = true) ->
     StronglySorted Z.le (sensor_stamps sn (run_calls l s)))
  /\ (_initialised s = true ->
      _obs_buffer_length s <> 1 ->
      StronglySorted Z.le (imu_stamps s ++ map imu_time_us (imu_samples_pushed l)) ->
      StronglySorted Z.le (imu_stamps (run_calls l s)))
  /\ (drag_in_service s ->
      drag_accumulated [] s ->
      drag_stamps s = [] ->
      0 <= _imu_buffer_length s < 256 ->
      2 <= _obs_buffer_length s < 256 ->
      StronglySorted Z.le (map imu_time_us (imu_samples_pushed l)) ->
      Forall (fun t => 0 <= t < 2 ^ 56) (map imu_time_us (imu_samples_pushed l)) ->
      StronglySorted Z.le (drag_stamps (run_calls l s))).
Proof.
  split; [|split].
  - intros sn Hflow Hf Hd He Hp Hr Hm.
    apply run_calls_stamps_ordered; try assumption; rewrite He; constructor.
  - intros Hi _ Hs. unfold imu_stamps in *.
    rewrite run_calls_imu_pushed, map_app by exact Hi. exact Hs.
  - intros Hs Ha He _ _ Hp Hr.
    pose proof (min_sample_ratio_bounds (_imu_buffer_length s) (_obs_buffer_length s))
      as Hn.
    destruct (run_calls_drag l [] s Hs Ha ltac:(cbn; lia))
      as (blocks & rest & H1 & H2 & _ & H4 & _).
    cbn [app] in H1. unfold drag_stamps in *.
    apply map_eq_nil in He. rewrite H4, He. cbn [app]. rewrite map_map.
    rewrite H1, map_app in Hp, Hr.
    destruct (StronglySorted_app_inv _ _ Hp) as (Sp & _).
    apply Forall_app in Hr. destruct Hr as [Rp _].
    apply (drag_means_sorted
             (min_sample_ratio (_imu_buffer_length s) (_obs_buffer_length s)));
      [lia|exact H2|exact Sp|exact Rp].
Qed.

End Interface.

(** ** Worked examples

    The constants are instantiated as in the flight code:
    [FILTER_UPDATE_PERIOD_MS = 12], [MASK_USE_GPS = 1], [MASK_USE_DRAG = 32],
    [VDIST_SENSOR_GPS = 1]. *)


(** GPS, barometer and auxiliary-velocity samples presented at the time of
    the delayed IMU sample, 0.9 s: the GPS and the barometer sample are
    stored at 0.9 s, the clamp being active, the auxiliary-velocity sample
    6 ms before it. *)
Lemma gps_baro_time_clamped_example :
  let s := ei_in_service params_default in
  let proj := fun _ _ : Z => (F32.zero, F32.zero) in
  (exists x,
     RingBuffer.pushed (_gps_buffer (setGpsData 12 1 1 900000 (gps_example 3) true false proj s))
     = RingBuffer.pushed (_gps_buffer s) ++ [x]
     /\ gps_time_us x = 900000)
  /\ (exists x,
        RingBuffer.pushed (_baro_buffer (setBaroData 12 900000 F32.zero true s))
        = RingBuffer.pushed (_baro_buffer s) ++ [x]
        /\ baro_time_us x = 900000)
  /\ (exists x,
        RingBuffer.pushed
          (_auxvel_buffer (setAuxVelData 12 900000 Vector2f_zero Vector2f_zero true s))
        = RingBuffer.pushed (_auxvel_buffer s) ++ [x]
        /\ auxvel_time_us x = 894000).
Proof.
  intros s proj.
  assert (G1 : buffer_ready s (_gps_buffer_fail s) (_gps_buffer s))
    by (vm_compute; repeat split; discriminate).
  assert (G2 : _min_obs_interval_us s < u64 (900000 - _time_last_gps s))
    by (vm_compute; reflexivity).
  assert (G3 : need_gps 1 1 s = true) by reflexivity.
  assert (G4 : 2 < gpsm_fix_type (gps_example 3)) by reflexivity.
  assert (B1 : buffer_ready s (_baro_buffer_fail s) (_baro_buffer s))
    by (vm_compute; repeat split; discriminate).
  assert (B2 : _min_obs_interval_us s < u64 (900000 - _time_last_baro s))
    by (vm_compute; reflexivity).
  assert (A1 : buffer_ready s (_auxvel_buffer_fail s) (_auxvel_buffer s))
    by (vm_compute; repeat split; discriminate).
  assert (A2 : _min_obs_interval_us s < u64 (900000 - _time_last_auxvel s))
    by (vm_compute; reflexivity).
  pose proof (gps_baro_time_clamped 12 1 1 900000 (gps_example 3) false proj F32.zero
                Vector2f_zero Vector2f_zero true s) as H.
  cbv zeta in H. destruct H as (G & B & A & _).
  destruct (G G1 G2 G3 G4) as (x & E & T).
  destruct (B B1 B2) as (y & Ey & Ty).
  destruct (A A1 A2) as (z & Ez & Tz).
  split; [|split].
  - exists x. split; [exact E|]. rewrite T. vm_compute. reflexivity.
  - exists y. split; [exact Ey|]. rewrite Ty. vm_compute. reflexivity.
  - exists z. split; [exact Ez|]. rewrite Tz. vm_compute. reflexivity.
Defined.

(** An auxiliary-velocity sample presented at the time of the delayed IMU
    sample is stored 6 ms before it: [setAuxVelData] does not clamp. *)
Lemma setAuxVelData_not_clamped :
  let s := ei_running params_default in
  let s' := setAuxVelData 12 900000 Vector2f_zero Vector2f_zero true s in
  imu_time_us (_imu_sample_delayed s') = 900000
  /\ RingBuffer.pushed (_auxvel_buffer s')
     = [mkAuxVelSample Vector2f_zero Vector2f_zero 894000]
  /\ ~ Forall (fun x => imu_time_us (_imu_sample_delayed s') <= auxvel_time_us x)
              (RingBuffer.pushed (_auxvel_buffer s')).
Proof.
  split; [vm_compute; reflexivity|]. split; [vm_compute; reflexivity|].
  intros H. vm_compute in H. inversion H as [|x l Hx Hl E]. apply Hx. reflexivity.
Qed.

(** Scenario S4: all three gyro components are NaN; the gyro rate comes from
    the IMU sample at 0.9 s, [delta_ang / delta_ang_dt = (1, 0, 0)], and the
    stored [gyroXYZ] holds its first two components scaled back by
    [delta_ang_dt]. *)
Lemma setOpticalFlowData_gyro_source_S4 :
  let flow := flow_example (mkVector3f F32.nan F32.nan F32.nan) in
  let s := set_control_status_in_air true (ei_in_service params_default) in
  exists x,
    RingBuffer.pushed (_flow_buffer (setOpticalFlowData 1000000 flow true imu_example s))
    = [x]
    /\ flow_gyro_source 1000000 flow imu_example s
       = mkVector3f (F32.of_Z 1) F32.zero F32.zero
    /\ flow_gyroXYZ x = mkVector3f (F32.lit 1 100) F32.zero F32.zero.
Proof.
  intros flow s.
  assert (H1 : buffer_ready s (_flow_buffer_fail s) (_flow_buffer s))
    by (vm_compute; repeat split; discriminate).
  assert (H2 : _min_obs_interval_us s < u64 (1000000 - _time_last_optflow s))
    by (vm_compute; reflexivity).
  assert (H3 : flow_gate flow s = true) by (vm_compute; reflexivity).
  pose proof (setOpticalFlowData_gyro_source 1000000 flow true imu_example s H1 H2 H3)
    as H.
  vm_compute in H. vm_compute. exact H.
Defined.

(** With only the first gyro component NaN the driver's gyro data are used:
    the stored [gyroXYZ] is [-gyrodata], NaN included, and not the rate of
    the IMU sample. *)
Lemma setOpticalFlowData_partial_nan_keeps_driver_gyro :
  let gyrodata := mkVector3f F32.nan (F32.lit 1 2) (F32.lit 1 4) in
  let s := set_control_status_in_air true (ei_in_service params_default) in
  let s' := setOpticalFlowData 1000000 (flow_example gyrodata) true imu_example s in
  F32.is_finite (v3_0 gyrodata) = false
  /\ RingBuffer.read_first_older_than imu_time_us 985000 (_imu_buffer s)
     = Some imu_example
  /\ map flow_time_us (RingBuffer.pushed (_flow_buffer s')) = [985000]
  /\ map flow_gyroXYZ (RingBuffer.pushed (_flow_buffer s')) = [Vector3f_neg gyrodata]
  /\ Vector3f_neg gyrodata
     <> Vector3f_div (imu_delta_ang imu_example) (imu_delta_ang_dt imu_example).
Proof.
  repeat split; try (vm_compute; reflexivity). vm_compute. discriminate.
Qed.

(** A magnetometer sample 30 ms after the last accepted one passes the
    20 ms rate limit. *)
Lemma rate_limit_rejects_up_to_interval_mag :
  let s := set_time_last_mag 1000000 (ei_in_service params_default) in
  let c := call_setMagData 1030000 Vector3f_zero true in
  (exists x, sensor_stamps Mag (run_call 12 1 32 1 c s) = sensor_stamps Mag s ++ [x])
  /\ sensor_time_last Mag (run_call 12 1 32 1 c s) = 1030000.
Proof.
  intros s c.
  assert (H1 : call_sensor c = Some Mag) by reflexivity.
  assert (H2 : sensor_ready Mag s) by (vm_compute; repeat split; discriminate).
  assert (H3 : _min_obs_interval_us s < u64 (call_time c - sensor_time_last Mag s))
    by (vm_compute; reflexivity).
  assert (H4 : call_gates 1 1 c s = true) by reflexivity.
  pose proof (proj2 (rate_limit_rejects_up_to_interval 12 1 32 1 c Mag s H1 H2) H3 H4)
    as H.
  vm_compute in H. vm_compute. exact H.
Defined.

(** A magnetometer sample arriving exactly one interval (20 ms) after the
    last accepted one is not earlier than the interval, and it is rejected. *)
Lemma setMagData_rejects_at_interval :
  let s := set_time_last_mag 1000000 (ei_in_service params_default) in
  u64 (1020000 - _time_last_mag s) = _min_obs_interval_us s
  /\ ~ u64 (1020000 - _time_last_mag s) < _min_obs_interval_us s
  /\ setMagData 12 1020000 Vector3f_zero true s = s.
Proof.
  split; [vm_compute; reflexivity|].
  split; [vm_compute; discriminate|vm_compute; reflexivity].
Qed.

(** The first IMU call on a fresh object, at one second: [_time_last_imu] is
    zero on entry and after the initialisation, and the average is updated
    all the same, from 0 to 0.2 * 0.02. *)
Lemma setIMUData_first_call_updates_dt_imu_avg :
  let s := ei_fresh params_default in
  let s' :=
    setIMUData 12 32 1000000 4000 4000 Vector3f_zero Vector3f_zero (true, true, true)
      (mkCollectImu false imu_example imu_example) true s in
  _initialised s = false
  /\ _time_last_imu s = 0
  /\ _time_last_imu (init 12 1000000 (true, true, true) s) = 0
  /\ _dt_imu_avg s = F32.zero
  /\ _dt_imu_avg s' = F32.mul (F32.lit 2 10) (F32.lit 2 100)
  /\ _dt_imu_avg s' <> _dt_imu_avg s.
Proof.
  repeat split; try (vm_compute; reflexivity). vm_compute. discriminate.
Qed.

(** Scenario S6: IMU buffer of 15 and observation buffers of 14 give a ratio
    of 5; ten IMU samples emit two drag samples. *)
Lemma drag_down_sampler_emits_S6 :
  let l :=
    map imu_call_example
      [1000000; 1012000; 1024000; 1036000; 1048000;
       1060000; 1072000; 1084000; 1096000; 1108000] in
  let s := ei_in_service params_drag in
  Z.max 5 (ceil_div (_imu_buffer_length s) (_obs_buffer_length s)) = 5
  /\ exists blocks rest,
       imu_samples_pushed l = concat blocks ++ rest
       /\ Forall (fun b => Z.of_nat (List.length b) = 5) blocks
       /\ Z.of_nat (List.length rest) < 5
       /\ RingBuffer.pushed (_drag_buffer (run_calls 12 1 32 1 l s))
          = RingBuffer.pushed (_drag_buffer s) ++ map drag_block_mean blocks
       /\ drag_accumulated rest (run_calls 12 1 32 1 l s)
       /\ Z.of_nat (List.length blocks) = 2.
Proof.
  intros l s.
  assert (H1 : drag_in_service 32 s) by (vm_compute; repeat split; discriminate).
  assert (H2 : drag_accumulated [] s) by (vm_compute; repeat split).
  assert (H3 : 0 <= _imu_buffer_length s < 256)
    by (vm_compute; split; [discriminate|reflexivity]).
  assert (H4 : 2 <= _obs_buffer_length s < 256)
    by (vm_compute; split; [discriminate|reflexivity]).
  split; [vm_compute; reflexivity|].
  exact (drag_down_sampler_emits 12 1 32 1 l s H1 H2 H3 H4).
Defined.


(** Barometer and GPS samples among ten IMU samples on an object in service
    with drag fusion selected: the barometer, GPS, IMU and drag buffers are
    in order. *)
Lemma buffers_time_ordered_except_flow_example :
  let s := ei_in_service params_drag in
  let l :=
    [call_setBaroData 900000 F32.zero true;
     imu_call_example 1000000; imu_call_example 1012000;
     call_setGpsData 1020000 (gps_example 3) true false (fun _ _ => (F32.zero, F32.zero));
     imu_call_example 1024000;
     call_setBaroData 1030000 F32.zero true;
     imu_call_example 1036000; imu_call_example 1048000;
     call_setBaroData 1060000 F32.zero true;
     imu_call_example 1060000; imu_call_example 1072000; imu_call_example 1084000;
     call_setGpsData 1090000
       (mkGpsMessage 1090000 473977420 85455940 488000 3
          (F32.lit 1 2) (F32.lit 1 2) (F32.lit 1 4) Vector3f_zero true)
       true false (fun _ _ => (F32.zero, F32.zero));
     imu_call_example 1096000; imu_call_example 1108000] in
  let s' := run_calls 12 1 32 1 l s in
  StronglySorted Z.le (sensor_stamps Baro s')
  /\ StronglySorted Z.le (sensor_stamps Gps s')
  /\ StronglySorted Z.le (imu_stamps s')
  /\ StronglySorted Z.le (drag_stamps s').
Proof.
  intros s l.
  pose proof (buffers_time_ordered_except_flow 12 1 32 1 l s) as (A & B & C).
  assert (M : delayed_time_not_back 12 1 32 1 l s = true) by (vm_compute; reflexivity).
  assert (Eb : stamp_times Baro l = [900000; 1030000; 1060000]) by reflexivity.
  assert (Eg : stamp_times Gps l = [1000000; 1090000]) by reflexivity.
  assert (Ei : map imu_time_us (imu_samples_pushed l)
               = [1000000; 1012000; 1024000; 1036000; 1048000;
                  1060000; 1072000; 1084000; 1096000; 1108000]) by reflexivity.
  assert (Ab : StronglySorted Z.le (sensor_stamps Baro (run_calls 12 1 32 1 l s))).
  { apply A.
    - discriminate.
    - discriminate.
    - vm_compute. discriminate.
    - reflexivity.
    - rewrite Eb. repeat constructor; discriminate.
    - rewrite Eb. repeat constructor; vm_compute; (discriminate || reflexivity).
    - intros _. exact M. }
  assert (Ag : StronglySorted Z.le (sensor_stamps Gps (run_calls 12 1 32 1 l s))).
  { apply A.
    - discriminate.
    - discriminate.
    - vm_compute. discriminate.
    - reflexivity.
    - rewrite Eg. repeat constructor; discriminate.
    - rewrite Eg. repeat constructor; vm_compute; (discriminate || reflexivity).
    - intros _. exact M. }
  assert (Bi : StronglySorted Z.le (imu_stamps (run_calls 12 1 32 1 l s))).
  { apply B.
    - reflexivity.
    - vm_compute. discriminate.
    - rewrite Ei. change (imu_stamps s) with [900000].
      repeat constructor; discriminate. }
  assert (Cd : StronglySorted Z.le (drag_stamps (run_calls 12 1 32 1 l s))).
  { apply C.
    - vm_compute. repeat split; discriminate.
    - vm_compute. repeat split.
    - reflexivity.
    - vm_compute. split; [discriminate|reflexivity].
    - vm_compute. split; [discriminate|reflexivity].
    - rewrite Ei. repeat constructor; discriminate.
    - rewrite Ei. repeat constructor; vm_compute; (discriminate || reflexivity). }
  intros s'. split; [exact Ab|split; [exact Ag|split; [exact Bi|exact Cd]]].
Defined.

(** Three runs with non-decreasing presented times and a buffer out of
    order.  Two optical-flow samples, the second integrated over 400 ms, are
    stored at 0.995 s and then 0.895 s.  Two magnetometer samples, the first
    presented 2 ms after time zero, less than the 6 ms it is back-dated by:
    its stamp wraps to 2^64 - 4000 and the second is stored after it at
    24 ms.  Two GPS messages presented in order, the second carrying the
    earlier message time: stored at 1.884 s and then 1.384 s. *)
Lemma buffers_not_time_ordered :
  let flow_calls :=
    [call_setOpticalFlowData 1000000 (mkFlowMessage 200 Vector2f_zero Vector3f_zero 0)
       true imu_example;
     call_setOpticalFlowData 1100000
       (mkFlowMessage 200 Vector2f_zero Vector3f_zero 400000) true imu_example] in
  let mag_calls :=
    [call_setMagData 2000 Vector3f_zero true; call_setMagData 30000 Vector3f_zero true] in
  let gps_calls :=
    [call_setGpsData 1000000
       (mkGpsMessage 2000000 473977420 85455940 488000 3
          (F32.lit 1 2) (F32.lit 1 2) (F32.lit 1 4) Vector3f_zero true)
       true false (fun _ _ => (F32.zero, F32.zero));
     call_setGpsData 1100000
       (mkGpsMessage 1500000 473977420 85455940 488000 3
          (F32.lit 1 2) (F32.lit 1 2) (F32.lit 1 4) Vector3f_zero true)
       true false (fun _ _ => (F32.zero, F32.zero))] in
  let s := ei_in_service params_default in
  let s1 := run_calls 12 1 32 1 flow_calls s in
  let s2 := run_calls 12 1 32 1 mag_calls (set_min_obs_interval_us 1000 s) in
  let s3 := run_calls 12 1 32 1 gps_calls s in
  (presented Flow flow_calls = [1000000; 1100000]
   /\ StronglySorted Z.le (presented Flow flow_calls)
   /\ sensor_stamps Flow s1 = [995000; 895000]
   /\ ~ StronglySorted Z.le (sensor_stamps Flow s1))
  /\ (presented Mag mag_calls = [2000; 30000]
      /\ sensor_stamps Mag s2 = [2 ^ 64 - 4000; 24000]
      /\ ~ StronglySorted Z.le (sensor_stamps Mag s2))
  /\ (presented Gps gps_calls = [1000000; 1100000]
      /\ sensor_stamps Gps s3 = [1884000; 1384000]
      /\ ~ StronglySorted Z.le (sensor_stamps Gps s3)).
Proof.
  intros flow_calls mag_calls gps_calls s s1 s2 s3.
  assert (U : forall a b : Z, b < a -> ~ StronglySorted Z.le [a; b]).
  { intros a b Hab H. inversion H as [|x l0 Hs Hf]; subst.
    inversion Hf as [|y m Hle Hm]; subst. lia. }
  split; [|split].
  - assert (E : presented Flow flow_calls = [1000000; 1100000]) by reflexivity.
    split; [exact E|].
    split; [rewrite E; repeat constructor; discriminate|].
    assert (S : sensor_stamps Flow s1 = [995000; 895000]) by (vm_compute; reflexivity).
    split; [exact S|]. rewrite S. apply U. reflexivity.
  - split; [reflexivity|].
    assert (S : sensor_stamps Mag s2 = [2 ^ 64 - 4000; 24000])
      by (vm_compute; reflexivity).
    split; [exact S|]. rewrite S. apply U. reflexivity.
  - split; [reflexivity|].
    assert (S : sensor_stamps Gps s3 = [1884000; 1384000]) by (vm_compute; reflexivity).
    split; [exact S|]. rewrite S. apply U. reflexivity.
Qed.

(** Re-initialising an object that has accepted auxiliary-velocity data at
    5 s: the call succeeds and [_time_last_auxvel] is still 5 s. *)
Lemma initialise_interface_resets_reinit :
  let s := set_time_last_auxvel 5000000 (ei_running params_default) in
  let s' := snd (initialise_interface 12 1000 (true, true, true) s) in
  fst (initialise_interface 12 1000 (true, true, true) s) = true
  /\ _time_last_mag s' = 0
  /\ _time_last_auxvel s' = 5000000.
Proof.
  intros s s'.
  assert (H : fst (initialise_interface 12 1000 (true, true, true) s) = true)
    by (vm_compute; reflexivity).
  split; [exact H|].
  pose proof (initialise_interface_resets 12 1 32 1 1000 (true, true, true) s H)
    as (F & A & _).
  split; [apply F|]. transitivity (_time_last_auxvel s); [exact A|reflexivity].
Defined.

(** Drag fusion selected, drag buffer not yet allocated, and the allocation
    fails: the flag is set and the IMU sample is in the buffer. *)
Lemma setIMUData_drag_allocation_failure_example :
  let s := ei_running params_drag in
  let x := imu_example in
  let s' :=
    setIMUData 12 32 1012000 4000 4000 Vector3f_zero Vector3f_zero (true, true, true)
      (mkCollectImu true x x) false s in
  _drag_buffer_fail s' = true
  /\ _imu_buffer s' = RingBuffer.push x (_imu_buffer s)
  /\ _imu_updated s' = true.
Proof.
  intros s x s'.
  assert (H1 : _initialised s = true) by reflexivity.
  assert (H2 : ci_ready (mkCollectImu true x x) = true) by reflexivity.
  assert (H3 : Z.land (fusion_mode (_params s)) 32 <> 0) by (vm_compute; discriminate).
  assert (H4 : _drag_buffer_fail s = false) by reflexivity.
  assert (H5 : RingBuffer.get_length (_drag_buffer s) < _obs_buffer_length s)
    by (vm_compute; reflexivity).
  assert (H6 : _obs_buffer_length s <> 1) by (vm_compute; discriminate).
  pose proof (setIMUData_drag_allocation_failure 12 1 32 1 1012000 4000 4000
                Vector3f_zero Vector3f_zero (true, true, true)
                (mkCollectImu true x x) s H1 H2 H3 H4 H5 H6)
    as ((F1 & F2 & F3 & _) & _).
  split; [exact F1|]. split; [exact F2|exact F3].
Defined.

(** ** Worked examples for the further properties *)

Ltac holds := vm_compute; first [reflexivity | repeat split; first [discriminate | reflexivity]].

(** A magnetometer call on an object whose magnetometer buffer could not be
    allocated changes nothing. *)
Lemma failed_sensor_call_ignored_mag :
  let s := set_mag_buffer_fail true (ei_running params_default) in
  let c := call_setMagData 1030000 Vector3f_zero true in
  run_call 12 1 32 1 c s = s.
Proof.
  intros s c.
  assert (H1 : call_sensor c = Some Mag) by reflexivity.
  assert (H2 : sensor_fail Mag s = true) by reflexivity.
  exact (failed_sensor_call_ignored 12 1 32 1 c Mag s H1 H2).
Defined.

(** Magnetometer, GPS and barometer data presented to a fresh object are
    discarded. *)
Lemma uninitialised_sensor_calls_ignored_fresh :
  let s := ei_fresh params_default in
  let l := [call_setMagData 1000000 Vector3f_zero true;
            call_setGpsData 1000000 (gps_example 3) true true
              (fun _ _ => (F32.zero, F32.zero));
            call_setBaroData 1000000 F32.zero true] in
  run_calls 12 1 32 1 l s = s.
Proof.
  intros s l.
  assert (H1 : Forall (fun c => call_sensor c <> None) l)
    by (repeat constructor; discriminate).
  assert (H2 : _initialised s = false) by reflexivity.
  exact (uninitialised_sensor_calls_ignored 12 1 32 1 l s H1 H2).
Defined.

(** The first barometer call on an object in service, with the allocation
    failing, and two further barometer calls. *)
Lemma failed_allocation_takes_sensor_out_of_service_baro :
  let s := ei_running params_default in
  let c := call_setBaroData 1000000 F32.zero false in
  let s' := run_call 12 1 32 1 c s in
  sensor_fail Baro s' = true
  /\ sensor_capacity Baro s' = 0
  /\ sensor_stamps Baro s' = []
  /\ sensor_time_last Baro s' = sensor_time_last Baro s
  /\ run_calls 12 1 32 1 [call_setBaroData 1030000 F32.zero true;
                          call_setBaroData 1060000 F32.zero true] s' = s'.
Proof.
  intros s c.
  assert (H1 : call_sensor c = Some Baro) by reflexivity.
  assert (H2 : _initialised s = true) by reflexivity.
  assert (H3 : sensor_fail Baro s = false) by reflexivity.
  assert (H4 : sensor_capacity Baro s < _obs_buffer_length s) by holds.
  assert (H5 : call_alloc_ok c = false) by reflexivity.
  pose proof (failed_allocation_takes_sensor_out_of_service 12 1 32 1 c Baro s
                H1 H2 H3 H4 H5) as (F & C & S & T & K).
  intros s'.
  split; [exact F|split; [exact C|split; [exact S|split; [exact T|]]]].
  apply K. constructor; [reflexivity|]. constructor; [reflexivity|constructor].
Defined.

(** The first range call on an object in service reserves 14 slots and
    stores its sample. *)
Lemma first_use_reserves_obs_buffer_length_range :
  let s := ei_running params_default in
  let c := call_setRangeData 1000000 (F32.lit 3 2) true in
  let s' := run_call 12 1 32 1 c s in
  sensor_capacity Range s' = 14
  /\ sensor_stamps Range s' = [995000]
  /\ sensor_ready Range s'.
Proof.
  intros s c.
  assert (H1 : call_sensor c = Some Range) by reflexivity.
  assert (H2 : _initialised s = true) by reflexivity.
  assert (H3 : sensor_fail Range s = false) by reflexivity.
  assert (H4 : sensor_capacity Range s < _obs_buffer_length s) by holds.
  assert (H5 : call_alloc_ok c = true) by reflexivity.
  pose proof (first_use_reserves_obs_buffer_length 12 1 32 1 c Range s
                H1 H2 H3 H4 H5) as (R & C & _).
  intros s'. split; [exact C|]. split; [vm_compute; reflexivity|exact R].
Defined.

(** An airspeed call assigns airspeed members only. *)
Lemma sensor_call_assigns_own_members_airspeed :
  let s := ei_running params_default in
  let c := call_setAirspeedData 1000000 (F32.of_Z 20) (F32.of_Z 1) true in
  sensor_erased Airspeed (run_call 12 1 32 1 c s) = sensor_erased Airspeed s.
Proof.
  intros s c.
  assert (H1 : call_sensor c = Some Airspeed) by reflexivity.
  exact (sensor_call_assigns_own_members 12 1 32 1 c Airspeed s H1).
Defined.

(** An IMU call on an object in service with a GPS sample in its buffer
    leaves that buffer alone. *)
Lemma setIMUData_assigns_imu_members_in_service :
  let s := ei_in_service params_default in
  let s' :=
    setIMUData 12 32 1000000 4000 4000 Vector3f_zero Vector3f_zero (true, true, true)
      (mkCollectImu true imu_example imu_example) true s in
  imu_erased s' = imu_erased s
  /\ forall sn, sensor_stamps sn s' = sensor_stamps sn s
                /\ sensor_capacity sn s' = sensor_capacity sn s
                /\ sensor_fail sn s' = sensor_fail sn s
                /\ sensor_time_last sn s' = sensor_time_last sn s.
Proof.
  intros s.
  assert (H1 : _initialised s = true) by reflexivity.
  exact (setIMUData_assigns_imu_members 12 32 1000000 4000 4000 Vector3f_zero
           Vector3f_zero (true, true, true) (mkCollectImu true imu_example imu_example)
           true s H1).
Defined.

(** An IMU call followed by a magnetometer call on an object in service. *)
Lemma configuration_fixed_in_service_example :
  let s := ei_in_service params_default in
  let l := [imu_call_example 1000000; call_setMagData 1030000 Vector3f_zero true] in
  configuration (run_calls 12 1 32 1 l s) = configuration s.
Proof.
  intros s l.
  assert (H1 : _initialised s = true) by reflexivity.
  exact (configuration_fixed_in_service 12 1 32 1 l s H1).
Defined.

Lemma intake_keeps_local_position_validity_example :
  let s := set_deadreckon_time_exceeded true (ei_in_service params_default) in
  let l := [imu_call_example 1000000; call_setMagData 1030000 Vector3f_zero true] in
  local_position_is_valid (run_calls 12 1 32 1 l s) = local_position_is_valid s.
Proof.
  intros s l.
  assert (H1 : _initialised s = true) by reflexivity.
  exact (intake_keeps_local_position_validity 12 1 32 1 l s H1).
Defined.

(** A magnetometer failure flag set before the first IMU sample survives the
    initialisation by the first IMU call and a magnetometer call after it. *)
Lemma allocation_failure_is_permanent_mag :
  let s := set_mag_buffer_fail true (ei_fresh params_default) in
  let l := [imu_call_example 1000000; call_setMagData 1030000 Vector3f_zero true] in
  sensor_fail Mag (run_calls 12 1 32 1 l s) = true.
Proof.
  intros s l.
  assert (H1 : sensor_fail Mag s = true) by reflexivity.
  exact (proj2 (allocation_failure_is_permanent 12 1 32 1 Mag s) H1 l).
Defined.

(** An IMU call without a down-sampled sample on an object in service. *)
Lemma setIMUData_bookkeeping_example :
  let s := ei_in_service params_default in
  let s' :=
    setIMUData 12 32 1000000 4000 4000 Vector3f_zero Vector3f_zero (true, true, true)
      (mkCollectImu false imu_example imu_example) true s in
  _imu_updated s' = false
  /\ _time_last_imu s' = 1000000
  /\ _imu_buffer s' = _imu_buffer s
  /\ _imu_ticks s' = 1.
Proof.
  intros s.
  assert (H1 : _initialised s = true) by reflexivity.
  pose proof (setIMUData_bookkeeping 12 32 1000000 4000 4000 Vector3f_zero
                Vector3f_zero (true, true, true)
                (mkCollectImu false imu_example imu_example) true s)
    as (U & _ & _ & T & K).
  destruct (K H1) as (B & N).
  intros s'. split; [exact U|split; [exact T|split; [exact B|exact N]]].
Defined.

(** Three IMU calls, the second without a down-sampled sample, and a
    magnetometer call: two samples enter the IMU buffer. *)
Lemma imu_buffer_history_example :
  let s := ei_in_service params_default in
  let l := [imu_call_example 1000000;
            call_setIMUData 1004000 4000 4000 Vector3f_zero Vector3f_zero
              (true, true, true) (mkCollectImu false imu_example imu_example) true;
            call_setMagData 1030000 Vector3f_zero true;
            imu_call_example 1012000] in
  RingBuffer.length (_imu_buffer (run_calls 12 1 32 1 l s))
  = RingBuffer.length (_imu_buffer s)
  /\ RingBuffer.pushed (_imu_buffer (run_calls 12 1 32 1 l s))
     = RingBuffer.pushed (_imu_buffer s) ++ imu_samples_pushed l.
Proof.
  intros s l.
  assert (H1 : _initialised s = true) by reflexivity.
  exact (imu_buffer_history 12 1 32 1 l s H1).
Defined.

(** The magnetometer buffer through IMU, GPS and magnetometer calls. *)
Lemma sensor_in_service_stays_in_service_mag :
  let s := ei_in_service params_default in
  let l := [call_setMagData 1000000 Vector3f_zero true;
            imu_call_example 1012000;
            call_setGpsData 1020000 (gps_example 3) true true
              (fun _ _ => (F32.zero, F32.zero));
            call_setMagData 1030000 Vector3f_zero true] in
  sensor_ready Mag (run_calls 12 1 32 1 l s)
  /\ sensor_capacity Mag (run_calls 12 1 32 1 l s) = sensor_capacity Mag s
  /\ exists suffix,
       sensor_stamps Mag (run_calls 12 1 32 1 l s) = sensor_stamps Mag s ++ suffix
       /\ (length suffix <= length (presented Mag l))%nat.
Proof.
  intros s l.
  assert (H1 : sensor_ready Mag s) by holds.
  exact (sensor_in_service_stays_in_service 12 1 32 1 Mag l s H1).
Defined.

(** Magnetometer samples at 1.03 s, 1.06 s after one accepted at 1 s. *)
Lemma consecutive_accepted_samples_are_spaced_mag :
  let s := set_time_last_mag 1000000 (ei_in_service params_default) in
  let c1 := call_setMagData 1030000 Vector3f_zero true in
  let c2 := call_setMagData 1060000 Vector3f_zero true in
  _min_obs_interval_us s < u64 (call_time c1 - sensor_time_last Mag s)
  /\ _min_obs_interval_us s < u64 (call_time c2 - call_time c1).
Proof.
  intros s c1 c2.
  assert (H1 : call_sensor c1 = Some Mag) by reflexivity.
  assert (H2 : call_sensor c2 = Some Mag) by reflexivity.
  assert (H3 : sensor_ready Mag s) by holds.
  assert (H4 : length (sensor_stamps Mag (run_call 12 1 32 1 c2 (run_call 12 1 32 1 c1 s)))
               = S (S (length (sensor_stamps Mag s)))) by (vm_compute; reflexivity).
  exact (consecutive_accepted_samples_are_spaced 12 1 32 1 c1 c2 Mag s H1 H2 H3 H4).
Defined.

(** A magnetometer sample stamped half a second before the last accepted
    one is stored. *)
Lemma earlier_time_passes_rate_limit_mag :
  let s := set_time_last_mag 1000000 (ei_in_service params_default) in
  let c := call_setMagData 500000 Vector3f_zero true in
  sensor_time_last Mag (run_call 12 1 32 1 c s) = call_time c
  /\ exists x, sensor_stamps Mag (run_call 12 1 32 1 c s) = sensor_stamps Mag s ++ [x].
Proof.
  intros s c.
  assert (H1 : call_sensor c = Some Mag) by reflexivity.
  assert (H2 : sensor_ready Mag s) by holds.
  assert (H3 : call_gates 1 1 c s = true) by reflexivity.
  assert (H4 : 0 <= call_time c < sensor_time_last Mag s) by holds.
  assert (H5 : sensor_time_last Mag s < 2 ^ 64) by holds.
  assert (H6 : _min_obs_interval_us s < 2 ^ 64 - (sensor_time_last Mag s - call_time c))
    by holds.
  exact (earlier_time_passes_rate_limit 12 1 32 1 c Mag s H1 H2 H3 H4 H5 H6).
Defined.

(** The second of the three allocations fails on an object with its sensor
    buffers in service. *)
Lemma initialise_interface_failure_example :
  let s := ei_in_service params_default in
  let s' := snd (initialise_interface 12 1000000 (true, false, true) s) in
  (forall sn, sensor_capacity sn s' = 0 /\ sensor_stamps sn s' = []
              /\ sensor_time_last sn s' = sensor_time_last sn s)
  /\ RingBuffer.get_length (_imu_buffer s') = 0
  /\ RingBuffer.get_length (_output_buffer s') = 0
  /\ RingBuffer.get_length (_output_vert_buffer s') = 0
  /\ RingBuffer.get_length (_drag_buffer s') = 0
  /\ _initialised s' = _initialised s
  /\ _time_last_imu s' = _time_last_imu s
  /\ _dt_imu_avg s' = _dt_imu_avg s
  /\ _imu_sample_delayed s' = _imu_sample_delayed s
  /\ _imu_ticks s' = _imu_ticks s
  /\ _fault_status_value s' = _fault_status_value s
  /\ _imu_buffer_length s'
     = _imu_buffer_length (snd (initialise_interface 12 1000000 (true, true, true) s))
  /\ _obs_buffer_length s'
     = _obs_buffer_length (snd (initialise_interface 12 1000000 (true, true, true) s)).
Proof.
  intros s.
  assert (H1 : true && false && true = false) by reflexivity.
  exact (proj2 (initialise_interface_failure 12 1000000 true false true s) H1).
Defined.

(** The default parameters with the third allocation failing: the lengths
    are 14 and 15 all the same. *)
Lemma obs_buffer_length_at_most_imu_buffer_length_default :
  let s := ei_fresh params_default in
  let s' := snd (initialise_interface 12 1000000 (true, true, false) s) in
  0 <= _obs_buffer_length s' <= _imu_buffer_length s' /\ _imu_buffer_length s' < 256.
Proof.
  intros s.
  assert (H1 : 0 < 12) by reflexivity.
  assert (H2 : 0 < sensor_interval_min_ms (_params s)) by reflexivity.
  exact (obs_buffer_length_at_most_imu_buffer_length 12 1000000 (true, true, false)
           s H1 H2).
Defined.

(** A fresh object with the default parameters: 15 slots each. *)
Lemma initialise_interface_success_capacities_fresh :
  let s := ei_fresh params_default in
  let s' := snd (initialise_interface 12 1000000 (true, true, true) s) in
  RingBuffer.get_length (_imu_buffer s') = _imu_buffer_length s'
  /\ RingBuffer.get_length (_output_buffer s') = _imu_buffer_length s'
  /\ RingBuffer.get_length (_output_vert_buffer s') = _imu_buffer_length s'
  /\ _drag_buffer s' = _drag_buffer s
  /\ (forall sn, sensor_capacity sn s' = sensor_capacity sn s
                 /\ sensor_stamps sn s' = sensor_stamps sn s)
  /\ _initialised s' = false.
Proof.
  intros s.
  assert (H1 : fst (initialise_interface 12 1000000 (true, true, true) s) = true)
    by (vm_compute; reflexivity).
  exact (initialise_interface_success_capacities 12 1000000 (true, true, true) s H1).
Defined.

(** Two IMU calls with [fusion_mode = 1]: bit 5 is clear. *)
Lemma drag_untouched_when_not_selected_example :
  let s := ei_running params_default in
  let l := [imu_call_example 1000000; imu_call_example 1012000] in
  drag_members (run_calls 12 1 32 1 l s) = drag_members s.
Proof.
  intros s l.
  assert (H1 : _initialised s = true) by reflexivity.
  assert (H2 : Z.land (fusion_mode (_params s)) 32 = 0) by reflexivity.
  exact (drag_untouched_when_not_selected 12 1 32 1 l s H1 H2).
Defined.

(** On the ground, quality 10 below the minimum of 50, gyro rates 0.5 and
    0.25 about X and Y. *)
Lemma ground_poor_quality_flow_is_zeroed_example :
  let s := ei_in_service params_default in
  let flow :=
    mkFlowMessage 10 (mkVector2f (F32.lit 1 100) (F32.lit 2 100))
      (mkVector3f (F32.lit 1 2) (F32.lit 1 4) F32.zero) 20000 in
  exists x,
    RingBuffer.pushed (_flow_buffer (setOpticalFlowData 1000000 flow true imu_example s))
    = RingBuffer.pushed (_flow_buffer s) ++ [x]
    /\ flow_quality x = flowm_quality flow
    /\ flow_flowRadXY x
       = mkVector2f (F32.opp (v3_0 (flowm_gyrodata flow)))
                    (F32.opp (v3_1 (flowm_gyrodata flow)))
    /\ flow_gyroXYZ x = Vector3f_neg (flowm_gyrodata flow)
    /\ flow_flowRadXYcomp x = mkVector2f F32.zero F32.zero.
Proof.
  intros s flow.
  assert (H1 : sensor_ready Flow s) by holds.
  assert (H2 : _min_obs_interval_us s < u64 (1000000 - _time_last_optflow s)) by holds.
  assert (H3 : _control_status_in_air s = false) by reflexivity.
  assert (H4 : flowm_quality flow < flow_qual_min (_params s)) by holds.
  assert (H5 : F32.is_finite (v3_0 (flowm_gyrodata flow)) = true)
    by (vm_compute; reflexivity).
  assert (H6 : F32.is_finite (v3_1 (flowm_gyrodata flow)) = true)
    by (vm_compute; reflexivity).
  exact (ground_poor_quality_flow_is_zeroed 1000000 flow true imu_example s
           H1 H2 H3 H4 H5 H6).
Defined.

(** A flow message integrated over 5 ms against a 20 ms minimum interval, on
    the ground: stored with an integration time of 10 ms. *)
Lemma short_integration_flow_ground :
  let s := ei_in_service params_default in
  let flow :=
    mkFlowMessage 200 (mkVector2f (F32.lit 1 100) (F32.lit 2 100))
      (mkVector3f (F32.lit 1 2) (F32.lit 1 4) F32.zero) 5000 in
  let s' := setOpticalFlowData 1000000 flow true imu_example s in
  exists x,
    RingBuffer.pushed (_flow_buffer s') = RingBuffer.pushed (_flow_buffer s) ++ [x]
    /\ flow_dt x = flow_delta_time_min s
    /\ _time_last_optflow s' = 1000000.
Proof.
  intros s flow.
  assert (H1 : sensor_ready Flow s) by holds.
  assert (H2 : _min_obs_interval_us s < u64 (1000000 - _time_last_optflow s)) by holds.
  assert (H3 : flow_delta_time_good flow s = false) by (vm_compute; reflexivity).
  exact (short_integration_flow 1000000 flow true imu_example s H1 H2 H3).
Defined.

(** The default parameters: 175 ms against a 12 ms period, 263 ms against a
    20 ms interval; the length is not 1. *)
Lemma obs_buffer_length_one_iff_default :
  let s := ei_fresh params_default in
  let s' := snd (initialise_interface 12 1000000 (true, true, true) s) in
  1 <= _obs_buffer_length s' /\ _obs_buffer_length s' - 1 <> 0.
Proof.
  intros s.
  assert (H1 : 0 < 12) by reflexivity.
  assert (H2 : 0 < sensor_interval_min_ms (_params s)) by reflexivity.
  assert (H3 : max_time_delay_ms (_params s) / 12 < 255) by (vm_compute; reflexivity).
  assert (H4 : ekf_delay_ms (max_time_delay_ms (_params s))
               / sensor_interval_min_ms (_params s) < 255) by (vm_compute; reflexivity).
  pose proof (obs_buffer_length_one_iff 12 1000000 (true, true, true) s H1 H2 H3 H4)
    as (A & B).
  intros s'. split; [exact A|].
  intros E. apply B in E. vm_compute in E. destruct E; discriminate.
Defined.

(** The magnetometer buffer released and reserved again by a call 10 ms
    after the last accepted sample: 14 slots, and the sample is held back. *)
Lemma intake_after_unallocate_reserves_again_mag :
  let s := set_time_last_mag 1000000 (ei_in_service params_default) in
  let c := call_setMagData 1010000 Vector3f_zero true in
  let s' := run_call 12 1 32 1 c (unallocate_buffers s) in
  sensor_ready Mag s'
  /\ sensor_capacity Mag s' = _obs_buffer_length s
  /\ sensor_stamps Mag s' = []
  /\ sensor_time_last Mag s' = sensor_time_last Mag s.
Proof.
  intros s c.
  assert (H1 : call_sensor c = Some Mag) by reflexivity.
  assert (H2 : _initialised s = true) by reflexivity.
  assert (H3 : sensor_fail Mag s = false) by reflexivity.
  assert (H4 : 0 < _obs_buffer_length s) by reflexivity.
  assert (H5 : call_alloc_ok c = true) by reflexivity.
  assert (H6 : u64 (call_time c - sensor_time_last Mag s) <= _min_obs_interval_us s)
    by holds.
  pose proof (intake_after_unallocate_reserves_again 12 1 32 1 c Mag s
                H1 H2 H3 H4 H5) as (R & C & K).
  destruct (K H6) as (S & T).
  intros s'. split; [exact R|split; [exact C|split; [exact S|exact T]]].
Defined.
